(** * SafeSignal: signal fusion, stress inference, gesture hold and the
      emergency pre-alert machine

    A shallow embedding of the JavaScript sources of the Safe-Signal
    repository, followed by the properties established about them.

    Conventions of the embedding.

    - JavaScript numbers of the scoring layer ([riskEngine.js],
      [stressInference.js], [smoothing.js], [audioPipeline.js],
      [gesturePipeline.js]) are exact rationals [Q]: [+ - * /] are the
      field operations, [Math.min]/[Math.max] are [Qmin]/[Qmax],
      [Math.abs] is [Qabs].  [Math.sqrt] is a parameter [sqrt : Q -> Q] of
      the sections that need it; nothing is assumed about it.  The code
      rounds each operation to binary64 where the rationals do not:
      identities that hold in exact arithmetic only (the mean of a constant
      list being that constant, say) are not properties of the code and are
      not stated.  The rationals have no NaN either: where the code can
      produce one from numbers (the cepstral matrix of
      [computeStressScore]) a predicate marks the inputs on which it does
      not.
    - The frame-level extraction of [featureExtractor.js] divides by
      [frame.length], so the value of [0 / 0] matters there: these functions
      are embedded over IEEE-754 binary64 ([PrimFloat]), which is what a
      JavaScript number is.  So is the frame size of [audioProcessor.js],
      the floor of a rounded product.
    - Module-level [let] variables and object fields become explicit state:
      a function that mutates returns the new state next to its result.
    - Browser timers ([setInterval], [setTimeout]) are a finite map from
      timer ids to the registered callback; a callback is delivered only
      while its id is in the table.

    Part I holds the definitions, one module per source file; Part II the
    lemmas and theorems. *)

From stdpp Require Import base option list gmap.
From Stdlib Require Import ZArith QArith Qminmax Qabs Lqa Lia Bool List String.
From Stdlib Require Import Floats.PrimFloat.
From Stdlib Require Floats.FloatOps Floats.SpecFloat.
From Stdlib Require Numbers.Cyclic.Int63.Uint63.
From Stdlib Require Import Qround.
Import ListNotations.

Local Open Scope Q_scope.

(* ===================================================================== *)
(** * Part I: the embedding                                               *)
(* ===================================================================== *)

(** ** Comparisons of JavaScript numbers, as booleans *)

(** [a < b] *)
Definition Qltb (a b : Q) : bool := negb (Qle_bool b a).

(** [a > b] *)
Definition Qgtb (a b : Q) : bool := Qltb b a.

(** [a >= b] *)
Definition Qgeb (a b : Q) : bool := Qle_bool b a.

(** [arr.length] as a number *)
Definition Qlen {A : Type} (l : list A) : Q := inject_Z (Z.of_nat (List.length l)).

(** An instance of the [sqrt] parameter with which the definitions can be
    run on samples: the square root truncated to six decimals. *)
Definition sqrtApprox (q : Q) : Q :=
  inject_Z (Z.sqrt (Qnum q * 1000000000000 / Zpos (Qden q))) / 1000000.

(* --------------------------------------------------------------------- *)
(** ** src/utils/riskEngine.js                                            *)
(* --------------------------------------------------------------------- *)

Module RiskEngine.

Record Weights : Type := mkWeights { gesture : Q; stress : Q; motion : Q }.

Definition weights : Weights :=
  {| gesture := 0.5; stress := 0.3; motion := 0.2 |}.

(** [calculateRisk], lines 10-23. *)
Definition calculateRisk (gestureScore stressScore motionScore : Q) : Q :=
  let riskScore :=
    gestureScore * gesture weights +
    stressScore * stress weights +
    motionScore * motion weights in
  Qmin (Qmax riskScore 0) 1.

Inductive RiskLevel : Type := safe | moderate | danger.

(** [getRiskLevel], lines 63-67. *)
Definition getRiskLevel (riskScore : Q) : RiskLevel :=
  if Qltb riskScore 0.3 then safe
  else if Qltb riskScore 0.75 then moderate
  else danger.

Record Contact : Type := mkContact { name : string; phone : string }.

Record Location : Type := mkLocation { lat : Q; lng : Q }.

(** The object built by [triggerEmergency] and written to
    [localStorage.lastEmergency].  [location] is whatever the caller passed,
    which in JavaScript may be [undefined]: hence the [option]. *)
Record EmergencyData : Type := mkEmergencyData {
  timestamp : Z;
  location : option Location;
  contacts : list Contact
}.

(** [triggerEmergency], lines 88-105; [now] is [new Date()]. *)
Definition triggerEmergency (now : Z) (contacts : list Contact)
    (location : option Location) : EmergencyData :=
  {| timestamp := now; location := location; contacts := contacts |}.

(** [detectGesture], [detectStress] and [detectMotion], lines 30-56: the
    mock detectors, as functions of the value of [Math.random()]. *)
Definition detectGesture (random : Q) : Q :=
  if Qgtb random 0.95 then 1 else 0.

Definition detectStress (random : Q) : Q := random * 0.3.

Definition detectMotion (random : Q) : Q := random * 0.2.

End RiskEngine.

(** The clamp of the specification's formula
    [risk = clamp(gesture*0.5 + stress*0.3 + motion*0.2, 0, 1)], written
    from its words: values below [lo] become [lo], values above [hi] become
    [hi], the others are kept. *)
Definition spec_clamp (x lo hi : Q) : Q :=
  if Qltb x lo then lo else if Qltb hi x then hi else x.

(** The domain of the fusion contract: a gesture score of 0 or 1, and the
    unit interval for stress and motion. *)
Definition gestureValue (g : Q) : Prop := g == 0 \/ g == 1.
Definition unitInterval (v : Q) : Prop := 0 <= v <= 1.

(* --------------------------------------------------------------------- *)
(** ** src/utils/audio/stressInference.js (with [calculateStats] of
       featureExtractor.js)                                               *)
(* --------------------------------------------------------------------- *)

Module StressInference.

(** Output of [buildFeatureMatrix]: one entry per 25 ms frame. *)
Record FeatureMatrix : Type := mkFeatureMatrix {
  mfcc : list (list Q);
  pitch : list Q;
  rms : list Q;
  zcr : list Q;
  spectralCentroid : list Q;
  timestamps : list Q
}.

(** Calibration baseline [{ pitch, rms, centroid }]. *)
Record Baseline : Type := mkBaseline {
  base_pitch : Q;
  base_rms : Q;
  base_centroid : Q
}.

Record Stats : Type := mkStats {
  mean : Q; std : Q; variance : Q; min : Q; max : Q
}.

(** The five per-feature scores of step 3 of [computeStressScore]. *)
Record Scores : Type := mkScores {
  pitchScore : Q; rmsScore : Q; mfccScore : Q; centroidScore : Q; zcrScore : Q
}.

(** The weights [wPitch, wRMS, wMFCC, wCentroid, wZCR] of step 4. *)
Record FeatureWeights : Type := mkFeatureWeights {
  wPitch : Q; wRMS : Q; wMFCC : Q; wCentroid : Q; wZCR : Q
}.

Definition VAD_MIN_RMS : Q := 0.01.
Definition NOISE_HIGH_THRESHOLD : Q := 0.05.
Definition SPIKE_LIMIT : Q := 0.15.

(** Initial value of the module-level [previousStressScore]. *)
Definition initialStressScore : Q := 0.

(** [resetStressState], lines 123-125: the new [previousStressScore]. *)
Definition resetStressState : Q := 0.

(** [_applySpikeLimiter], lines 186-194.  Takes the stored
    [previousStressScore]; returns the rate-limited score and the new stored
    value. *)
Definition _applySpikeLimiter (newScore previousStressScore : Q) : Q * Q :=
  let delta := newScore - previousStressScore in
  let newScore :=
    if Qgtb delta SPIKE_LIMIT then previousStressScore + SPIKE_LIMIT
    else newScore in
  (newScore, newScore).


Definition noiseCompensation (noiseFloor : Q) : FeatureWeights :=
  let wPitch0 := 0.30 in
  let wRMS0 := 0.25 in
  if Qgtb noiseFloor NOISE_HIGH_THRESHOLD then
    let rmsReduction := wRMS0 * 0.20 in
    {| wPitch := wPitch0 + rmsReduction; wRMS := wRMS0 - rmsReduction;
       wMFCC := 0.20; wCentroid := 0.15; wZCR := 0.10 |}
  else
    {| wPitch := wPitch0; wRMS := wRMS0;
       wMFCC := 0.20; wCentroid := 0.15; wZCR := 0.10 |}.

(** Lines 106-111: the weighted combination. *)
Definition weightedCombination (s : Scores) (w : FeatureWeights) : Q :=
  pitchScore s * wPitch w +
  rmsScore s * wRMS w +
  mfccScore s * wMFCC w +
  centroidScore s * wCentroid w +
  zcrScore s * wZCR w.

Section WithSqrt.

(** [Math.sqrt]. *)
Variable sqrt : Q -> Q.

(** [calculateStats] (featureExtractor.js, lines 160-170). *)
Definition calculateStats (values : list Q) : Stats :=
  match values with
  | [] => mkStats 0 0 0 0 0
  | v0 :: rest =>
      let mean := fold_left (fun a b => a + b) values 0 / Qlen values in
      let variance :=
        fold_left (fun a b => a + (b - mean) ^ 2) values 0 / Qlen values in
      let std := sqrt variance in
      mkStats mean std variance (fold_left Qmin rest v0) (fold_left Qmax rest v0)
  end.

(** Where [_calculateMFCCTemporalVariance] stays within the numbers.
    Given two rows or more, the code divides by the length of the first row
    and reads that many coefficients of every row: an empty first row makes
    it compute 0 / 0, a row shorter than the first makes it compute
    [undefined - x], and it returns NaN either way.  The rationals have no
    NaN: the definition below is the code on the matrices that
    [coefficientsPresent] accepts (those of [buildFeatureMatrix] are among
    them, their rows all having the same positive length), and says nothing
    of the code on the others. *)
Definition coefficientsPresent (mfccMatrix : list (list Q)) : bool :=
  (List.length mfccMatrix <? 2)%nat
  || (let numCoeffs := List.length (nth 0%nat mfccMatrix []) in
      (0 <? numCoeffs)%nat
      && forallb (fun row => (numCoeffs <=? List.length row)%nat) mfccMatrix).

(** The windows on which [computeStressScore] computes with numbers
    only. *)
Definition numericWindow (featureMatrix : option FeatureMatrix) : bool :=
  match featureMatrix with
  | None => true
  | Some fm => coefficientsPresent (mfcc fm)
  end.

(** [_calculateMFCCTemporalVariance], lines 202-216, on a matrix that
    [coefficientsPresent] accepts. *)
Definition _calculateMFCCTemporalVariance (mfccMatrix : list (list Q)) : Q :=
  if (List.length mfccMatrix <? 2)%nat then 0
  else
    let numCoeffs := List.length (nth 0%nat mfccMatrix []) in
    let totalDifference :=
      fold_left
        (fun total t =>
           fold_left
             (fun total c =>
                let diff :=
                  nth c (nth t mfccMatrix []) 0 -
                  nth c (nth (t - 1)%nat mfccMatrix []) 0 in
                total + diff * diff)
             (seq 0 numCoeffs) total)
        (seq 1 (List.length mfccMatrix - 1)) 0 in
    sqrt (totalDifference
          / inject_Z (Z.of_nat (List.length mfccMatrix - 1))
          / inject_Z (Z.of_nat numCoeffs)).

(** Lines 57-87 of [computeStressScore]: statistics and per-feature
    scores of a window that passed the gate. *)
Definition featureScores (featureMatrix : FeatureMatrix)
    (baseline : option Baseline) : Scores :=
  let rmsStats := calculateStats (rms featureMatrix) in
  let voicedPitch := List.filter (fun p => Qgtb p 0) (pitch featureMatrix) in
  let pitchStats :=
    calculateStats
      (if (0 <? List.length voicedPitch)%nat then voicedPitch else [0]) in
  let zcrStats := calculateStats (zcr featureMatrix) in
  let centroidStats := calculateStats (spectralCentroid featureMatrix) in
  let mfccVariance := _calculateMFCCTemporalVariance (mfcc featureMatrix) in
  let usable :=
    match baseline with
    | Some b =>
        Qgtb (base_pitch b) 0 && Qgtb (base_rms b) 0 && Qgtb (base_centroid b) 0
    | None => false
    end in
  let '(pitchScore, rmsScore, centroidScore) :=
    match baseline, usable with
    | Some b, true =>
        let pitchDev :=
          Qabs (mean pitchStats - base_pitch b) / Qmax (base_pitch b) 1 in
        let rmsDev :=
          Qabs (mean rmsStats - base_rms b) / Qmax (base_rms b) 0.001 in
        let centroidDev :=
          Qabs (mean centroidStats - base_centroid b)
          / Qmax (base_centroid b) 1 in
        (Qmin pitchDev 1, Qmin rmsDev 1, Qmin centroidDev 1)
    | _, _ =>
        (Qmin (std pitchStats / 50) 1,
         Qmin (variance rmsStats / 0.05) 1,
         Qmin (mean centroidStats / 3000) 1)
    end in
  let mfccScore := Qmin (mfccVariance / 10) 1 in
  let zcrScore := Qmin (variance zcrStats / 0.01) 1 in
  {| pitchScore := pitchScore; rmsScore := rmsScore; mfccScore := mfccScore;
     centroidScore := centroidScore; zcrScore := zcrScore |}.

(** The two gates at the head of [computeStressScore] (lines 45 and
    51-52): no matrix or no frame, or mean RMS under [VAD_MIN_RMS]. *)
Definition gatedOut (featureMatrix : option FeatureMatrix) : bool :=
  match featureMatrix with
  | None => true
  | Some fm =>
      (List.length (pitch fm) =? 0)%nat
      || Qltb (mean (calculateStats (rms fm))) VAD_MIN_RMS
  end.

(** [computeStressScore], lines 44-117.  The last argument is the stored
    [previousStressScore]; the result is the returned score and the new
    stored value. *)
Definition computeStressScore (featureMatrix : option FeatureMatrix)
    (baseline : option Baseline) (noiseFloor : Q)
    (previousStressScore : Q) : Q * Q :=
  match featureMatrix with
  | None => _applySpikeLimiter 0 previousStressScore
  | Some fm =>
      if (List.length (pitch fm) =? 0)%nat then
        _applySpikeLimiter 0 previousStressScore
      else
        let rmsStats := calculateStats (rms fm) in
        if Qltb (mean rmsStats) VAD_MIN_RMS then
          _applySpikeLimiter 0 previousStressScore
        else
          let rawScore :=
            weightedCombination (featureScores fm baseline)
                                (noiseCompensation noiseFloor) in
          let clampedScore := Qmax 0 (Qmin 1 rawScore) in
          _applySpikeLimiter clampedScore previousStressScore
  end.

End WithSqrt.

(** [calculateAudioRiskWeight], lines 173-176. *)
Definition calculateAudioRiskWeight (stressScore : Q) : Q :=
  let AUDIO_WEIGHT := 0.3 in
  AUDIO_WEIGHT * stressScore.

(** One call of [computeStressScore]: its three arguments. *)
Record Call : Type := mkCall {
  call_matrix : option FeatureMatrix;
  call_baseline : option Baseline;
  call_noiseFloor : Q
}.

Section Sequences.

Variable sqrt : Q -> Q.

(** Successive calls of [computeStressScore], each reading the
    [previousStressScore] the one before it stored: the scores returned,
    oldest first, and the value stored at the end. *)
Fixpoint computeAll (calls : list Call) (previousStressScore : Q)
    : list Q * Q :=
  match calls with
  | [] => ([], previousStressScore)
  | c :: rest =>
      let '(score, stored) :=
        computeStressScore sqrt (call_matrix c) (call_baseline c)
          (call_noiseFloor c) previousStressScore in
      let '(scores, final) := computeAll rest stored in
      (score :: scores, final)
  end.

End Sequences.

End StressInference.

(* --------------------------------------------------------------------- *)
(** ** utils/audio/smoothing.js (carried by
       src/src/utils/audio/featureExtractor.js from its line 171 on):
       [TemporalSmoother]                                                 *)
(* --------------------------------------------------------------------- *)

Module Smoothing.

Record Sample : Type := mkSample { value : Q; timestamp : Z }.

Record TemporalSmoother : Type := mkSmoother {
  windowSeconds : Z;
  samples : list Sample;
  smoothedValue : Q;
  alpha : Q
}.

(** The constructor. *)
Definition createSmoother (windowSeconds : Z) : TemporalSmoother :=
  {| windowSeconds := windowSeconds; samples := []; smoothedValue := 0;
     alpha := 0.3 |}.

(** [addSample]. *)
Definition addSample (this : TemporalSmoother) (value : Q) (timestamp : Z)
    : TemporalSmoother :=
  let pushed := samples this ++ [mkSample value timestamp] in
  let cutoffTime := (timestamp - windowSeconds this * 1000)%Z in
  let kept :=
    List.filter (fun s => (cutoffTime <? Smoothing.timestamp s)%Z) pushed in
  let smoothed :=
    if (List.length kept =? 1)%nat then value
    else alpha this * value + (1 - alpha this) * smoothedValue this in
  {| windowSeconds := windowSeconds this; samples := kept;
     smoothedValue := smoothed; alpha := alpha this |}.

Definition getSmoothScore (this : TemporalSmoother) : Q := smoothedValue this.

(** [reset]. *)
Definition reset (this : TemporalSmoother) : TemporalSmoother :=
  {| windowSeconds := windowSeconds this; samples := []; smoothedValue := 0;
     alpha := alpha this |}.

(** [getWindowAverage]. *)
Definition getWindowAverage (this : TemporalSmoother) : Q :=
  match samples this with
  | [] => 0
  | _ =>
      fold_left (fun acc s => acc + value s) (samples this) 0
      / Qlen (samples this)
  end.

(** [getWindowSize]. *)
Definition getWindowSize (this : TemporalSmoother) : nat :=
  List.length (samples this).

(** [isTrendingUp]: the last three samples, strictly increasing. *)
Definition isTrendingUp (this : TemporalSmoother) : bool :=
  if (List.length (samples this) <? 3)%nat then false
  else
    match skipn (List.length (samples this) - 3) (samples this) with
    | r0 :: r1 :: r2 :: _ =>
        Qgtb (value r2) (value r1) && Qgtb (value r1) (value r0)
    | _ => false
    end.

(** [getWindowStd] and [isStable], for a given [Math.sqrt]. *)
Definition getWindowStd (sqrt : Q -> Q) (this : TemporalSmoother) : Q :=
  if (List.length (samples this) <? 2)%nat then 0
  else
    let mean := getWindowAverage this in
    let variance :=
      fold_left (fun acc s => acc + (value s - mean) ^ 2) (samples this) 0
      / Qlen (samples this) in
    sqrt variance.

Definition isStable (sqrt : Q -> Q) (this : TemporalSmoother) : bool :=
  Qltb (getWindowStd sqrt this) 0.1.

(** Successive calls of [addSample], one per element of [fed]. *)
Definition addAll (this : TemporalSmoother) (fed : list Sample)
    : TemporalSmoother :=
  fold_left (fun sm s => addSample sm (value s) (timestamp s)) fed this.

End Smoothing.

(* --------------------------------------------------------------------- *)
(** ** utils/audio/audioPipeline.js (src/unnamed/part_002):
       [AudioPipelineController]                                          *)
(* --------------------------------------------------------------------- *)

Module AudioPipeline.

Definition CALIBRATION_DURATION_MS : Z := 5000.
Definition MAX_NOISE_SAMPLES : nat := 20.

(** The controller's fields that [processAudioFrame] reads or writes,
    with the two process-wide singletons it drives: the temporal smoother
    and the [previousStressScore] of stressInference.js. *)
Record Controller : Type := mkController {
  isRunning : bool;
  hasAnalyser : bool;
  hasCallback : bool;
  currentStressScore : Q;
  mfccHistory : list (list Q);
  isCalibrating : bool;
  calibrationStartTime : option Z;
  calibrationSamples : list StressInference.Baseline;
  baseline : option StressInference.Baseline;
  noiseSamples : list Q;
  noiseFloor : Q;
  smoother : Smoothing.TemporalSmoother;
  previousStressScore : Q
}.

(** The argument of the [onStressUpdate] callback. *)
Record StressUpdate : Type := mkStressUpdate {
  stressScore : Q;
  audioRiskWeight : Q;
  mfccData : list (list Q);
  upd_isCalibrating : bool;
  upd_baseline : option StressInference.Baseline
}.

(** What one run of [processAudioFrame] obtains from the analyser, the
    audio processor, Meyda and the clock. *)
Record FrameObservation : Type := mkFrameObservation {
  cleanedBuffer : list Q;      (* processor.applyNoiseReduction(timeDataArray) *)
  hasVoice : bool;             (* processor.detectVoiceActivity(cleanedBuffer) *)
  windowLength : nat;          (* processor.getRollingWindow(1.5).length *)
  featureMatrix : StressInference.FeatureMatrix;  (* buildFeatureMatrix(frames, ..) *)
  now : Z;                     (* Date.now() of line 159 *)
  sampleTime : Z               (* Date.now() inside smoother.addSample *)
}.

(** The constructor. *)
Definition initial : Controller :=
  {| isRunning := false; hasAnalyser := false; hasCallback := false;
     currentStressScore := 0; mfccHistory := [];
     isCalibrating := false; calibrationStartTime := None;
     calibrationSamples := []; baseline := None;
     noiseSamples := []; noiseFloor := 0;
     smoother := Smoothing.createSmoother 5;
     previousStressScore := StressInference.initialStressScore |}.

(** [_emitUpdate], lines 217-229. *)
Definition _emitUpdate (this : Controller) (score : Q) : option StressUpdate :=
  if hasCallback this then
    Some {| stressScore := score;
            audioRiskWeight := StressInference.calculateAudioRiskWeight score;
            mfccData := mfccHistory this;
            upd_isCalibrating := isCalibrating this;
            upd_baseline := baseline this |}
  else None.

(** [updateStressScore], lines 208-211. *)
Definition updateStressScore (this : Controller) (score : Q)
    : Controller * option StressUpdate :=
  let this' :=
    {| isRunning := isRunning this; hasAnalyser := hasAnalyser this;
       hasCallback := hasCallback this;
       currentStressScore := score;
       mfccHistory := mfccHistory this;
       isCalibrating := isCalibrating this;
       calibrationStartTime := calibrationStartTime this;
       calibrationSamples := calibrationSamples this;
       baseline := baseline this;
       noiseSamples := noiseSamples this; noiseFloor := noiseFloor this;
       smoother := smoother this;
       previousStressScore := previousStressScore this |} in
  (this', _emitUpdate this' score).

(** [_computeBaseline], lines 312-320. *)
Definition _computeBaseline (samples : list StressInference.Baseline)
    : StressInference.Baseline :=
  match samples with
  | [] => StressInference.mkBaseline 0 0 0
  | _ =>
      let n := Qlen samples in
      StressInference.mkBaseline
        (fold_left (fun acc s => acc + StressInference.base_pitch s) samples 0 / n)
        (fold_left (fun acc s => acc + StressInference.base_rms s) samples 0 / n)
        (fold_left (fun acc s => acc + StressInference.base_centroid s) samples 0 / n)
  end.

(** [arr.slice(-n)]: the last [n] elements. *)
Definition sliceLast {A : Type} (n : nat) (l : list A) : list A :=
  skipn (List.length l - n) l.

(** The synchronous part of [start], lines 59-92, once [initAudioCapture]
    has resolved; [now] is [Date.now()]. *)
Definition start (this : Controller) (now : Z)
    : Controller * option StressUpdate :=
  if isRunning this then (this, None)
  else
    let this' :=
      {| isRunning := true; hasAnalyser := true; hasCallback := true;
         currentStressScore := currentStressScore this;
         mfccHistory := mfccHistory this;
         isCalibrating := true;
         calibrationStartTime := Some now;
         calibrationSamples := [];
         baseline := None;
         noiseSamples := noiseSamples this; noiseFloor := noiseFloor this;
         smoother := smoother this;
         previousStressScore := previousStressScore this |} in
    (this', _emitUpdate this' 0).

(** [stop], lines 234-268. *)
Definition stop (this : Controller) : Controller :=
  if negb (isRunning this) then this
  else
    {| isRunning := false; hasAnalyser := hasAnalyser this;
       hasCallback := hasCallback this;
       currentStressScore := 0; mfccHistory := [];
       isCalibrating := false; calibrationStartTime := None;
       calibrationSamples := []; baseline := None;
       noiseSamples := []; noiseFloor := 0;
       smoother := Smoothing.reset (smoother this);
       previousStressScore := StressInference.resetStressState |}.

Section WithSqrt.

Variable sqrt : Q -> Q.

(** [_computeRMS], lines 301-305. *)
Definition _computeRMS (buffer : list Q) : Q :=
  sqrt (fold_left (fun sum b => sum + b * b) buffer 0 / Qlen buffer).

(** [processAudioFrame], lines 102-202: the new controller and the update
    handed to [onStressUpdate], if one is emitted. *)
Definition processAudioFrame (this : Controller) (obs : FrameObservation)
    : Controller * option StressUpdate :=
  if negb (isRunning this) || negb (hasAnalyser this) then (this, None)
  else if negb (hasVoice obs) then
    (* noise floor tracking, silent frames only *)
    let silentRMS := _computeRMS (cleanedBuffer obs) in
    let pushed := noiseSamples this ++ [silentRMS] in
    let kept :=
      if (MAX_NOISE_SAMPLES <? List.length pushed)%nat then List.tl pushed
      else pushed in
    let floor := fold_left (fun a b => a + b) kept 0 / Qlen kept in
    updateStressScore
      {| isRunning := isRunning this; hasAnalyser := hasAnalyser this;
         hasCallback := hasCallback this;
         currentStressScore := currentStressScore this;
         mfccHistory := mfccHistory this;
         isCalibrating := isCalibrating this;
         calibrationStartTime := calibrationStartTime this;
         calibrationSamples := calibrationSamples this;
         baseline := baseline this;
         noiseSamples := kept; noiseFloor := floor;
         smoother := smoother this;
         previousStressScore := previousStressScore this |} 0
  else if (windowLength obs <? 1000)%nat then (this, None)
  else
    let fm := featureMatrix obs in
    let pushedHistory := mfccHistory this ++ StressInference.mfcc fm in
    let history :=
      if (80 <? List.length pushedHistory)%nat then sliceLast 80 pushedHistory
      else pushedHistory in
    let elapsed :=
      (now obs - match calibrationStartTime this with
                 | Some t => t | None => 0 end)%Z in
    if isCalibrating this then
      let voicedPitch :=
        List.filter (fun p => Qgtb p 0) (StressInference.pitch fm) in
      let pitchStats :=
        StressInference.calculateStats sqrt
          (if (0 <? List.length voicedPitch)%nat then voicedPitch else [0]) in
      let rmsStats :=
        StressInference.calculateStats sqrt (StressInference.rms fm) in
      let centroidStats :=
        StressInference.calculateStats sqrt
          (StressInference.spectralCentroid fm) in
      let collected :=
        calibrationSamples this ++
        [StressInference.mkBaseline
           (StressInference.mean pitchStats)
           (StressInference.mean rmsStats)
           (StressInference.mean centroidStats)] in
      let done := (CALIBRATION_DURATION_MS <=? elapsed)%Z in
      updateStressScore
        {| isRunning := isRunning this; hasAnalyser := hasAnalyser this;
           hasCallback := hasCallback this;
           currentStressScore := currentStressScore this;
           mfccHistory := history;
           isCalibrating := negb done;
           calibrationStartTime := calibrationStartTime this;
           calibrationSamples := collected;
           baseline :=
             if done then Some (_computeBaseline collected) else baseline this;
           noiseSamples := noiseSamples this; noiseFloor := noiseFloor this;
           smoother := smoother this;
           previousStressScore := previousStressScore this |} 0
    else
      let '(rawStressScore, previous') :=
        StressInference.computeStressScore sqrt (Some fm) (baseline this)
          (noiseFloor this) (previousStressScore this) in
      let smoother' :=
        Smoothing.addSample (smoother this) rawStressScore (sampleTime obs) in
      let smoothedScore := Smoothing.getSmoothScore smoother' in
      updateStressScore
        {| isRunning := isRunning this; hasAnalyser := hasAnalyser this;
           hasCallback := hasCallback this;
           currentStressScore := currentStressScore this;
           mfccHistory := history;
           isCalibrating := isCalibrating this;
           calibrationStartTime := calibrationStartTime this;
           calibrationSamples := calibrationSamples this;
           baseline := baseline this;
           noiseSamples := noiseSamples this; noiseFloor := noiseFloor this;
           smoother := smoother';
           previousStressScore := previous' |} smoothedScore.

(** A session of the 500 ms processing loop: the updates emitted, oldest
    first, and the final controller. *)
Fixpoint processAll (this : Controller) (frames : list FrameObservation)
    : Controller * list StressUpdate :=
  match frames with
  | [] => (this, [])
  | obs :: rest =>
      let '(this1, emitted) := processAudioFrame this obs in
      let '(this2, later) := processAll this1 rest in
      (this2, match emitted with Some u => u :: later | None => later end)
  end.

End WithSqrt.

(** What the dashboard does with the pipeline: it starts it, the 500 ms
    timer runs [processAudioFrame], and it stops it. *)
Inductive Action : Type :=
| Start (now : Z)
| Process (obs : FrameObservation)
| Stop.

Section Sessions.

Variable sqrt : Q -> Q.

Definition act (this : Controller) (a : Action)
    : Controller * option StressUpdate :=
  match a with
  | Start now => start this now
  | Process obs => processAudioFrame sqrt this obs
  | Stop => (stop this, None)
  end.

(** The controller after a sequence of actions, and the updates handed to
    the callback on the way, oldest first. *)
Fixpoint session (this : Controller) (actions : list Action)
    : Controller * list StressUpdate :=
  match actions with
  | [] => (this, [])
  | a :: rest =>
      let '(this1, emitted) := act this a in
      let '(this2, later) := session this1 rest in
      (this2, match emitted with Some u => u :: later | None => later end)
  end.

End Sessions.

(** What holds of the controller throughout its life: the noise queue has
    at most 20 entries; the limiter's stored score, the smoothed value and
    the current score are in [0,1]; the smoother has the window and factor
    of the constructor; and a controller that is not running carries nothing
    over. *)
Definition sound (this : Controller) : Prop :=
  (List.length (noiseSamples this) <= MAX_NOISE_SAMPLES)%nat /\
  unitInterval (previousStressScore this) /\
  unitInterval (Smoothing.smoothedValue (smoother this)) /\
  unitInterval (currentStressScore this) /\
  Smoothing.windowSeconds (smoother this) = 5%Z /\
  Smoothing.alpha (smoother this) = 0.3 /\
  (isRunning this = false ->
   currentStressScore this = 0 /\ mfccHistory this = [] /\
   isCalibrating this = false /\ calibrationStartTime this = None /\
   calibrationSamples this = [] /\ baseline this = None /\
   noiseSamples this = [] /\ noiseFloor this = 0 /\
   Smoothing.samples (smoother this) = [] /\
   Smoothing.smoothedValue (smoother this) = 0 /\
   previousStressScore this = 0).

End AudioPipeline.

(* --------------------------------------------------------------------- *)
(** ** src/utils/gesturePipeline.js: [GesturePipelineController]          *)
(* --------------------------------------------------------------------- *)

Module GesturePipeline.

Definition FIST_THRESHOLD : Q := 0.12.
Definition FIST_HOLD_DURATION_MS : Q := 2000.
Definition FINGERTIP_INDICES : list nat := [8; 12; 16; 20]%nat.
Definition PALM_INDICES : list nat := [0; 5; 9; 13; 17]%nat.

Record Landmark : Type := mkLandmark { x : Q; y : Q; z : Q }.

(** What an index past the end of the landmark list reads as.  JavaScript
    raises there; the lemmas about landmarks assume the 21 points. *)
Definition noLandmark : Landmark := mkLandmark 0 0 0.

Record Controller : Type := mkController {
  isInitialized : bool;
  hasHandLandmarker : bool;
  fistStartTime : option Q;
  gestureScore : Q;
  isFist : bool;
  confidence : Q;
  lastLandmarks : option (list Landmark)
}.

(** What one call of [detectFrame] obtains from the video element, the
    clock and MediaPipe. *)
Record Detection : Type := mkDetection {
  videoReady : bool;               (* videoEl.readyState >= 2 *)
  now : Q;                         (* performance.now() *)
  hand : option (list Landmark)    (* result.landmarks[0], if any *)
}.

(** The object returned by [detectFrame]; [holdProgress] is absent from
    the early returns. *)
Record FrameResult : Type := mkFrameResult {
  res_landmarks : option (list Landmark);
  res_isFist : bool;
  res_gestureScore : Q;
  res_confidence : Q;
  res_holdProgress : option Q
}.

(** The constructor. *)
Definition initial : Controller :=
  {| isInitialized := false; hasHandLandmarker := false;
     fistStartTime := None; gestureScore := 0; isFist := false;
     confidence := 0; lastLandmarks := None |}.

(** [_resetFist], lines 176-180. *)
Definition _resetFist (this : Controller) : Controller :=
  {| isInitialized := isInitialized this;
     hasHandLandmarker := hasHandLandmarker this;
     fistStartTime := None; gestureScore := 0; isFist := false;
     confidence := confidence this; lastLandmarks := lastLandmarks this |}.

Section WithSqrt.

Variable sqrt : Q -> Q.

(** Lines 156-162: the palm centre, mean of the [PALM_INDICES]. *)
Definition palmCenter (landmarks : list Landmark) : Q * Q :=
  let '(px, py) :=
    fold_left
      (fun '(px, py) idx =>
         (px + x (nth idx landmarks noLandmark),
          py + y (nth idx landmarks noLandmark)))
      PALM_INDICES (0, 0) in
  (px / Qlen PALM_INDICES, py / Qlen PALM_INDICES).

(** Line 168-169: is the fingertip [tipIdx] within [FIST_THRESHOLD] of the
    palm centre? *)
Definition curled (landmarks : list Landmark) (px py : Q) (tipIdx : nat)
    : bool :=
  let tip := nth tipIdx landmarks noLandmark in
  let dist := sqrt ((x tip - px) ^ 2 + (y tip - py) ^ 2) in
  Qltb dist FIST_THRESHOLD.

(** Lines 165-170: the loop that counts the curled fingertips. *)
Definition curledCount (landmarks : list Landmark) : nat :=
  let '(px, py) := palmCenter landmarks in
  fold_left
    (fun count tipIdx =>
       if curled landmarks px py tipIdx then S count else count)
    FINGERTIP_INDICES 0%nat.

(** [_computeFistConfidence], lines 154-173. *)
Definition _computeFistConfidence (landmarks : list Landmark) : Q :=
  inject_Z (Z.of_nat (curledCount landmarks)) / Qlen FINGERTIP_INDICES.

(** [detectFrame], lines 90-146. *)
Definition detectFrame (this : Controller) (d : Detection)
    : Controller * FrameResult :=
  if negb (isInitialized this) || negb (hasHandLandmarker this) then
    (this, mkFrameResult None false 0 0 None)
  else if negb (videoReady d) then
    (this, mkFrameResult None false 0 0 None)
  else
    match hand d with
    | None =>
        let this' := _resetFist this in
        (this', mkFrameResult None false (gestureScore this') 0 None)
    | Some landmarks =>
        let fistConf := _computeFistConfidence landmarks in
        let currentlyFist := Qgtb fistConf 0.6 in
        let seen :=
          {| isInitialized := isInitialized this;
             hasHandLandmarker := hasHandLandmarker this;
             fistStartTime := fistStartTime this;
             gestureScore := gestureScore this; isFist := isFist this;
             confidence := fistConf; lastLandmarks := Some landmarks |} in
        let this' :=
          if currentlyFist then
            let startTime :=
              match fistStartTime seen with
              | None => now d
              | Some t => t
              end in
            let held := now d - startTime in
            let reached := Qgeb held FIST_HOLD_DURATION_MS in
            {| isInitialized := isInitialized seen;
               hasHandLandmarker := hasHandLandmarker seen;
               fistStartTime := Some startTime;
               gestureScore := if reached then 1 else gestureScore seen;
               isFist := if reached then true else isFist seen;
               confidence := confidence seen;
               lastLandmarks := lastLandmarks seen |}
          else _resetFist seen in
        let holdProgress :=
          match fistStartTime this' with
          | Some t =>
              (* a start time of 0 is falsy *)
              if Qeq_bool t 0 then 0
              else Qmin ((now d - t) / FIST_HOLD_DURATION_MS) 1
          | None => 0
          end in
        (this',
         mkFrameResult (Some landmarks) (isFist this') (gestureScore this')
                       fistConf (Some holdProgress))
    end.

(** The controller after a sequence of [detectFrame] calls. *)
Definition detectAll (this : Controller) (frames : list Detection)
    : Controller :=
  fold_left (fun c d => fst (detectFrame c d)) frames this.

(** The count of the description of the fist confidence, written out
    from its words and not from the functions above.  The palm centre is the
    mean position of five reference landmarks: the wrist and the bases of
    the four fingers, numbered 0, 5, 9, 13 and 17 in a MediaPipe hand.  The
    fingertips are those of the index, middle, ring and little finger,
    numbered 8, 12, 16 and 20; the thumb tip, 4, is left out.  A fingertip
    counts when its Euclidean distance to the palm centre, in the image
    plane, is below 0.12. *)
Definition spec_meanPosition (points : list Landmark) : Q * Q :=
  (fold_left Qplus (List.map x points) 0 / Qlen points,
   fold_left Qplus (List.map y points) 0 / Qlen points).

Definition spec_distance (a : Landmark) (c : Q * Q) : Q :=
  sqrt ((x a - fst c) ^ 2 + (y a - snd c) ^ 2).

Definition spec_tipsWithin (landmarks : list Landmark) : nat :=
  let point i := nth i landmarks noLandmark in
  let palm :=
    spec_meanPosition
      [point 0%nat; point 5%nat; point 9%nat; point 13%nat; point 17%nat] in
  List.length
    (List.filter (fun tip => Qltb (spec_distance tip palm) 0.12)
       [point 8%nat; point 12%nat; point 16%nat; point 20%nat]).

(** A call that sees a hand whose fist confidence is above 0.6. *)
Definition fisted (d : Detection) : bool :=
  match hand d with
  | Some landmarks => Qgtb (_computeFistConfidence landmarks) 0.6
  | None => false
  end.

(** The invariant of the hold timer along a sequence [frames] of calls
    that ends in the controller [c]: without a start time the score is 0;
    with one, the calls since the frame that set it were all either skipped
    (video not ready) or fisted, and a score of 1 comes with a fisted frame
    among them at least [FIST_HOLD_DURATION_MS] after that first one. *)
Definition holdInvariant (frames : list Detection) (c : Controller) : Prop :=
  match fistStartTime c with
  | None => gestureScore c = 0
  | Some t0 =>
      exists before first during,
        frames = before ++ first :: during /\
        videoReady first = true /\ fisted first = true /\ now first = t0 /\
        Forall (fun d => videoReady d = false \/ fisted d = true) during /\
        (gestureScore c = 0 \/
         gestureScore c = 1 /\
         Exists (fun d => videoReady d = true /\ fisted d = true /\
                          2000 <= now d - now first)
                (first :: during))
  end.

End WithSqrt.

(** The guard at the head of [detectFrame], line 91, negated. *)
Definition ready (this : Controller) : bool :=
  isInitialized this && hasHandLandmarker this.

(** The synchronous effect of a successful [init]. *)
Definition initialized (this : Controller) : Controller :=
  {| isInitialized := true; hasHandLandmarker := true;
     fistStartTime := fistStartTime this; gestureScore := gestureScore this;
     isFist := isFist this; confidence := confidence this;
     lastLandmarks := lastLandmarks this |}.

(** [stop], lines 188-198. *)
Definition stop (this : Controller) : Controller :=
  {| isInitialized := false; hasHandLandmarker := false;
     fistStartTime := None; gestureScore := 0; isFist := false;
     confidence := confidence this; lastLandmarks := None |}.

(** [getGestureScore]. *)
Definition getGestureScore (this : Controller) : Q := gestureScore this.

(** What the gesture detector component does with the pipeline. *)
Inductive Action : Type :=
| Init                      (* init() succeeds *)
| Detect (d : Detection)    (* detectFrame(videoEl) *)
| Stop.                     (* stop() *)

Definition act (sqrt : Q -> Q) (this : Controller) (a : Action)
    : Controller :=
  match a with
  | Init => initialized this
  | Detect d => fst (detectFrame sqrt this d)
  | Stop => stop this
  end.

Definition actAll (sqrt : Q -> Q) (this : Controller)
    (actions : list Action) : Controller :=
  fold_left (act sqrt) actions this.

(** The fields of the hold agree: [isFist] is set exactly when the score
    is 1, the score is 0 or 1, a score of 1 has a start time, and a
    controller that is not initialised has score 0 and no start time. *)
Definition consistent (this : Controller) : Prop :=
  (isFist this = true <-> gestureScore this = 1) /\
  (gestureScore this = 0 \/ gestureScore this = 1) /\
  (gestureScore this = 1 -> fistStartTime this <> None) /\
  (ready this = false ->
   gestureScore this = 0 /\ fistStartTime this = None).

End GesturePipeline.

(* --------------------------------------------------------------------- *)
(** ** src/utils/audio/featureExtractor.js, over binary64                 *)
(* --------------------------------------------------------------------- *)

Module FeatureExtractor.

Local Open Scope float_scope.

(** A [Float32Array]: its samples, read as JavaScript numbers. *)
Definition Frame : Type := list float.

(** An array length or a loop counter as a number (exact below 2^53). *)
Fixpoint float_of_nat (n : nat) : float :=
  match n with
  | O => 0
  | S k => float_of_nat k + 1
  end.

(** What a call of [Meyda.extract] does: it throws, or it returns an
    object in which the requested feature is present or not. *)
Inductive MeydaOutcome (A : Type) : Type :=
| MeydaThrows : MeydaOutcome A
| MeydaReturns : option A -> MeydaOutcome A.

Arguments MeydaThrows {A}.
Arguments MeydaReturns {A} _.

Record Features : Type := mkFeatures {
  mfcc : list float;
  pitch : float;
  rms : float;
  zcr : float;
  spectralCentroid : float
}.

(** JavaScript truthiness of a number: neither 0 nor NaN. *)
Definition truthy (v : float) : bool := negb (is_zero v || is_nan v).

(** [extractRMS], lines 67-73. *)
Definition extractRMS (frame : Frame) : float :=
  let sumSquares := fold_left (fun sum s => sum + s * s) frame 0 in
  sqrt (sumSquares / float_of_nat (List.length frame)).

(** Lines 82-87 of [extractZCR]: the crossings counted from index 1 on,
    [previous] being [frame[i - 1]]. *)
Fixpoint countCrossings (previous : float) (rest : list float) (count : nat)
    : nat :=
  match rest with
  | [] => count
  | current :: rest' =>
      let crossing :=
        ((0 <=? current) && (previous <? 0))
        || ((current <? 0) && (0 <=? previous)) in
      countCrossings current rest' (if crossing then S count else count)
  end.

(** [extractZCR], lines 80-89. *)
Definition extractZCR (frame : Frame) : float :=
  let zeroCrossings :=
    match frame with
    | [] => 0%nat
    | first :: rest => countCrossings first rest 0%nat
    end in
  float_of_nat zeroCrossings / float_of_nat (List.length frame).

(** The inner loop of [extractPitch], lines 45-48. *)
Definition correlationAt (frame : Frame) (lag : nat) : float :=
  fold_left
    (fun correlation i => correlation + nth i frame 0 * nth (i + lag) frame 0)
    (seq 0 (List.length frame - lag)) 0.

(** [extractPitch], lines 34-60, for an integral sample rate.  The loop
    runs over the lags from [minLag] up while [lag <= maxLag] and
    [lag < frame.length / 2]; the second test only gets harder as [lag]
    grows, so skipping the lags that fail it is leaving the loop. *)
Definition extractPitch (frame : Frame) (sampleRate : nat) : float :=
  let minPitch := 80%nat in
  let maxPitch := 400%nat in
  let minLag := (sampleRate / maxPitch)%nat in
  let maxLag := (sampleRate / minPitch)%nat in
  let '(maxCorrelation, bestLag) :=
    fold_left
      (fun '(maxCorrelation, bestLag) lag =>
         if (2 * lag <? List.length frame)%nat then
           let correlation := correlationAt frame lag in
           if maxCorrelation <? correlation then (correlation, lag)
           else (maxCorrelation, bestLag)
         else (maxCorrelation, bestLag))
      (seq minLag (S maxLag - minLag)) (0, 0%nat) in
  if (bestLag =? 0)%nat then 0
  else
    let pitch := float_of_nat sampleRate / float_of_nat bestLag in
    if (float_of_nat minPitch <=? pitch) && (pitch <=? float_of_nat maxPitch)
    then pitch else 0.

Section WithMeyda.

(** [Meyda.extract(['mfcc'], frame, sampleRate, {numberOfMFCCCoefficients})]
    and [Meyda.extract(['spectralCentroid'], frame, sampleRate)]. *)
Variable Meyda_mfcc : Frame -> nat -> nat -> MeydaOutcome (list float).
Variable Meyda_spectralCentroid : Frame -> nat -> MeydaOutcome float.

(** [extractMFCC], lines 15-26. *)
Definition extractMFCC (frame : Frame) (sampleRate numCoefficients : nat)
    : list float :=
  match Meyda_mfcc frame sampleRate numCoefficients with
  | MeydaReturns (Some coefficients) => coefficients
  | MeydaReturns None => repeat 0 numCoefficients
  | MeydaThrows => repeat 0 numCoefficients
  end.

(** [extractSpectralCentroid], lines 97-105. *)
Definition extractSpectralCentroid (frame : Frame) (sampleRate : nat) : float :=
  match Meyda_spectralCentroid frame sampleRate with
  | MeydaReturns (Some centroid) => if truthy centroid then centroid else 0
  | MeydaReturns None => 0
  | MeydaThrows => 0
  end.

(** [extractAllFeatures], lines 114-122. *)
Definition extractAllFeatures (frame : Frame) (sampleRate numMFCC : nat)
    : Features :=
  {| mfcc := extractMFCC frame sampleRate numMFCC;
     pitch := extractPitch frame sampleRate;
     rms := extractRMS frame;
     zcr := extractZCR frame;
     spectralCentroid := extractSpectralCentroid frame sampleRate |}.

End WithMeyda.

(** The all-zero feature set of the failure policy: every cepstral
    coefficient, the pitch, the energy, the crossing rate and the centroid
    equal 0 (as numbers: [eqb], under which NaN equals nothing). *)
Definition allZero (f : Features) : bool :=
  forallb (fun c => c =? 0) (mfcc f)
  && (pitch f =? 0) && (rms f =? 0) && (zcr f =? 0)
  && (spectralCentroid f =? 0).

(** The length of a frame in seconds, [0.025] as JavaScript reads it:
    the nearest binary64 number. *)
Definition frameSeconds : float := 0x1.999999999999ap-6.

(** The object [buildFeatureMatrix] returns. *)
Record FeatureMatrix : Type := mkFeatureMatrix {
  fm_mfcc : list (list float);
  fm_pitch : list float;
  fm_rms : list float;
  fm_zcr : list float;
  fm_spectralCentroid : list float;
  fm_timestamps : list float
}.

Section BuildMatrix.

Variable Meyda_mfcc : Frame -> nat -> nat -> MeydaOutcome (list float).
Variable Meyda_spectralCentroid : Frame -> nat -> MeydaOutcome float.

(** The body of the [forEach] of [buildFeatureMatrix], lines 141-150:
    one push per series; [index] is the position of the frame. *)
Definition pushFeatures (sampleRate numMFCC : nat)
    (acc : FeatureMatrix * nat) (frame : Frame) : FeatureMatrix * nat :=
  let '(featureMatrix, index) := acc in
  let features :=
    extractAllFeatures Meyda_mfcc Meyda_spectralCentroid frame sampleRate
      numMFCC in
  ({| fm_mfcc := fm_mfcc featureMatrix ++ [mfcc features];
      fm_pitch := fm_pitch featureMatrix ++ [pitch features];
      fm_rms := fm_rms featureMatrix ++ [rms features];
      fm_zcr := fm_zcr featureMatrix ++ [zcr features];
      fm_spectralCentroid :=
        fm_spectralCentroid featureMatrix ++ [spectralCentroid features];
      fm_timestamps :=
        fm_timestamps featureMatrix ++ [float_of_nat index * frameSeconds] |},
   S index).

(** [buildFeatureMatrix], lines 131-153. *)
Definition buildFeatureMatrix (frames : list Frame)
    (sampleRate numMFCC : nat) : FeatureMatrix :=
  fst (fold_left (pushFeatures sampleRate numMFCC) frames
         (mkFeatureMatrix [] [] [] [] [] [], 0%nat)).

End BuildMatrix.

End FeatureExtractor.

(* --------------------------------------------------------------------- *)
(** ** utils/geo.js (src/unnamed/part_001)                                *)
(* --------------------------------------------------------------------- *)

Module Geo.

(** [getMockLocation]. *)
Definition getMockLocation : RiskEngine.Location :=
  {| RiskEngine.lat := 40.7128; RiskEngine.lng := -74.006 |}.

End Geo.

(* --------------------------------------------------------------------- *)
(** ** components/Dashboard.jsx: the pre-alert machine

    Line numbers are those of src/unnamed/part_004; the functions
    [startCountdown], [cancelAlert], [handleEmergency] and
    [handleManualPanic] and the threshold logic of the detection loop read
    the same in src/src/components/Dashboard.jsx, where the stress input is
    the score of the audio pipeline.

    Every callback and handler runs to completion before the next event;
    the updater passed to [setCountdown] is applied to the current countdown
    once per tick of its interval; [handleEmergency], which is [async], is
    split at its first [await].  The component is followed while it is
    mounted.                                                             *)
(* --------------------------------------------------------------------- *)

Module Dashboard.

(** The three functions the component registers with the browser. *)
Inductive Callback : Type :=
| DetectionLoop     (* setInterval(.., 1000) of the protection effect *)
| SustainTimeout    (* setTimeout(.., 5000) started when risk > 0.75 *)
| CountdownStep.    (* setInterval(.., 1000) of startCountdown *)

(** What a callback reads from outside the component when it runs. *)
Record Env : Type := mkEnv {
  sensedGesture : Q;      (* detectGesture() *)
  sensedStress : Q;       (* detectStress() *)
  sensedMotion : Q;       (* detectMotion() *)
  storedContacts : option (list RiskEngine.Contact);
                          (* localStorage.emergencyContacts, if set *)
  clock : Z               (* new Date() *)
}.

Inductive Event : Type :=
| TimerFires (id : nat)          (* the browser runs the callback of [id] *)
| GeolocationSettles (outcome : option RiskEngine.Location)
                                 (* getCurrentLocation() resolves or rejects *)
| ToggleProtection               (* the protection checkbox *)
| ClickManualAlert               (* the panic button *)
| ClickCancelAlert.              (* the button of the pre-alert card *)

(** React state, refs, the browser's timer table and what has left the
    component.  [pendingLookups] are the calls of [handleEmergency] that
    wait for [getCurrentLocation], each with the contacts it has read. *)
Record State : Type := mkState {
  isProtectionOn : bool;
  riskScore : Q;
  riskLevel : RiskEngine.RiskLevel;
  showPreAlert : bool;
  countdown : Z;
  detectionIntervalRef : option nat;
  highRiskTimerRef : option nat;
  countdownIntervalRef : option nat;
  timers : gmap nat Callback;
  nextTimerId : nat;
  pendingLookups : list (list RiskEngine.Contact);
  emergencies : list RiskEngine.EmergencyData;
  navigatedToEmergency : bool
}.

(** The component when it mounts. *)
Definition initial : State :=
  {| isProtectionOn := false; riskScore := 0; riskLevel := RiskEngine.safe;
     showPreAlert := false; countdown := 5;
     detectionIntervalRef := None; highRiskTimerRef := None;
     countdownIntervalRef := None;
     timers := ∅; nextTimerId := 1;
     pendingLookups := []; emergencies := [];
     navigatedToEmergency := false |}.

(** *** Field updates *)

Definition withRisk (score : Q) (level : RiskEngine.RiskLevel) (s : State)
    : State :=
  mkState (isProtectionOn s) score level (showPreAlert s) (countdown s)
    (detectionIntervalRef s) (highRiskTimerRef s) (countdownIntervalRef s)
    (timers s) (nextTimerId s) (pendingLookups s) (emergencies s)
    (navigatedToEmergency s).

Definition setIsProtectionOn (b : bool) (s : State) : State :=
  mkState b (riskScore s) (riskLevel s) (showPreAlert s) (countdown s)
    (detectionIntervalRef s) (highRiskTimerRef s) (countdownIntervalRef s)
    (timers s) (nextTimerId s) (pendingLookups s) (emergencies s)
    (navigatedToEmergency s).

Definition setShowPreAlert (b : bool) (s : State) : State :=
  mkState (isProtectionOn s) (riskScore s) (riskLevel s) b (countdown s)
    (detectionIntervalRef s) (highRiskTimerRef s) (countdownIntervalRef s)
    (timers s) (nextTimerId s) (pendingLookups s) (emergencies s)
    (navigatedToEmergency s).

Definition setCountdown (n : Z) (s : State) : State :=
  mkState (isProtectionOn s) (riskScore s) (riskLevel s) (showPreAlert s) n
    (detectionIntervalRef s) (highRiskTimerRef s) (countdownIntervalRef s)
    (timers s) (nextTimerId s) (pendingLookups s) (emergencies s)
    (navigatedToEmergency s).

Definition setDetectionIntervalRef (r : option nat) (s : State) : State :=
  mkState (isProtectionOn s) (riskScore s) (riskLevel s) (showPreAlert s)
    (countdown s) r (highRiskTimerRef s) (countdownIntervalRef s)
    (timers s) (nextTimerId s) (pendingLookups s) (emergencies s)
    (navigatedToEmergency s).

Definition setHighRiskTimerRef (r : option nat) (s : State) : State :=
  mkState (isProtectionOn s) (riskScore s) (riskLevel s) (showPreAlert s)
    (countdown s) (detectionIntervalRef s) r (countdownIntervalRef s)
    (timers s) (nextTimerId s) (pendingLookups s) (emergencies s)
    (navigatedToEmergency s).

Definition setCountdownIntervalRef (r : option nat) (s : State) : State :=
  mkState (isProtectionOn s) (riskScore s) (riskLevel s) (showPreAlert s)
    (countdown s) (detectionIntervalRef s) (highRiskTimerRef s) r
    (timers s) (nextTimerId s) (pendingLookups s) (emergencies s)
    (navigatedToEmergency s).

Definition withTimers (t : gmap nat Callback) (next : nat) (s : State)
    : State :=
  mkState (isProtectionOn s) (riskScore s) (riskLevel s) (showPreAlert s)
    (countdown s) (detectionIntervalRef s) (highRiskTimerRef s)
    (countdownIntervalRef s) t next (pendingLookups s) (emergencies s)
    (navigatedToEmergency s).

Definition withOutput (pending : list (list RiskEngine.Contact))
    (sent : list RiskEngine.EmergencyData) (navigated : bool) (s : State)
    : State :=
  mkState (isProtectionOn s) (riskScore s) (riskLevel s) (showPreAlert s)
    (countdown s) (detectionIntervalRef s) (highRiskTimerRef s)
    (countdownIntervalRef s) (timers s) (nextTimerId s) pending sent
    navigated.

(** *** The browser's timers *)

(** [setInterval(cb, ..)] and [setTimeout(cb, ..)]: a fresh id. *)
Definition setTimer (cb : Callback) (s : State) : nat * State :=
  (nextTimerId s,
   withTimers (<[nextTimerId s := cb]> (timers s)) (S (nextTimerId s)) s).

(** [clearInterval(id)] and [clearTimeout(id)]. *)
Definition clearTimer (id : nat) (s : State) : State :=
  withTimers (delete id (timers s)) (nextTimerId s) s.

(** [if (ref.current) clear(ref.current)], and [clearInterval(ref.current)]
    on a [null] ref, which does nothing. *)
Definition clearRef (r : option nat) (s : State) : State :=
  match r with
  | Some id => clearTimer id s
  | None => s
  end.

(** *** The component's functions *)

(** [handleEmergency], lines 110-126, up to its first [await]: the
    contacts are read and [getCurrentLocation()] is called. *)
Definition handleEmergency (env : Env) (s : State) : State :=
  let contacts :=
    match storedContacts env with
    | Some stored => stored
    | None => []
    end in
  withOutput (pendingLookups s ++ [contacts]) (emergencies s)
             (navigatedToEmergency s) s.

(** [handleEmergency] from the first [await] on, for the oldest pending
    call: the inner try/catch, [triggerEmergency] and [navigate]. *)
Definition settleLookup (outcome : option RiskEngine.Location) (now : Z)
    (s : State) : State :=
  match pendingLookups s with
  | [] => s
  | contacts :: waiting =>
      let location :=
        match outcome with
        | Some found => Some found
        | None => Some Geo.getMockLocation
        end in
      let data := RiskEngine.triggerEmergency now contacts location in
      withOutput waiting (emergencies s ++ [data]) true s
  end.

(** [startCountdown], lines 82-94: what it does when called. *)
Definition startCountdown (s : State) : State :=
  let s1 := setCountdown 5 s in
  let '(id, s2) := setTimer CountdownStep s1 in
  setCountdownIntervalRef (Some id) s2.

(** The interval callback of [startCountdown]: the updater given to
    [setCountdown], lines 85-92, applied to the current [countdown]. *)
Definition countdownStep (env : Env) (s : State) : State :=
  let prev := countdown s in
  if (prev <=? 1)%Z then
    let s1 := clearRef (countdownIntervalRef s) s in
    let s2 := handleEmergency env s1 in
    setCountdown 0 s2
  else setCountdown (prev - 1) s.

(** [cancelAlert], lines 97-107. *)
Definition cancelAlert (s : State) : State :=
  let s1 := setShowPreAlert false s in
  let s2 := setCountdown 5 s1 in
  let s3 := clearRef (countdownIntervalRef s2) s2 in
  match highRiskTimerRef s3 with
  | Some id => setHighRiskTimerRef None (clearTimer id s3)
  | None => s3
  end.

(** [handleManualPanic], lines 129-132. *)
Definition handleManualPanic (s : State) : State :=
  startCountdown (setShowPreAlert true s).

(** The callback of the sustain timeout, lines 45-48. *)
Definition sustainElapsed (s : State) : State :=
  startCountdown (setShowPreAlert true s).

(** The callback of the detection interval, lines 32-57. *)
Definition detectionTick (env : Env) (s : State) : State :=
  let risk :=
    RiskEngine.calculateRisk (sensedGesture env) (sensedStress env)
                             (sensedMotion env) in
  let s1 := withRisk risk (RiskEngine.getRiskLevel risk) s in
  if Qgtb risk 0.75 then
    match highRiskTimerRef s1 with
    | None =>
        let '(id, s2) := setTimer SustainTimeout s1 in
        setHighRiskTimerRef (Some id) s2
    | Some _ => s1
    end
  else
    match highRiskTimerRef s1 with
    | Some id => setHighRiskTimerRef None (clearTimer id s1)
    | None => s1
    end.

(** The cleanup returned by the protection effect, lines 71-78. *)
Definition effectCleanup (s : State) : State :=
  clearRef (highRiskTimerRef s) (clearRef (detectionIntervalRef s) s).

(** The protection checkbox: the state flips, the previous effect is
    cleaned up and the effect of lines 29-79 runs again. *)
Definition toggleProtection (s : State) : State :=
  let s1 := effectCleanup (setIsProtectionOn (negb (isProtectionOn s)) s) in
  if isProtectionOn s1 then
    let '(id, s2) := setTimer DetectionLoop s1 in
    setDetectionIntervalRef (Some id) s2
  else
    let s2 := clearRef (detectionIntervalRef s1) s1 in
    let s3 :=
      match highRiskTimerRef s2 with
      | Some id => setHighRiskTimerRef None (clearTimer id s2)
      | None => s2
      end in
    withRisk 0 RiskEngine.safe s3.

(** *** The event loop *)

(** One event, run to completion.  A timer callback runs only while its
    id is in the table; a timeout leaves the table when it fires.  The
    cancel button exists only while the pre-alert card is shown. *)
Definition step (s : State) (ev : Event * Env) : State :=
  let '(e, env) := ev in
  match e with
  | TimerFires id =>
      match timers s !! id with
      | None => s
      | Some DetectionLoop => detectionTick env s
      | Some SustainTimeout => sustainElapsed (clearTimer id s)
      | Some CountdownStep => countdownStep env s
      end
  | GeolocationSettles outcome => settleLookup outcome (clock env) s
  | ToggleProtection => toggleProtection s
  | ClickManualAlert => handleManualPanic s
  | ClickCancelAlert => if showPreAlert s then cancelAlert s else s
  end.

Definition run (s : State) (trace : list (Event * Env)) : State :=
  fold_left step trace s.

(** The timer [id] fires once for each of [envs]. *)
Definition ticks (id : nat) (envs : list Env) : list (Event * Env) :=
  List.map (fun env => (TimerFires id, env)) envs.

(** The location [handleEmergency] hands to [triggerEmergency] for a given
    outcome of the lookup. *)
Definition locationFor (outcome : option RiskEngine.Location)
    : RiskEngine.Location :=
  match outcome with
  | Some found => found
  | None => Geo.getMockLocation
  end.

(** The contacts [handleEmergency] reads. *)
Definition contactsOf (env : Env) : list RiskEngine.Contact :=
  match storedContacts env with
  | Some stored => stored
  | None => []
  end.

(** The number of [EmergencyTrigger] events: calls of [triggerEmergency]
    made or still waiting for their location. *)
Definition triggerCount (s : State) : nat :=
  (List.length (emergencies s) + List.length (pendingLookups s))%nat.

(** The risk a detection tick fuses from what it senses in [env]. *)
Definition riskOf (env : Env) : Q :=
  RiskEngine.calculateRisk (sensedGesture env) (sensedStress env)
    (sensedMotion env).

(** The timer table is in order: every registered id is below the next
    id to hand out; a registered detection interval is the one the ref
    names, and protection is on; a pending sustain timeout is the one the
    ref names, and protection is on. *)
Definition wellTimed (s : State) : Prop :=
  (forall id cb, timers s !! id = Some cb -> (id < nextTimerId s)%nat) /\
  (forall id, timers s !! id = Some DetectionLoop ->
              detectionIntervalRef s = Some id /\ isProtectionOn s = true) /\
  (forall id, timers s !! id = Some SustainTimeout ->
              highRiskTimerRef s = Some id /\ isProtectionOn s = true).

(** Nothing is on its way to an emergency: no card, no sustain timeout,
    no countdown, no lookup waiting, nothing sent. *)
Definition quiet (s : State) : Prop :=
  showPreAlert s = false /\ highRiskTimerRef s = None /\
  pendingLookups s = [] /\ emergencies s = [] /\
  (forall id, timers s !! id <> Some SustainTimeout) /\
  (forall id, timers s !! id <> Some CountdownStep).

End Dashboard.

(* --------------------------------------------------------------------- *)
(** ** utils/audio/audioProcessor.js (src/unnamed/part_005):
       [AudioProcessor]                                                   *)
(* --------------------------------------------------------------------- *)

Module AudioProcessor.

Record Processor : Type := mkProcessor {
  sampleRate : nat;
  rollingBuffer : list Q;
  maxBufferSize : nat;
  noiseThreshold : Q;
  vadEnergyThreshold : Q;
  vadZCRThreshold : Q
}.

(** The constructor, for an integral sample rate. *)
Definition create (sampleRate : nat) : Processor :=
  {| sampleRate := sampleRate; rollingBuffer := [];
     maxBufferSize := (sampleRate * 2)%nat;
     noiseThreshold := 0.01; vadEnergyThreshold := 0.02;
     vadZCRThreshold := 0.3 |}.

(** [arr.slice(-n)] for [n >= 0]: the last [n] elements, and the whole
    array when [n] is 0 (as [-0] is [0]). *)
Definition sliceFromEnd {A : Type} (n : nat) (l : list A) : list A :=
  if (n =? 0)%nat then l else skipn (List.length l - n) l.

(** [arr.slice(i, j)] for [0 <= i <= j]. *)
Definition slice {A : Type} (i j : nat) (l : list A) : list A :=
  firstn (j - i) (skipn i l).

(** [applyNoiseReduction]: the noise gate. *)
Definition applyNoiseReduction (this : Processor) (audioBuffer : list Q)
    : list Q :=
  List.map
    (fun sample => if Qltb (Qabs sample) (noiseThreshold this) then 0
                   else sample)
    audioBuffer.

(** The crossing count of [detectVoiceActivity], from index 1 on;
    [previous] is [audioBuffer[i - 1]]. *)
Fixpoint countCrossings (previous : Q) (rest : list Q) (count : nat) : nat :=
  match rest with
  | [] => count
  | current :: rest' =>
      let crossing :=
        (Qgeb current 0 && Qltb previous 0)
        || (Qltb current 0 && Qgeb previous 0) in
      countCrossings current rest' (if crossing then S count else count)
  end.

Definition zeroCrossings (audioBuffer : list Q) : nat :=
  match audioBuffer with
  | [] => 0%nat
  | first :: rest => countCrossings first rest 0%nat
  end.

(** [detectVoiceActivity], for a given [Math.sqrt]. *)
Definition detectVoiceActivity (sqrt : Q -> Q) (this : Processor)
    (audioBuffer : list Q) : bool :=
  let sumSquares := fold_left (fun sum s => sum + s * s) audioBuffer 0 in
  let rms := sqrt (sumSquares / Qlen audioBuffer) in
  let zcr :=
    inject_Z (Z.of_nat (zeroCrossings audioBuffer)) / Qlen audioBuffer in
  let hasEnergy := Qgtb rms (vadEnergyThreshold this) in
  let hasVoicelike := Qgtb zcr 0.05 && Qltb zcr (vadZCRThreshold this) in
  hasEnergy && hasVoicelike.

(** [addToRollingBuffer]. *)
Definition addToRollingBuffer (this : Processor) (samples : list Q)
    : Processor :=
  let pushed := rollingBuffer this ++ samples in
  let kept :=
    if (maxBufferSize this <? List.length pushed)%nat
    then sliceFromEnd (maxBufferSize this) pushed
    else pushed in
  {| sampleRate := sampleRate this; rollingBuffer := kept;
     maxBufferSize := maxBufferSize this;
     noiseThreshold := noiseThreshold this;
     vadEnergyThreshold := vadEnergyThreshold this;
     vadZCRThreshold := vadZCRThreshold this |}.


(** [getFullBuffer] and [clearBuffer]. *)
Definition getFullBuffer (this : Processor) : list Q := rollingBuffer this.

Definition clearBuffer (this : Processor) : Processor :=
  {| sampleRate := sampleRate this; rollingBuffer := [];
     maxBufferSize := maxBufferSize this;
     noiseThreshold := noiseThreshold this;
     vadEnergyThreshold := vadEnergyThreshold this;
     vadZCRThreshold := vadZCRThreshold this |}.

(** A sample rate as a binary64 number (exact below 2^53). *)
Definition floatOfNat (n : nat) : float :=
  PrimFloat.of_uint63 (Uint63.of_Z (Z.of_nat n)).

(** [Math.floor] of a binary64 number that is finite: the mantissa,
    signed, shifted by the exponent.  (Of NaN and the infinities
    [Math.floor] returns its argument; a sample rate does not lead
    there.) *)
Definition floor (v : float) : Z :=
  match FloatOps.Prim2SF v with
  | SpecFloat.S754_finite negative m e =>
      let mantissa := if negative then Z.neg m else Z.pos m in
      if (0 <=? e)%Z then Z.shiftl mantissa e else Z.shiftr mantissa (- e)
  | _ => 0%Z
  end.

(** The frame size of [splitIntoFrames], line 129: 25 ms of samples.
    The quotient and the product are rounded to binary64 before the floor
    is taken, so this is not always the floor of [sampleRate / 40]. *)
Definition frameSizeSamples (this : Processor) : nat :=
  let frameSizeMs := 25%float in
  Z.to_nat
    (floor (floatOfNat (sampleRate this) / 1000 * frameSizeMs)%float).

(** The loop of [splitIntoFrames], from index [i]: [None] when the fuel
    runs out before the loop ends. *)
Fixpoint splitLoop (fuel size i : nat) (audioBuffer : list Q)
    : option (list (list Q)) :=
  match fuel with
  | O => None
  | S fuel' =>
      if (i + size <=? List.length audioBuffer)%nat then
        match splitLoop fuel' size (i + size) audioBuffer with
        | Some frames => Some (slice i (i + size) audioBuffer :: frames)
        | None => None
        end
      else Some []
  end.

(** [splitIntoFrames]: one more step than the buffer has samples is
    enough whenever the frame size is positive; with a frame size of 0 the
    loop of the source does not end. *)
Definition splitIntoFrames (this : Processor) (audioBuffer : list Q)
    : option (list (list Q)) :=
  splitLoop (S (List.length audioBuffer)) (frameSizeSamples this) 0
    audioBuffer.

End AudioProcessor.

(* --------------------------------------------------------------------- *)
(** ** Sample inputs                                                      *)
(* --------------------------------------------------------------------- *)

(** A window of two frames whose mean RMS, 0.005, is under the gate. *)
Definition quietWindow : StressInference.FeatureMatrix :=
  {| StressInference.mfcc := [[1; 2]; [2; 4]];
     StressInference.pitch := [120; 0];
     StressInference.rms := [0.004; 0.006];
     StressInference.zcr := [0.1; 0.2];
     StressInference.spectralCentroid := [1500; 1600];
     StressInference.timestamps := [0; 0.025] |}.

(** A loud, agitated window of three frames, observed with voice present
    100 ms after the start of calibration, and the same window observed
    after the five seconds. *)
Definition loudWindow : StressInference.FeatureMatrix :=
  {| StressInference.mfcc := [[1; 2]; [9; 14]; [-3; 0]];
     StressInference.pitch := [180; 320; 0];
     StressInference.rms := [0.4; 0.9; 0.1];
     StressInference.zcr := [0.1; 0.4; 0.2];
     StressInference.spectralCentroid := [2500; 3900; 1800];
     StressInference.timestamps := [0; 0.025; 0.05] |}.

Definition loudObservation : AudioPipeline.FrameObservation :=
  {| AudioPipeline.cleanedBuffer := [0.4; -0.9; 0.1];
     AudioPipeline.hasVoice := true;
     AudioPipeline.windowLength := 1200;
     AudioPipeline.featureMatrix := loudWindow;
     AudioPipeline.now := 100;
     AudioPipeline.sampleTime := 100 |}.

Definition lateObservation : AudioPipeline.FrameObservation :=
  {| AudioPipeline.cleanedBuffer := [0.4; -0.9; 0.1];
     AudioPipeline.hasVoice := true;
     AudioPipeline.windowLength := 1200;
     AudioPipeline.featureMatrix := loudWindow;
     AudioPipeline.now := 5000;
     AudioPipeline.sampleTime := 5000 |}.

(** Twenty-one landmarks with the palm points at (0.5, 0.5) and the four
    fingertips at (0.5, tipY): a closed fist when [tipY] is 0.5, an open
    hand when it is 0.1. *)
Definition handWithTips (tipY : Q) : list GesturePipeline.Landmark :=
  List.map
    (fun i =>
       if existsb (Nat.eqb i) GesturePipeline.FINGERTIP_INDICES
       then GesturePipeline.mkLandmark 0.5 tipY 0
       else GesturePipeline.mkLandmark 0.5 0.5 0)
    (seq 0 21).

Definition fistHand : list GesturePipeline.Landmark := handWithTips 0.5.
Definition openHand : list GesturePipeline.Landmark := handWithTips 0.1.

(** A hand whose palm centre is (0.5, 0.5): the index, middle and ring
    fingertips are at distances 0.1, 0.1 and 0.11 from it, the little
    finger's tip at 0.13, the thumb's tip on the centre itself; the other
    joints are far away. *)
Definition threeFingerHand : list GesturePipeline.Landmark :=
  List.map
    (fun i =>
       match i with
       | 0%nat => GesturePipeline.mkLandmark 0.5 0.7 0
       | 5%nat => GesturePipeline.mkLandmark 0.4 0.5 0
       | 9%nat => GesturePipeline.mkLandmark 0.5 0.5 0
       | 13%nat => GesturePipeline.mkLandmark 0.6 0.5 0
       | 17%nat => GesturePipeline.mkLandmark 0.5 0.3 0
       | 4%nat => GesturePipeline.mkLandmark 0.5 0.5 0
       | 8%nat => GesturePipeline.mkLandmark 0.5 0.6 0
       | 12%nat => GesturePipeline.mkLandmark 0.58 0.56 0
       | 16%nat => GesturePipeline.mkLandmark 0.5 0.39 0
       | 20%nat => GesturePipeline.mkLandmark 0.5 0.63 0
       | _ => GesturePipeline.mkLandmark 0.9 0.9 0
       end)
    (seq 0 21).

(** A video frame at time [t] (ms) showing the given hand. *)
Definition frameAt (t : Q) (shown : option (list GesturePipeline.Landmark))
    : GesturePipeline.Detection :=
  {| GesturePipeline.videoReady := true; GesturePipeline.now := t;
     GesturePipeline.hand := shown |}.

(** An initialised gesture pipeline. *)
Definition gestureReady : GesturePipeline.Controller :=
  GesturePipeline.initialized GesturePipeline.initial.

(** Surroundings of the dashboard: calm sensors, and sensors that fuse to
    a risk of 0.82; one stored contact. *)
Definition calmEnv : Dashboard.Env :=
  {| Dashboard.sensedGesture := 0; Dashboard.sensedStress := 0.1;
     Dashboard.sensedMotion := 0.1;
     Dashboard.storedContacts :=
       Some [RiskEngine.mkContact "Asha" "5550100"];
     Dashboard.clock := 0 |}.

Definition dangerEnv : Dashboard.Env :=
  {| Dashboard.sensedGesture := 1; Dashboard.sensedStress := 1;
     Dashboard.sensedMotion := 0.1;
     Dashboard.storedContacts :=
       Some [RiskEngine.mkContact "Asha" "5550100"];
     Dashboard.clock := 0 |}.

(** The events of a trace all happen in [calmEnv]. *)
Definition calmly (events : list Dashboard.Event)
    : list (Dashboard.Event * Dashboard.Env) :=
  List.map (fun e => (e, calmEnv)) events.

(** The manual alert is raised twice (timers 1 and 2), both intervals tick
    twice, timer 1 ticks a fifth and a sixth time, and the two location
    lookups fail. *)
Definition doubleAlertTrace : list (Dashboard.Event * Dashboard.Env) :=
  calmly
    [Dashboard.ClickManualAlert; Dashboard.ClickManualAlert;
     Dashboard.TimerFires 1; Dashboard.TimerFires 2;
     Dashboard.TimerFires 1; Dashboard.TimerFires 2;
     Dashboard.TimerFires 1; Dashboard.TimerFires 1;
     Dashboard.GeolocationSettles None; Dashboard.GeolocationSettles None].

(** The manual alert is raised twice, both intervals tick once (the card
    shows 3), the alert is cancelled, and timer 1 ticks five more times. *)
Definition cancelledAlertTrace : list (Dashboard.Event * Dashboard.Env) :=
  calmly
    [Dashboard.ClickManualAlert; Dashboard.ClickManualAlert;
     Dashboard.TimerFires 1; Dashboard.TimerFires 2;
     Dashboard.ClickCancelAlert;
     Dashboard.TimerFires 2;
     Dashboard.TimerFires 1; Dashboard.TimerFires 1; Dashboard.TimerFires 1;
     Dashboard.TimerFires 1; Dashboard.TimerFires 1;
     Dashboard.GeolocationSettles None].

(** Protection is on (detection interval 1); a tick in danger starts the
    sustain timeout 2; the manual alert starts interval 3, which ticks
    twice; the timeout fires and starts interval 4; the two intervals tick
    in turn until the countdown is at 0, interval 3 ticks once more, and the
    two lookups fail.  Nothing is cancelled. *)
Definition sustainUncancelledTrace : list (Dashboard.Event * Dashboard.Env) :=
  List.map (fun e => (e, dangerEnv))
    [Dashboard.ToggleProtection; Dashboard.TimerFires 1;
     Dashboard.ClickManualAlert;
     Dashboard.TimerFires 3; Dashboard.TimerFires 3;
     Dashboard.TimerFires 2;
     Dashboard.TimerFires 3; Dashboard.TimerFires 4;
     Dashboard.TimerFires 3; Dashboard.TimerFires 4;
     Dashboard.TimerFires 3; Dashboard.TimerFires 3;
     Dashboard.GeolocationSettles None; Dashboard.GeolocationSettles None].

(** Protection is on (detection interval 1); a tick in danger starts the
    sustain timeout 2; the manual alert starts interval 3, which ticks
    twice; the timeout fires and starts interval 4; both tick once (the card
    shows 3); the alert is cancelled; interval 3 keeps ticking. *)
Definition sustainDuringAlertTrace : list (Dashboard.Event * Dashboard.Env) :=
  List.map (fun e => (e, dangerEnv))
    [Dashboard.ToggleProtection; Dashboard.TimerFires 1;
     Dashboard.ClickManualAlert;
     Dashboard.TimerFires 3; Dashboard.TimerFires 3;
     Dashboard.TimerFires 2;
     Dashboard.TimerFires 3; Dashboard.TimerFires 4;
     Dashboard.ClickCancelAlert;
     Dashboard.TimerFires 4;
     Dashboard.TimerFires 3; Dashboard.TimerFires 3; Dashboard.TimerFires 3;
     Dashboard.TimerFires 3; Dashboard.TimerFires 3;
     Dashboard.GeolocationSettles None].

(** Three samples of the same value, half a second apart, and a smoother
    that holds one old sample when a new one arrives six seconds later. *)
Definition steadyFeed : list Smoothing.Sample :=
  [Smoothing.mkSample 0.4 0; Smoothing.mkSample 0.4 500;
   Smoothing.mkSample 0.4 1000].

Definition staleSmoother : Smoothing.TemporalSmoother :=
  Smoothing.addSample (Smoothing.createSmoother 5) 0.9 1000.

(** A pipeline just started at time 0, the same pipeline once the late
    loud window has ended its calibration, and a silent frame. *)
Definition startedPipeline : AudioPipeline.Controller :=
  fst (AudioPipeline.start AudioPipeline.initial 0).

Definition calibratedPipeline : AudioPipeline.Controller :=
  fst (AudioPipeline.processAudioFrame sqrtApprox startedPipeline
         lateObservation).

Definition silentObservation : AudioPipeline.FrameObservation :=
  {| AudioPipeline.cleanedBuffer := [0; 0.012; 0; -0.011];
     AudioPipeline.hasVoice := false;
     AudioPipeline.windowLength := 1200;
     AudioPipeline.featureMatrix := quietWindow;
     AudioPipeline.now := 6000;
     AudioPipeline.sampleTime := 6000 |}.


Definition gatedBuffer : list Q := [0; 0; 0.5; 0; 0.25].

(** Protection is switched on and off again with two calm ticks in
    between, the cancel button is pressed and a stray lookup settles. *)
Definition calmWatchTrace : list (Dashboard.Event * Dashboard.Env) :=
  calmly
    [Dashboard.ToggleProtection; Dashboard.TimerFires 1;
     Dashboard.TimerFires 1; Dashboard.ClickCancelAlert;
     Dashboard.GeolocationSettles None; Dashboard.ToggleProtection].

(** The dashboard right after protection was switched on: the detection
    interval is timer 1. *)
Definition armedDashboard : Dashboard.State :=
  Dashboard.run Dashboard.initial (calmly [Dashboard.ToggleProtection]).

(* ===================================================================== *)
(** * Part II: properties                                                 *)
(* ===================================================================== *)

(** ** Comparisons *)

Lemma Qltb_true (a b : Q) : Qltb a b = true <-> a < b.
Proof.
  unfold Qltb. rewrite negb_true_iff. split.
  - intros H. apply Qnot_le_lt. intros Hle.
    apply Qle_bool_iff in Hle. congruence.
  - intros H. destruct (Qle_bool b a) eqn:E; [| reflexivity].
    apply Qle_bool_iff in E. exfalso. exact (Qlt_not_le _ _ H E).
Qed.

Lemma Qltb_false (a b : Q) : Qltb a b = false <-> b <= a.
Proof.
  unfold Qltb. rewrite negb_false_iff. apply Qle_bool_iff.
Qed.

Lemma Qgtb_true (a b : Q) : Qgtb a b = true <-> b < a.
Proof. apply Qltb_true. Qed.

Lemma Qgtb_false (a b : Q) : Qgtb a b = false <-> a <= b.
Proof. apply Qltb_false. Qed.

Lemma Qgeb_true (a b : Q) : Qgeb a b = true <-> b <= a.
Proof. apply Qle_bool_iff. Qed.

Lemma Qgeb_false (a b : Q) : Qgeb a b = false <-> a < b.
Proof.
  unfold Qgeb. split.
  - intros H. apply Qnot_le_lt. intros Hle.
    apply Qle_bool_iff in Hle. congruence.
  - intros H. destruct (Qle_bool b a) eqn:E; [| reflexivity].
    apply Qle_bool_iff in E. exfalso. exact (Qlt_not_le _ _ H E).
Qed.

(** Case analysis on a boolean comparison, leaving its meaning as a
    hypothesis. *)
Ltac case_cmp c :=
  let E := fresh "E" in
  destruct c eqn:E;
  [ first [ apply Qltb_true in E | apply Qgtb_true in E | apply Qgeb_true in E ]
  | first [ apply Qltb_false in E | apply Qgtb_false in E
          | apply Qgeb_false in E ] ].

(** Adds, for every [Qmin]/[Qmax] of the goal, the two cases that define
    it, so that linear arithmetic can finish. *)
Ltac pose_minmax :=
  repeat match goal with
  | |- context [Qmin ?a ?b] =>
      lazymatch goal with
      | _ : context [Qmin a b == _] |- _ => fail
      | _ => pose proof (Q.min_spec a b)
      end
  | |- context [Qmax ?a ?b] =>
      lazymatch goal with
      | _ : context [Qmax a b == _] |- _ => fail
      | _ => pose proof (Q.max_spec a b)
      end
  end.

(* --------------------------------------------------------------------- *)
(** ** Risk fusion                                                        *)
(* --------------------------------------------------------------------- *)

Section RiskFusion.

Import RiskEngine.

Lemma calculateRisk_range (g s m : Q) : 0 <= calculateRisk g s m <= 1.
Proof. unfold calculateRisk. cbn. pose_minmax. lra. Qed.

Lemma calculateRisk_is_clamp (g s m : Q) :
  calculateRisk g s m == spec_clamp (g * 0.5 + s * 0.3 + m * 0.2) 0 1.
Proof.
  unfold calculateRisk, spec_clamp. cbn.
  case_cmp (Qltb (g * 0.5 + s * 0.3 + m * 0.2) 0);
    [| case_cmp (Qltb 1 (g * 0.5 + s * 0.3 + m * 0.2))];
    pose_minmax; lra.
Qed.

Lemma calculateRisk_monotone (g g' s s' m m' : Q) :
  g <= g' -> s <= s' -> m <= m' ->
  calculateRisk g s m <= calculateRisk g' s' m'.
Proof. intros Hg Hs Hm. unfold calculateRisk. cbn. pose_minmax. lra. Qed.

(** C3.  For a gesture score in {0,1} and stress and motion in [0,1],
    [calculateRisk] returns the clamp to [0,1] of
    gesture*0.5 + stress*0.3 + motion*0.2; the result lies in [0,1], and it
    does not decrease when one input grows within its domain while the
    other two stay. *)
Theorem calculateRisk_fusion_bounds (g s m : Q) :
  gestureValue g -> unitInterval s -> unitInterval m ->
  calculateRisk g s m == spec_clamp (g * 0.5 + s * 0.3 + m * 0.2) 0 1 /\
  0 <= calculateRisk g s m <= 1 /\
  (forall g', gestureValue g' -> g <= g' ->
     calculateRisk g s m <= calculateRisk g' s m) /\
  (forall s', unitInterval s' -> s <= s' ->
     calculateRisk g s m <= calculateRisk g s' m) /\
  (forall m', unitInterval m' -> m <= m' ->
     calculateRisk g s m <= calculateRisk g s m').
Proof.
  intros _ _ _. split; [apply calculateRisk_is_clamp |].
  split; [apply calculateRisk_range |].
  repeat split; intros v _ Hle; apply calculateRisk_monotone; lra.
Qed.

Lemma calculateRisk_fusion_bounds_witness :
  calculateRisk 1 0.5 0.5 == spec_clamp (1 * 0.5 + 0.5 * 0.3 + 0.5 * 0.2) 0 1 /\
  0 <= calculateRisk 1 0.5 0.5 <= 1 /\
  (forall g', gestureValue g' -> 1 <= g' ->
     calculateRisk 1 0.5 0.5 <= calculateRisk g' 0.5 0.5) /\
  (forall s', unitInterval s' -> 0.5 <= s' ->
     calculateRisk 1 0.5 0.5 <= calculateRisk 1 s' 0.5) /\
  (forall m', unitInterval m' -> 0.5 <= m' ->
     calculateRisk 1 0.5 0.5 <= calculateRisk 1 0.5 m').
Proof.
  apply (calculateRisk_fusion_bounds 1 0.5 0.5).
  - right. reflexivity.
  - split; vm_compute; discriminate.
  - split; vm_compute; discriminate.
Defined.

(** The fused risk of a raised gesture with half stress and half motion,
    and the classification cut points. *)
Example calculateRisk_sample : calculateRisk 1 0.5 0.5 == 0.75.
Proof. reflexivity. Qed.

Example getRiskLevel_cut_points :
  getRiskLevel 0.29999 = safe /\ getRiskLevel 0.3 = moderate /\
  getRiskLevel 0.74999 = moderate /\ getRiskLevel 0.75 = danger.
Proof. repeat split; reflexivity. Qed.

End RiskFusion.

(* --------------------------------------------------------------------- *)
(** ** Stress inference: spike limiter, noise compensation, gate          *)
(* --------------------------------------------------------------------- *)

Section StressScore.

Import StressInference.

Variable sqrt : Q -> Q.

Lemma _applySpikeLimiter_stored (newScore previous : Q) :
  snd (_applySpikeLimiter newScore previous)
  = fst (_applySpikeLimiter newScore previous).
Proof. reflexivity. Qed.

Lemma _applySpikeLimiter_capped (newScore previous : Q) :
  SPIKE_LIMIT < newScore - previous ->
  fst (_applySpikeLimiter newScore previous) = previous + SPIKE_LIMIT.
Proof.
  intros H. unfold _applySpikeLimiter. cbn.
  apply Qgtb_true in H. rewrite H. reflexivity.
Qed.

Lemma _applySpikeLimiter_passed (newScore previous : Q) :
  newScore - previous <= SPIKE_LIMIT ->
  fst (_applySpikeLimiter newScore previous) = newScore.
Proof.
  intros H. unfold _applySpikeLimiter. cbn.
  apply Qgtb_false in H. rewrite H. reflexivity.
Qed.

(** The limiter never returns more than the stored score plus the limit,
    nor more than what it was given. *)
Lemma _applySpikeLimiter_bound (newScore previous : Q) :
  fst (_applySpikeLimiter newScore previous) <= previous + SPIKE_LIMIT /\
  fst (_applySpikeLimiter newScore previous) <= newScore.
Proof.
  unfold _applySpikeLimiter. cbn.
  case_cmp (Qgtb (newScore - previous) SPIKE_LIMIT); cbn; lra.
Qed.

(** C4.  One step of the spike limiter: when the new raw score exceeds
    the stored previous score by more than 0.15 the returned score is
    previous + 0.15 (with previous 0.2 and raw 0.9 the output is at most
    0.35); a score that does not rise by more than the limit, and so any
    downward move, is returned unchanged (previous 0.9, raw 0.1 returns
    0.1); and the stored previous score is always the returned value. *)
Theorem spike_limiter_step (newScore previous : Q) :
  (0.15 < newScore - previous ->
     fst (_applySpikeLimiter newScore previous) = previous + 0.15) /\
  (newScore <= previous ->
     fst (_applySpikeLimiter newScore previous) = newScore) /\
  snd (_applySpikeLimiter newScore previous)
  = fst (_applySpikeLimiter newScore previous) /\
  fst (_applySpikeLimiter 0.9 0.2) <= 0.35 /\
  fst (_applySpikeLimiter 0.1 0.9) = 0.1.
Proof.
  split; [exact (_applySpikeLimiter_capped newScore previous) |].
  split.
  - intros H. apply _applySpikeLimiter_passed. unfold SPIKE_LIMIT. lra.
  - split; [reflexivity |]. split; [vm_compute; discriminate | reflexivity].
Qed.





(** The stored previous score stays in [0,1]: it starts at 0,
    [resetStressState] writes 0, and a call of [computeStressScore] that
    finds it there leaves it there. *)
Lemma computeStressScore_stored_range (fm : option FeatureMatrix)
    (baseline : option Baseline) (noiseFloor previous : Q) :
  0 <= previous <= 1 ->
  0 <= snd (computeStressScore sqrt fm baseline noiseFloor previous) <= 1.
Proof.
  intros Hp.
  assert (Hlim : forall c, 0 <= c <= 1 ->
            0 <= snd (_applySpikeLimiter c previous) <= 1).
  { intros c Hc. unfold _applySpikeLimiter. cbn.
    case_cmp (Qgtb (c - previous) SPIKE_LIMIT); cbn;
      unfold SPIKE_LIMIT in *; lra. }
  unfold computeStressScore.
  destruct fm as [fm |]; [| apply Hlim; lra].
  destruct (List.length (pitch fm) =? 0)%nat; [apply Hlim; lra |].
  destruct (Qltb _ VAD_MIN_RMS); [apply Hlim; lra |].
  apply Hlim. pose_minmax. lra.
Qed.

Lemma computeStressScore_gated (fm : option FeatureMatrix)
    (baseline : option Baseline) (noiseFloor previous : Q) :
  gatedOut sqrt fm = true ->
  computeStressScore sqrt fm baseline noiseFloor previous
  = _applySpikeLimiter 0 previous.
Proof.
  unfold gatedOut, computeStressScore. intros H.
  destruct fm as [fm |]; [| reflexivity].
  destruct (List.length (pitch fm) =? 0)%nat; [reflexivity |].
  cbn in H. rewrite H. reflexivity.
Qed.

(** Whatever is computed next, a stored score of 0 lets at most the limit
    through. *)
Lemma computeStressScore_after_zero (fm : option FeatureMatrix)
    (baseline : option Baseline) (noiseFloor : Q) :
  fst (computeStressScore sqrt fm baseline noiseFloor 0) <= 0.15.
Proof.
  assert (Hlim : forall c, fst (_applySpikeLimiter c 0) <= 0.15).
  { intros c. pose proof (_applySpikeLimiter_bound c 0) as [H _].
    unfold SPIKE_LIMIT in H. lra. }
  unfold computeStressScore.
  destruct fm as [fm |]; [| apply Hlim].
  destruct (List.length (pitch fm) =? 0)%nat; [apply Hlim |].
  destruct (Qltb _ VAD_MIN_RMS); apply Hlim.
Qed.

(** C9.  A call of [computeStressScore] that is gated out (no matrix, an
    empty window, or a mean RMS under 0.01) returns 0 and overwrites the
    stored previous score with 0, whatever score of 0 or more was stored;
    the call that follows it therefore returns at most 0.15, whatever its
    baseline and noise floor and whatever window of numbers it is given. *)
Theorem gated_call_resets_spike_limiter (fm : option FeatureMatrix)
    (baseline : option Baseline) (noiseFloor previous : Q) :
  0 <= previous ->
  match fm with
  | None => True
  | Some window =>
      pitch window = [] \/ mean (calculateStats sqrt (rms window)) < 0.01
  end ->
  fst (computeStressScore sqrt fm baseline noiseFloor previous) = 0 /\
  snd (computeStressScore sqrt fm baseline noiseFloor previous) = 0 /\
  forall fm' baseline' noiseFloor',
    numericWindow fm' = true ->
    fst (computeStressScore sqrt fm' baseline' noiseFloor'
           (snd (computeStressScore sqrt fm baseline noiseFloor previous)))
    <= 0.15.
Proof.
  intros Hprev Hgate.
  assert (Hgated : gatedOut sqrt fm = true).
  { unfold gatedOut. destruct fm as [window |]; [| reflexivity].
    destruct Hgate as [Hempty | Hquiet].
    - rewrite Hempty. reflexivity.
    - apply orb_true_iff. right. apply Qltb_true. exact Hquiet. }
  rewrite (computeStressScore_gated fm baseline noiseFloor previous Hgated).
  assert (Hzero : _applySpikeLimiter 0 previous = (0, 0)).
  { unfold _applySpikeLimiter.
    assert (E : Qgtb (0 - previous) SPIKE_LIMIT = false).
    { apply Qgtb_false. unfold SPIKE_LIMIT. lra. }
    rewrite E. reflexivity. }
  rewrite Hzero. cbn [fst snd].
  split; [reflexivity |]. split; [reflexivity |].
  intros fm' baseline' noiseFloor' _. apply computeStressScore_after_zero.
Qed.

End StressScore.

(** Samples for the three theorems above, with the six-decimal square
    root. *)

Lemma spike_limiter_step_witness :
  fst (StressInference._applySpikeLimiter 0.9 0.2) = 0.2 + 0.15 /\
  fst (StressInference._applySpikeLimiter 0.1 0.9) = 0.1.
Proof.
  split.
  - apply (proj1 (spike_limiter_step 0.9 0.2)). vm_compute. reflexivity.
  - apply (proj1 (proj2 (spike_limiter_step 0.1 0.9))). vm_compute.
    discriminate.
Defined.


(** A score of 0.9 is stored; the quiet window is gated out and stores 0,
    and the loud window that follows is held at 0.15. *)
Lemma gated_call_resets_spike_limiter_witness :
  fst (StressInference.computeStressScore sqrtApprox (Some quietWindow)
         None 0 0.9) = 0 /\
  snd (StressInference.computeStressScore sqrtApprox (Some quietWindow)
         None 0 0.9) = 0 /\
  fst (StressInference.computeStressScore sqrtApprox (Some loudWindow)
         None 0
         (snd (StressInference.computeStressScore sqrtApprox
                 (Some quietWindow) None 0 0.9)))
  <= 0.15.
Proof.
  destruct (gated_call_resets_spike_limiter sqrtApprox (Some quietWindow)
              None 0 0.9) as (Hret & Hstored & Hnext).
  - vm_compute. discriminate.
  - right. vm_compute. reflexivity.
  - split; [exact Hret |]. split; [exact Hstored |].
    apply Hnext. reflexivity.
Defined.

(** Without the gated call in between, the loud window is not held at
    0.15: from the stored 0.9 it returns its own score, above 0.3. *)
Example loud_window_without_reset :
  0.3 < fst (StressInference.computeStressScore sqrtApprox (Some loudWindow)
               None 0 0.9).
Proof. vm_compute. reflexivity. Qed.

(* --------------------------------------------------------------------- *)
(** ** Calibration gating                                                 *)
(* --------------------------------------------------------------------- *)

Section CalibrationGate.

Import AudioPipeline.

Variable sqrt : Q -> Q.

Lemma updateStressScore_result (this : Controller) (score : Q) :
  currentStressScore (fst (updateStressScore this score)) = score /\
  isCalibrating (fst (updateStressScore this score)) = isCalibrating this /\
  smoother (fst (updateStressScore this score)) = smoother this /\
  previousStressScore (fst (updateStressScore this score))
  = previousStressScore this /\
  forall u, snd (updateStressScore this score) = Some u ->
            stressScore u = score.
Proof.
  unfold updateStressScore, _emitUpdate. cbn.
  repeat split. intros u.
  destruct (hasCallback this); [| discriminate].
  intros H. injection H as <-. reflexivity.
Qed.

(** C5.  A run of [processAudioFrame] that starts while the controller is
    calibrating emits, if it emits at all, a stress score of exactly 0 (and
    an audio risk weight of 0), and publishes 0 as the current score,
    whatever the observed buffer and feature matrix; no inference runs: the
    spike limiter's stored score and the smoother are left as they were. *)
Theorem calibration_gates_stress (this : Controller)
    (obs : FrameObservation) :
  isCalibrating this = true ->
  (forall u, snd (processAudioFrame sqrt this obs) = Some u ->
     stressScore u = 0 /\ audioRiskWeight u == 0 /\
     currentStressScore (fst (processAudioFrame sqrt this obs)) = 0) /\
  previousStressScore (fst (processAudioFrame sqrt this obs))
  = previousStressScore this /\
  smoother (fst (processAudioFrame sqrt this obs)) = smoother this.
Proof.
  intros Hcal. unfold processAudioFrame.
  destruct (negb (isRunning this) || negb (hasAnalyser this)).
  { cbn. repeat split; intros; discriminate. }
  destruct (negb (hasVoice obs)).
  { unfold updateStressScore, _emitUpdate. cbn.
    split; [| split; reflexivity].
    intros u. destruct (hasCallback this); [| discriminate].
    intros H. injection H as <-. cbn. repeat split; reflexivity. }
  destruct (windowLength obs <? 1000)%nat.
  { cbn. repeat split; intros; discriminate. }
  rewrite Hcal.
  unfold updateStressScore, _emitUpdate. cbn.
  split; [| split; reflexivity].
  intros u. destruct (hasCallback this); [| discriminate].
  intros H. injection H as <-. cbn. repeat split; reflexivity.
Qed.

(** The score the dashboard polls is 0 as long as calibration lasts. *)
Lemma calibrating_keeps_current_score (this : Controller)
    (obs : FrameObservation) :
  isCalibrating this = true -> currentStressScore this = 0 ->
  currentStressScore (fst (processAudioFrame sqrt this obs)) = 0.
Proof.
  intros Hcal Hzero. unfold processAudioFrame.
  destruct (negb (isRunning this) || negb (hasAnalyser this)); [exact Hzero |].
  destruct (negb (hasVoice obs)); [reflexivity |].
  destruct (windowLength obs <? 1000)%nat; [exact Hzero |].
  rewrite Hcal. reflexivity.
Qed.

(** Over a whole session: from a freshly started pipeline, whenever the
    controller is still calibrating its current score is 0. *)
Lemma calibration_invariant (now : Z) (frames : list FrameObservation) :
  let final := fst (processAll sqrt (fst (start initial now)) frames) in
  isCalibrating final = true -> currentStressScore final = 0.
Proof.
  cbn zeta.
  assert (Hgen : forall this,
            (isCalibrating this = true -> currentStressScore this = 0) ->
            isCalibrating (fst (processAll sqrt this frames)) = true ->
            currentStressScore (fst (processAll sqrt this frames)) = 0).
  { induction frames as [| obs rest IH]; intros this Hinv; [exact Hinv |].
    cbn [processAll].
    destruct (processAudioFrame sqrt this obs) as [this1 emitted] eqn:E1.
    specialize (IH this1).
    destruct (processAll sqrt this1 rest) as [this2 later] eqn:E2.
    cbn [fst] in *. apply IH. intros Hcal1.
    replace this1 with (fst (processAudioFrame sqrt this obs))
      by (rewrite E1; reflexivity).
    destruct (isCalibrating this) eqn:Hcal.
    - apply calibrating_keeps_current_score; auto.
    - (* calibration never restarts inside [processAudioFrame] *)
      exfalso. revert Hcal1.
      replace this1 with (fst (processAudioFrame sqrt this obs))
        by (rewrite E1; reflexivity).
      unfold processAudioFrame.
      destruct (negb (isRunning this) || negb (hasAnalyser this));
        [cbn; congruence |].
      destruct (negb (hasVoice obs)); [cbn; congruence |].
      destruct (windowLength obs <? 1000)%nat; [cbn; congruence |].
      rewrite Hcal.
      destruct (StressInference.computeStressScore _ _ _ _ _)
        as [raw previous'].
      cbn. congruence. }
  apply Hgen. intros _. reflexivity.
Qed.

End CalibrationGate.

Lemma calibration_gates_stress_witness :
  (forall u,
     snd (AudioPipeline.processAudioFrame sqrtApprox
            (fst (AudioPipeline.start AudioPipeline.initial 0)) loudObservation)
     = Some u ->
     AudioPipeline.stressScore u = 0 /\ AudioPipeline.audioRiskWeight u == 0 /\
     AudioPipeline.currentStressScore
       (fst (AudioPipeline.processAudioFrame sqrtApprox
               (fst (AudioPipeline.start AudioPipeline.initial 0))
               loudObservation)) = 0) /\
  AudioPipeline.previousStressScore
    (fst (AudioPipeline.processAudioFrame sqrtApprox
            (fst (AudioPipeline.start AudioPipeline.initial 0))
            loudObservation))
  = AudioPipeline.previousStressScore
      (fst (AudioPipeline.start AudioPipeline.initial 0)) /\
  AudioPipeline.smoother
    (fst (AudioPipeline.processAudioFrame sqrtApprox
            (fst (AudioPipeline.start AudioPipeline.initial 0))
            loudObservation))
  = AudioPipeline.smoother (fst (AudioPipeline.start AudioPipeline.initial 0)).
Proof.
  apply (calibration_gates_stress sqrtApprox
           (fst (AudioPipeline.start AudioPipeline.initial 0)) loudObservation).
  reflexivity.
Defined.

(** The same loud window is scored once calibration is over: the gate is
    the calibration flag, not the content. *)
Example loud_window_scores_after_calibration :
  let calibrated :=
    fst (AudioPipeline.processAudioFrame sqrtApprox
           (fst (AudioPipeline.start AudioPipeline.initial 0))
           lateObservation) in
  AudioPipeline.isCalibrating calibrated = false /\
  AudioPipeline.currentStressScore calibrated = 0 /\
  0 < AudioPipeline.currentStressScore
        (fst (AudioPipeline.processAudioFrame sqrtApprox calibrated
                lateObservation)).
Proof. vm_compute. repeat split. Qed.

(* --------------------------------------------------------------------- *)
(** ** Feature extraction on an empty frame                               *)
(* --------------------------------------------------------------------- *)

Section EmptyFrame.

Import FeatureExtractor.

Variable Meyda_mfcc : Frame -> nat -> nat -> MeydaOutcome (list float).
Variable Meyda_spectralCentroid : Frame -> nat -> MeydaOutcome float.

(** The two extractors that guard themselves fall back to zeros when Meyda
    throws. *)
Lemma extractMFCC_guarded (frame : Frame) (sampleRate n : nat) :
  Meyda_mfcc frame sampleRate n = MeydaThrows ->
  extractMFCC Meyda_mfcc frame sampleRate n = repeat 0%float n.
Proof. intros H. unfold extractMFCC. rewrite H. reflexivity. Qed.

Lemma extractSpectralCentroid_guarded (frame : Frame) (sampleRate : nat) :
  Meyda_spectralCentroid frame sampleRate = MeydaThrows ->
  extractSpectralCentroid Meyda_spectralCentroid frame sampleRate = 0%float.
Proof. intros H. unfold extractSpectralCentroid. rewrite H. reflexivity. Qed.

(** No lag is tried on an empty frame, so the pitch is 0. *)
Lemma extractPitch_empty (sampleRate : nat) :
  extractPitch [] sampleRate = 0%float.
Proof.
  unfold extractPitch.
  assert (H : forall lags acc,
            fold_left
              (fun '(maxCorrelation, bestLag) lag =>
                 if (2 * lag <? List.length (@nil float))%nat then
                   let correlation := correlationAt [] lag in
                   if (maxCorrelation <? correlation)%float
                   then (correlation, lag)
                   else (maxCorrelation, bestLag)
                 else (maxCorrelation, bestLag))
              lags acc = acc).
  { induction lags as [| lag lags IH]; intros [c b]; [reflexivity |].
    cbn [fold_left List.length].
    replace (2 * lag <? 0)%nat with false
      by (symmetry; apply Nat.ltb_ge; lia).
    apply IH. }
  rewrite H. reflexivity.
Qed.

Lemma extractRMS_empty : is_nan (extractRMS []) = true.
Proof. vm_compute. reflexivity. Qed.

Lemma extractZCR_empty : is_nan (extractZCR []) = true.
Proof. vm_compute. reflexivity. Qed.

(** C6, on the code.  For the zero-length frame [extractAllFeatures]
    throws nothing, but the feature set it returns is not all-zero: the
    cepstral coefficients are whatever [extractMFCC] yields, the pitch is 0,
    and both the RMS energy and the zero-crossing rate are NaN, the value of
    0 / 0. *)
Theorem extractAllFeatures_empty_frame (sampleRate numMFCC : nat) :
  let features :=
    extractAllFeatures Meyda_mfcc Meyda_spectralCentroid [] sampleRate
      numMFCC in
  pitch features = 0%float /\
  is_nan (rms features) = true /\
  is_nan (zcr features) = true /\
  allZero features = false.
Proof.
  cbn zeta. unfold extractAllFeatures, allZero.
  cbn [mfcc pitch rms zcr spectralCentroid].
  split; [apply extractPitch_empty |].
  split; [apply extractRMS_empty |].
  split; [apply extractZCR_empty |].
  replace (extractRMS [] =? 0)%float with false by (vm_compute; reflexivity).
  rewrite andb_false_r. reflexivity.
Qed.

End EmptyFrame.

(** A frame of four samples, for comparison: energy and crossing rate are
    numbers. *)
Example extract_four_samples :
  FeatureExtractor.extractRMS [0.5; -0.5; 0.5; -0.5]%float = 0.5%float /\
  FeatureExtractor.extractZCR [0.5; -0.5; 0.5; -0.5]%float = 0.75%float.
Proof. split; vm_compute; reflexivity. Qed.

(* --------------------------------------------------------------------- *)
(** ** Gesture: fist confidence and the two-second hold                   *)
(* --------------------------------------------------------------------- *)

Section Gesture.

Import GesturePipeline.

Variable sqrt : Q -> Q.

(** The loop of the code counts what the description counts: the same
    five points are averaged and the same four tips are measured. *)
Lemma curledCount_spec (landmarks : list Landmark) :
  curledCount sqrt landmarks = spec_tipsWithin sqrt landmarks.
Proof.
  unfold curledCount, spec_tipsWithin, palmCenter, spec_meanPosition, curled,
    spec_distance, PALM_INDICES, FINGERTIP_INDICES, FIST_THRESHOLD, Qlen.
  cbn [fold_left List.map List.filter List.length fst snd].
  repeat match goal with
         | |- context [if Qltb ?a ?b then _ else _] =>
             destruct (Qltb a b)
         end;
    reflexivity.
Qed.

Lemma curledCount_le_4 (landmarks : list Landmark) :
  (curledCount sqrt landmarks <= 4)%nat.
Proof.
  unfold curledCount.
  destruct (palmCenter landmarks) as [px py].
  unfold FINGERTIP_INDICES. cbn [fold_left].
  destruct (curled sqrt landmarks px py 8),
           (curled sqrt landmarks px py 12),
           (curled sqrt landmarks px py 16),
           (curled sqrt landmarks px py 20); lia.
Qed.

(** The five values of count / 4, and which of them exceed 0.6. *)
Lemma quarters (n : nat) :
  (n <= 4)%nat ->
  let c := inject_Z (Z.of_nat n) / Qlen FINGERTIP_INDICES in
  (c == 0 \/ c == 0.25 \/ c == 0.5 \/ c == 0.75 \/ c == 1) /\
  (Qgtb c 0.6 = true <-> (3 <= n)%nat).
Proof.
  intros Hn.
  destruct n as [| [| [| [| [| n]]]]]; [| | | | | lia]; cbn zeta; split.
  - left. reflexivity.
  - split; [intros H; vm_compute in H; discriminate | lia].
  - right; left. reflexivity.
  - split; [intros H; vm_compute in H; discriminate | lia].
  - right; right; left. reflexivity.
  - split; [intros H; vm_compute in H; discriminate | lia].
  - right; right; right; left. reflexivity.
  - split; [lia | reflexivity].
  - right; right; right; right. reflexivity.
  - split; [lia | reflexivity].
Qed.

(** C10.  For a set of 21 landmarks the fist confidence is the number of
    the four non-thumb fingertips within 0.12 of the palm centre, divided
    by 4, so it is one of 0, 0.25, 0.5, 0.75, 1; and the test "confidence
    above 0.6" of [detectFrame] succeeds exactly when at least three of the
    four fingertips are within the threshold. *)
Theorem fist_confidence_quarters (landmarks : list Landmark) :
  List.length landmarks = 21%nat ->
  let n := spec_tipsWithin sqrt landmarks in
  let c := _computeFistConfidence sqrt landmarks in
  (n <= 4)%nat /\
  c == inject_Z (Z.of_nat n) / 4 /\
  (c == 0 \/ c == 0.25 \/ c == 0.5 \/ c == 0.75 \/ c == 1) /\
  (Qgtb c 0.6 = true <-> (3 <= n)%nat) /\
  (forall t, fisted sqrt (mkDetection true t (Some landmarks)) = true
             <-> (3 <= n)%nat).
Proof.
  intros _. cbn zeta. rewrite <- curledCount_spec.
  pose proof (curledCount_le_4 landmarks) as Hle.
  pose proof (quarters (curledCount sqrt landmarks) Hle) as [Hval Hfist].
  cbn zeta in Hval, Hfist. unfold _computeFistConfidence.
  split; [exact Hle |]. split; [reflexivity |].
  split; [exact Hval |]. split; [exact Hfist |].
  intros t. unfold fisted, _computeFistConfidence. cbn [hand]. exact Hfist.
Qed.

(** *** What one call of [detectFrame] does to the hold timer *)

Lemma detectFrame_skipped (this : Controller) (d : Detection) :
  ready this = false \/ videoReady d = false ->
  fst (detectFrame sqrt this d) = this.
Proof.
  unfold ready, detectFrame. intros [H | H].
  - apply andb_false_iff in H.
    destruct H as [H | H]; rewrite H; cbn;
      [| rewrite orb_true_r]; reflexivity.
  - destruct (negb (isInitialized this) || negb (hasHandLandmarker this));
      [reflexivity |].
    rewrite H. reflexivity.
Qed.

Lemma detectFrame_ready (this : Controller) (d : Detection) :
  ready (fst (detectFrame sqrt this d)) = ready this.
Proof.
  unfold ready, detectFrame.
  destruct (negb (isInitialized this) || negb (hasHandLandmarker this));
    [reflexivity |].
  destruct (negb (videoReady d)); [reflexivity |].
  destruct (hand d) as [landmarks |]; [| reflexivity].
  destruct (Qgtb (_computeFistConfidence sqrt landmarks) 0.6); reflexivity.
Qed.

Lemma detectFrame_resets (this : Controller) (d : Detection) :
  ready this = true -> videoReady d = true -> fisted sqrt d = false ->
  fistStartTime (fst (detectFrame sqrt this d)) = None /\
  gestureScore (fst (detectFrame sqrt this d)) = 0 /\
  res_gestureScore (snd (detectFrame sqrt this d)) = 0.
Proof.
  unfold ready, fisted, detectFrame. intros Hready Hvideo Hfist.
  apply andb_true_iff in Hready. destruct Hready as [-> ->].
  rewrite Hvideo. cbn [negb orb].
  destruct (hand d) as [landmarks |]; [| repeat split].
  rewrite Hfist. repeat split.
Qed.

Lemma detectFrame_fisted (this : Controller) (d : Detection) :
  ready this = true -> videoReady d = true -> fisted sqrt d = true ->
  let t0 := match fistStartTime this with Some t => t | None => now d end in
  fistStartTime (fst (detectFrame sqrt this d)) = Some t0 /\
  gestureScore (fst (detectFrame sqrt this d))
  = (if Qgeb (now d - t0) FIST_HOLD_DURATION_MS then 1
     else gestureScore this).
Proof.
  unfold ready, fisted, detectFrame. intros Hready Hvideo Hfist.
  apply andb_true_iff in Hready. destruct Hready as [-> ->].
  rewrite Hvideo. cbn [negb orb].
  destruct (hand d) as [landmarks |]; [| discriminate].
  rewrite Hfist. cbn. destruct (fistStartTime this); split; reflexivity.
Qed.

Lemma detectAll_snoc (this : Controller) (frames : list Detection)
    (d : Detection) :
  detectAll sqrt this (frames ++ [d])
  = fst (detectFrame sqrt (detectAll sqrt this frames) d).
Proof. unfold detectAll. rewrite fold_left_app. reflexivity. Qed.

Lemma detectAll_ready (this : Controller) (frames : list Detection) :
  ready (detectAll sqrt this frames) = ready this.
Proof.
  induction frames as [| d frames IH] using rev_ind; [reflexivity |].
  rewrite detectAll_snoc, detectFrame_ready. exact IH.
Qed.

Lemma detectAll_not_ready (this : Controller) (frames : list Detection) :
  ready this = false -> detectAll sqrt this frames = this.
Proof.
  intros H. induction frames as [| d frames IH] using rev_ind; [reflexivity |].
  rewrite detectAll_snoc, IH. apply detectFrame_skipped. left. exact H.
Qed.

(** The invariant survives every call. *)
Lemma holdInvariant_step (frames : list Detection) (c : Controller)
    (d : Detection) :
  ready c = true ->
  holdInvariant sqrt frames c ->
  holdInvariant sqrt (frames ++ [d]) (fst (detectFrame sqrt c d)).
Proof.
  intros Hready Hinv.
  destruct (videoReady d) eqn:Hvideo.
  - destruct (fisted sqrt d) eqn:Hfist.
    + destruct (detectFrame_fisted c d Hready Hvideo Hfist) as [Hstart Hscore].
      unfold holdInvariant in *. rewrite Hstart, Hscore.
      destruct (fistStartTime c) as [t0 |].
      * destruct Hinv as (before & first & during & -> & Hv & Hf & Ht & Hall
                          & Hsc).
        exists before, first, (during ++ [d]).
        split; [rewrite <- app_assoc; reflexivity |].
        split; [exact Hv |]. split; [exact Hf |]. split; [exact Ht |].
        split; [apply Forall_app; split; [exact Hall | constructor; auto] |].
        destruct (Qgeb (now d - t0) FIST_HOLD_DURATION_MS) eqn:Hheld.
        -- right. split; [reflexivity |].
           apply Qgeb_true in Hheld. unfold FIST_HOLD_DURATION_MS in Hheld.
           rewrite app_comm_cons. apply Exists_app. right.
           constructor. rewrite Ht. auto.
        -- destruct Hsc as [Hz | [Ho Hex]]; [left; exact Hz |].
           right. split; [exact Ho |].
           rewrite app_comm_cons. apply Exists_app. left. exact Hex.
      * exists frames, d, [].
        split; [reflexivity |]. split; [exact Hvideo |].
        split; [exact Hfist |]. split; [reflexivity |].
        split; [constructor |].
        destruct (Qgeb (now d - now d) FIST_HOLD_DURATION_MS) eqn:Hheld.
        -- right. split; [reflexivity |].
           apply Qgeb_true in Hheld. unfold FIST_HOLD_DURATION_MS in Hheld.
           constructor. auto.
        -- left. exact Hinv.
    + destruct (detectFrame_resets c d Hready Hvideo Hfist) as (Hstart & Hz & _).
      unfold holdInvariant. rewrite Hstart. exact Hz.
  - rewrite detectFrame_skipped by (right; exact Hvideo).
    unfold holdInvariant in *.
    destruct (fistStartTime c) as [t0 |]; [| exact Hinv].
    destruct Hinv as (before & first & during & -> & Hv & Hf & Ht & Hall & Hsc).
    exists before, first, (during ++ [d]).
    split; [rewrite <- app_assoc; reflexivity |].
    split; [exact Hv |]. split; [exact Hf |]. split; [exact Ht |].
    split; [apply Forall_app; split; [exact Hall | constructor; auto] |].
    destruct Hsc as [Hz | [Ho Hex]]; [left; exact Hz |].
    right. split; [exact Ho |].
    rewrite app_comm_cons. apply Exists_app. left. exact Hex.
Qed.

Lemma holdInvariant_run (this : Controller) (frames : list Detection) :
  ready this = true ->
  fistStartTime this = None -> gestureScore this = 0 ->
  holdInvariant sqrt frames (detectAll sqrt this frames).
Proof.
  intros Hready Hnone Hzero.
  induction frames as [| d frames IH] using rev_ind.
  - unfold holdInvariant, detectAll. cbn. rewrite Hnone. exact Hzero.
  - rewrite detectAll_snoc. apply holdInvariant_step; [| exact IH].
    rewrite detectAll_ready. exact Hready.
Qed.

(** A run of fisted frames, from a controller whose timer runs since [t0]:
    the score ends at 1 exactly when it was 1 already or some frame came at
    least two seconds after [t0]. *)
Lemma detectAll_fisted_run (frames : list Detection) :
  forall (c : Controller) (t0 : Q),
    ready c = true -> fistStartTime c = Some t0 ->
    gestureScore c = 0 \/ gestureScore c = 1 ->
    Forall (fun d => videoReady d = true /\ fisted sqrt d = true) frames ->
    fistStartTime (detectAll sqrt c frames) = Some t0 /\
    (gestureScore (detectAll sqrt c frames) = 0 \/
     gestureScore (detectAll sqrt c frames) = 1) /\
    (gestureScore (detectAll sqrt c frames) = 1 <->
     gestureScore c = 1 \/ Exists (fun d => 2000 <= now d - t0) frames).
Proof.
  induction frames as [| d frames IH]; intros c t0 Hready Hstart Hbin Hall.
  - cbn. split; [exact Hstart |]. split; [exact Hbin |].
    split; [auto |]. intros [H | H]; [exact H | inversion H].
  - inversion Hall as [| ? ? [Hv Hf] Hrest]; subst.
    change (detectAll sqrt c (d :: frames))
      with (detectAll sqrt (fst (detectFrame sqrt c d)) frames).
    destruct (detectFrame_fisted c d Hready Hv Hf) as [Hstart' Hscore'].
    rewrite Hstart in Hstart', Hscore'.
    assert (Hready' : ready (fst (detectFrame sqrt c d)) = true)
      by (rewrite detectFrame_ready; exact Hready).
    assert (Hbin' : gestureScore (fst (detectFrame sqrt c d)) = 0 \/
                    gestureScore (fst (detectFrame sqrt c d)) = 1).
    { rewrite Hscore'. destruct (Qgeb _ _); [right; reflexivity | exact Hbin]. }
    destruct (IH _ t0 Hready' Hstart' Hbin' Hrest) as (Hs & Hb & Hiff).
    split; [exact Hs |]. split; [exact Hb |].
    rewrite Hiff, Hscore'.
    destruct (Qgeb (now d - t0) FIST_HOLD_DURATION_MS) eqn:Hheld.
    + apply Qgeb_true in Hheld. unfold FIST_HOLD_DURATION_MS in Hheld.
      split; intros _; [right; constructor; exact Hheld | left; reflexivity].
    + apply Qgeb_false in Hheld. unfold FIST_HOLD_DURATION_MS in Hheld.
      split.
      * intros [H | H]; [left; exact H | right; constructor 2; exact H].
      * intros [H | H]; [left; exact H |].
        inversion H as [? ? Hd | ? ? Hd]; subst;
          [exfalso; exact (Qlt_not_le _ _ Hheld Hd) | right; exact Hd].
Qed.

(** C8.  (1) An update that sees no hand, or a hand whose confidence is
    not above 0.6, clears the start time and sets the gesture score to 0.
    (2) From a cleared timer, the score can be 1 after a sequence of calls
    only if the sequence ends with a stretch that begins with a fisted
    frame, contains only fisted frames (and calls skipped because the video
    was not ready), and has a fisted frame at least 2000 ms after its first
    one.  (3) Along a stretch of fisted frames from a cleared timer the score
    is 0 or 1, and it is 1 exactly when some frame comes at least 2000 ms
    after the first: a hold of 1999 ms leaves it at 0. *)
Theorem gesture_hold (this : Controller) :
  (forall d,
     ready this = true -> videoReady d = true -> fisted sqrt d = false ->
     fistStartTime (fst (detectFrame sqrt this d)) = None /\
     gestureScore (fst (detectFrame sqrt this d)) = 0 /\
     res_gestureScore (snd (detectFrame sqrt this d)) = 0) /\
  (forall frames,
     fistStartTime this = None -> gestureScore this = 0 ->
     gestureScore (detectAll sqrt this frames) = 1 ->
     exists before first during,
       frames = before ++ first :: during /\
       videoReady first = true /\ fisted sqrt first = true /\
       Forall (fun d => videoReady d = false \/ fisted sqrt d = true) during /\
       Exists (fun d => videoReady d = true /\ fisted sqrt d = true /\
                        2000 <= now d - now first)
              (first :: during)) /\
  (forall first rest,
     ready this = true ->
     fistStartTime this = None -> gestureScore this = 0 ->
     Forall (fun d => videoReady d = true /\ fisted sqrt d = true)
            (first :: rest) ->
     (gestureScore (detectAll sqrt this (first :: rest)) = 0 \/
      gestureScore (detectAll sqrt this (first :: rest)) = 1) /\
     (gestureScore (detectAll sqrt this (first :: rest)) = 1 <->
      Exists (fun d => 2000 <= now d - now first) (first :: rest))).
Proof.
  split; [| split].
  - intros d. apply detectFrame_resets.
  - intros frames Hnone Hzero Hone.
    destruct (ready this) eqn:Hready.
    + pose proof (holdInvariant_run this frames Hready Hnone Hzero) as Hinv.
      unfold holdInvariant in Hinv.
      destruct (fistStartTime (detectAll sqrt this frames)) as [t0 |].
      * destruct Hinv as (before & first & during & Heq & Hv & Hf & _ & Hall
                          & Hsc).
        exists before, first, during.
        destruct Hsc as [Hz | [_ Hex]]; [rewrite Hz in Hone; discriminate |].
        auto.
      * rewrite Hinv in Hone. discriminate.
    + rewrite (detectAll_not_ready this frames Hready), Hzero in Hone.
      discriminate.
  - intros first rest Hready Hnone Hzero Hall.
    inversion Hall as [| ? ? [Hv Hf] Hrest]; subst.
    change (detectAll sqrt this (first :: rest))
      with (detectAll sqrt (fst (detectFrame sqrt this first)) rest).
    destruct (detectFrame_fisted this first Hready Hv Hf) as [Hstart Hscore].
    rewrite Hnone in Hstart, Hscore. rewrite Hzero in Hscore.
    assert (Hready' : ready (fst (detectFrame sqrt this first)) = true)
      by (rewrite detectFrame_ready; exact Hready).
    assert (Hbin : gestureScore (fst (detectFrame sqrt this first)) = 0 \/
                   gestureScore (fst (detectFrame sqrt this first)) = 1).
    { rewrite Hscore. destruct (Qgeb _ _); auto. }
    destruct (detectAll_fisted_run rest _ (now first) Hready' Hstart Hbin Hrest)
      as (_ & Hb & Hiff).
    split; [exact Hb |].
    rewrite Hiff, Hscore.
    destruct (Qgeb (now first - now first) FIST_HOLD_DURATION_MS) eqn:Hheld.
    + apply Qgeb_true in Hheld. unfold FIST_HOLD_DURATION_MS in Hheld.
      split; intros _; [constructor; exact Hheld | left; reflexivity].
    + apply Qgeb_false in Hheld. unfold FIST_HOLD_DURATION_MS in Hheld.
      split.
      * intros [H | H]; [discriminate | constructor 2; exact H].
      * intros H. inversion H as [? ? Hd | ? ? Hd]; subst;
          [exfalso; exact (Qlt_not_le _ _ Hheld Hd) | right; exact Hd].
Qed.

End Gesture.

Lemma fist_confidence_quarters_witness :
  (GesturePipeline.spec_tipsWithin sqrtApprox threeFingerHand <= 4)%nat /\
  GesturePipeline._computeFistConfidence sqrtApprox threeFingerHand
  == inject_Z
       (Z.of_nat (GesturePipeline.spec_tipsWithin sqrtApprox threeFingerHand))
     / 4 /\
  (GesturePipeline._computeFistConfidence sqrtApprox threeFingerHand == 0 \/
   GesturePipeline._computeFistConfidence sqrtApprox threeFingerHand == 0.25 \/
   GesturePipeline._computeFistConfidence sqrtApprox threeFingerHand == 0.5 \/
   GesturePipeline._computeFistConfidence sqrtApprox threeFingerHand == 0.75 \/
   GesturePipeline._computeFistConfidence sqrtApprox threeFingerHand == 1) /\
  (Qgtb (GesturePipeline._computeFistConfidence sqrtApprox threeFingerHand)
        0.6 = true
   <-> (3 <= GesturePipeline.spec_tipsWithin sqrtApprox threeFingerHand)%nat) /\
  (forall t,
     GesturePipeline.fisted sqrtApprox
       (GesturePipeline.mkDetection true t (Some threeFingerHand)) = true
     <-> (3 <= GesturePipeline.spec_tipsWithin sqrtApprox threeFingerHand)%nat).
Proof.
  apply (fist_confidence_quarters sqrtApprox threeFingerHand). reflexivity.
Defined.

(** Four, none and three of the four fingertips within the threshold: the
    thumb tip of the third hand lies on the palm centre and is not
    counted, its little finger's tip is 0.13 away. *)
Example fist_confidence_samples :
  GesturePipeline._computeFistConfidence sqrtApprox fistHand == 1 /\
  GesturePipeline._computeFistConfidence sqrtApprox openHand == 0 /\
  GesturePipeline.spec_tipsWithin sqrtApprox threeFingerHand = 3%nat /\
  GesturePipeline._computeFistConfidence sqrtApprox threeFingerHand == 0.75.
Proof. repeat split; vm_compute; reflexivity. Qed.

(** A fist shown at 0, 1000 and 2000 ms asserts the gesture. *)
Lemma gesture_hold_witness :
  GesturePipeline.gestureScore
    (GesturePipeline.detectAll sqrtApprox gestureReady
       [frameAt 0 (Some fistHand); frameAt 1000 (Some fistHand);
        frameAt 2000 (Some fistHand)]) = 1.
Proof.
  destruct (gesture_hold sqrtApprox gestureReady) as (_ & _ & Hrun).
  assert (Hall : Forall
            (fun d => GesturePipeline.videoReady d = true /\
                      GesturePipeline.fisted sqrtApprox d = true)
            [frameAt 0 (Some fistHand); frameAt 1000 (Some fistHand);
             frameAt 2000 (Some fistHand)]).
  { repeat constructor. }
  destruct (Hrun _ _ (eq_refl true) (eq_refl None) (eq_refl 0) Hall)
    as [_ Hiff].
  apply (proj2 Hiff).
  constructor 2. constructor 2. constructor 1. vm_compute. discriminate.
Defined.

(** The samples of the hold: 1999 ms are not enough, 2000 ms are, and an
    open hand at 1000 ms makes the two seconds start over. *)
Example hold_1999_ms :
  GesturePipeline.gestureScore
    (GesturePipeline.detectAll sqrtApprox gestureReady
       [frameAt 0 (Some fistHand); frameAt 700 (Some fistHand);
        frameAt 1999 (Some fistHand)]) = 0.
Proof. vm_compute. reflexivity. Qed.

Example hold_2000_ms :
  GesturePipeline.gestureScore
    (GesturePipeline.detectAll sqrtApprox gestureReady
       [frameAt 0 (Some fistHand); frameAt 700 (Some fistHand);
        frameAt 2000 (Some fistHand)]) = 1.
Proof. vm_compute. reflexivity. Qed.

Example hold_interrupted_at_1000_ms :
  GesturePipeline.gestureScore
    (GesturePipeline.detectAll sqrtApprox gestureReady
       [frameAt 0 (Some fistHand); frameAt 1000 (Some openHand);
        frameAt 1001 (Some fistHand); frameAt 2000 (Some fistHand);
        frameAt 3000 (Some fistHand)]) = 0 /\
  GesturePipeline.gestureScore
    (GesturePipeline.detectAll sqrtApprox gestureReady
       [frameAt 0 (Some fistHand); frameAt 1000 (Some openHand);
        frameAt 1001 (Some fistHand); frameAt 2000 (Some fistHand);
        frameAt 3001 (Some fistHand)]) = 1 /\
  GesturePipeline.gestureScore
    (GesturePipeline.detectAll sqrtApprox gestureReady
       [frameAt 0 (Some fistHand); frameAt 2500 (Some fistHand);
        frameAt 2600 None]) = 0.
Proof. vm_compute. repeat split. Qed.

(* --------------------------------------------------------------------- *)
(** ** The pre-alert countdown                                            *)
(* --------------------------------------------------------------------- *)

Section PreAlert.

Import Dashboard.

(** *** One countdown at a time *)

(** Raising the alert registers a fresh interval and shows the card. *)
Lemma handleManualPanic_starts (s : State) :
  let s' := handleManualPanic s in
  timers s' !! nextTimerId s = Some CountdownStep /\
  countdownIntervalRef s' = Some (nextTimerId s) /\
  countdown s' = 5%Z /\ showPreAlert s' = true /\
  highRiskTimerRef s' = highRiskTimerRef s /\
  pendingLookups s' = pendingLookups s /\ emergencies s' = emergencies s.
Proof.
  cbn. split; [apply lookup_insert_eq |]. repeat split.
Qed.

(** A tick above 1 only decrements. *)
Lemma step_tick_decrements (s : State) (id : nat) (env : Env) :
  timers s !! id = Some CountdownStep -> (1 < countdown s)%Z ->
  step s (TimerFires id, env) = setCountdown (countdown s - 1) s.
Proof.
  intros Hlive Hn. cbn. rewrite Hlive. unfold countdownStep.
  destruct (countdown s <=? 1)%Z eqn:E; [| reflexivity].
  apply Z.leb_le in E. lia.
Qed.

(** The tick at 1 stops the interval the ref names and calls
    [handleEmergency] once. *)
Lemma step_tick_fires (s : State) (id : nat) (env : Env) :
  timers s !! id = Some CountdownStep -> (countdown s <= 1)%Z ->
  step s (TimerFires id, env)
  = setCountdown 0 (handleEmergency env (clearRef (countdownIntervalRef s) s)).
Proof.
  intros Hlive Hn. cbn. rewrite Hlive. unfold countdownStep.
  destruct (countdown s <=? 1)%Z eqn:E; [reflexivity |].
  apply Z.leb_gt in E. lia.
Qed.

(** A cleared timer delivers nothing. *)
Lemma step_dead_timer (s : State) (id : nat) (env : Env) :
  timers s !! id = None -> step s (TimerFires id, env) = s.
Proof. intros Hdead. cbn. rewrite Hdead. reflexivity. Qed.

Lemma run_dead_timer (s : State) (id : nat) (envs : list Env) :
  timers s !! id = None -> run s (ticks id envs) = s.
Proof.
  intros Hdead. induction envs as [| env envs IH]; [reflexivity |].
  unfold run, ticks in *. cbn [List.map fold_left].
  rewrite (step_dead_timer s id env Hdead). exact IH.
Qed.

(** When the lookup settles the event goes out, with the location found
    or the mock one. *)
Lemma step_settles (s : State) (outcome : option RiskEngine.Location)
    (env : Env) (read : list RiskEngine.Contact)
    (waiting : list (list RiskEngine.Contact)) :
  pendingLookups s = read :: waiting ->
  let s' := step s (GeolocationSettles outcome, env) in
  emergencies s'
  = emergencies s ++
    [RiskEngine.triggerEmergency (clock env) read
       (Some (locationFor outcome))] /\
  pendingLookups s' = waiting /\ navigatedToEmergency s' = true.
Proof.
  intros Hpending. cbn. unfold settleLookup. rewrite Hpending. cbn.
  destruct outcome; repeat split.
Qed.

(** A single countdown, left alone, triggers exactly once: after the
    alert is raised and its interval has ticked five times, one call of
    [handleEmergency] is waiting for the location, the interval is gone, and
    further ticks of it change nothing; when the lookup settles, exactly one
    event has been added, carrying the location found or, if the lookup
    failed, the mock location. *)
Lemma single_countdown_triggers_once (s : State) (e0 e1 e2 e3 e4 e5 eS : Env)
    (later : list Env) (outcome : option RiskEngine.Location) :
  pendingLookups s = [] ->
  let id := nextTimerId s in
  let final :=
    run s ((ClickManualAlert, e0) :: ticks id [e1; e2; e3; e4; e5]
           ++ ticks id later ++ [(GeolocationSettles outcome, eS)]) in
  emergencies final
  = emergencies s ++
    [RiskEngine.triggerEmergency (clock eS) (contactsOf e5)
       (Some (locationFor outcome))] /\
  pendingLookups final = [] /\
  timers final !! id = None /\
  countdown final = 0%Z.
Proof.
  intros Hpending. cbn zeta. unfold run.
  cbn [ticks List.map app fold_left].
  change (step s (ClickManualAlert, e0)) with (handleManualPanic s).
  destruct (handleManualPanic_starts s)
    as (Hlive & Href & Hcount & _ & _ & Hpend & Hsent).
  cbn zeta in *.
  remember (handleManualPanic s) as s0 eqn:Hs0. clear Hs0.
  rewrite (step_tick_decrements s0 _ e1 Hlive) by lia.
  rewrite Hcount.
  rewrite (step_tick_decrements (setCountdown (5 - 1) s0) _ e2 Hlive)
    by (cbn; lia).
  cbn [countdown setCountdown].
  match goal with
  | |- context [step ?t (TimerFires _, e3)] =>
      rewrite (step_tick_decrements t _ e3 Hlive) by (cbn; lia)
  end.
  cbn [countdown setCountdown].
  match goal with
  | |- context [step ?t (TimerFires _, e4)] =>
      rewrite (step_tick_decrements t _ e4 Hlive) by (cbn; lia)
  end.
  cbn [countdown setCountdown].
  match goal with
  | |- context [step ?t (TimerFires _, e5)] =>
      rewrite (step_tick_fires t _ e5 Hlive) by (cbn; lia)
  end.
  cbn [countdownIntervalRef setCountdown]. rewrite Href.
  match goal with
  | |- context [fold_left step _ ?t] => remember t as s5 eqn:Hs5
  end.
  assert (Hdead : timers s5 !! nextTimerId s = None).
  { subst s5. cbn. apply lookup_delete_eq. }
  assert (Hqueue : pendingLookups s5 = [contactsOf e5]).
  { subst s5. cbn. rewrite Hpend, Hpending. reflexivity. }
  assert (Hsent5 : emergencies s5 = emergencies s).
  { subst s5. cbn. exact Hsent. }
  assert (Hzero : countdown s5 = 0%Z).
  { subst s5. reflexivity. }
  clear Hs5.
  rewrite fold_left_app.
  pose proof (run_dead_timer s5 _ later Hdead) as Hrun.
  unfold run in Hrun. rewrite Hrun.
  cbn [fold_left].
  destruct (step_settles s5 outcome eS _ _ Hqueue) as (Hout & Hq & _).
  cbn zeta in Hout, Hq. rewrite Hout, Hq, Hsent5.
  split; [reflexivity |]. split; [reflexivity |].
  cbn. unfold settleLookup. rewrite Hqueue. cbn.
  split; [exact Hdead | exact Hzero].
Qed.

(** A single countdown that is cancelled never triggers: the card goes
    away, the countdown is back at 5, the interval and the sustain timeout
    are cleared, and later ticks of the interval change nothing. *)
Lemma single_countdown_cancelled (s : State) (id : nat) (env : Env)
    (later : list Env) :
  showPreAlert s = true -> countdownIntervalRef s = Some id ->
  let cancelled := step s (ClickCancelAlert, env) in
  showPreAlert cancelled = false /\ countdown cancelled = 5%Z /\
  timers cancelled !! id = None /\
  highRiskTimerRef cancelled = None /\
  (forall t, highRiskTimerRef s = Some t -> timers cancelled !! t = None) /\
  run cancelled (ticks id later) = cancelled /\
  emergencies cancelled = emergencies s /\
  pendingLookups cancelled = pendingLookups s.
Proof.
  intros Hshown Href. cbn zeta.
  assert (Hdead : timers (step s (ClickCancelAlert, env)) !! id = None).
  { destruct s as [on score level shown count detRef [t |] cdRef table next
                   pending sent navigated];
      cbn in Hshown, Href; subst; cbn.
    - destruct (decide (t = id)) as [-> | Hne].
      + apply lookup_delete_eq.
      + rewrite lookup_delete_ne by exact Hne. apply lookup_delete_eq.
    - apply lookup_delete_eq. }
  split; [| split; [| split; [exact Hdead |
          split; [| split; [| split; [apply run_dead_timer; exact Hdead |]]]]]];
    clear Hdead;
    destruct s as [on score level shown count detRef [t |] cdRef table next
                   pending sent navigated];
    cbn in Hshown, Href; subst; cbn; try reflexivity; try (split; reflexivity).
  - intros t' Ht'. injection Ht' as <-. apply lookup_delete_eq.
  - intros t' Ht'. discriminate.
Qed.

(** *** Every event carries a location *)

Lemma step_emergencies (s : State) (ev : Event * Env) :
  emergencies (step s ev) = emergencies s \/
  exists now read outcome,
    emergencies (step s ev)
    = emergencies s ++
      [RiskEngine.triggerEmergency now read (Some (locationFor outcome))].
Proof.
  destruct ev as [e env].
  destruct s as [on score level shown count detRef hrRef cdRef table next
                 pending sent navigated].
  destruct e as [id | outcome | | |]; cbn.
  - destruct (table !! id) as [[| |] |]; [| | | left; reflexivity].
    + left. unfold detectionTick. cbn.
      destruct (Qgtb _ 0.75), hrRef; reflexivity.
    + left. reflexivity.
    + left. unfold countdownStep. cbn.
      destruct (count <=? 1)%Z; [| reflexivity].
      destruct cdRef; reflexivity.
  - unfold settleLookup. cbn.
    destruct pending as [| read waiting]; [left; reflexivity |].
    right. exists (clock env), read, outcome. cbn.
    destruct outcome; reflexivity.
  - left. unfold toggleProtection, effectCleanup. cbn.
    destruct on, detRef, hrRef; reflexivity.
  - left. reflexivity.
  - left. destruct shown; [| reflexivity].
    unfold cancelAlert. cbn. destruct cdRef, hrRef; reflexivity.
Qed.

(** Whatever happens to the dashboard, an emergency event that goes out
    has a location: the one found, or the mock one when the lookup failed. *)
Lemma emergencies_have_location (trace : list (Event * Env)) :
  Forall (fun data => exists l, RiskEngine.location data = Some l)
         (emergencies (run initial trace)).
Proof.
  induction trace as [| ev trace IH] using rev_ind; [constructor |].
  unfold run in *. rewrite fold_left_app. cbn [fold_left].
  destruct (step_emergencies (fold_left step trace initial) ev)
    as [-> | (now & read & outcome & ->)]; [exact IH |].
  apply Forall_app. split; [exact IH |].
  constructor; [| constructor]. eexists. reflexivity.
Qed.

(** *** Two countdowns at once *)

(** C1, on the code.  When the manual alert is raised twice, two
    countdown intervals run and the ref remembers only the second.  The
    countdown reaches 0 at the fifth tick overall, which stops the second
    interval and triggers; nothing was cancelled; the first interval is
    still running and its next tick triggers again.  Two emergency events go
    out, each with the fallback location. *)
Theorem double_alert_triggers_twice :
  let reached := run initial (firstn 7 doubleAlertTrace) in
  let final := run initial doubleAlertTrace in
  countdown reached = 0%Z /\ triggerCount reached = 1%nat /\
  timers reached !! 1%nat = Some CountdownStep /\
  showPreAlert final = true /\
  List.length (emergencies final) = 2%nat /\
  Forall (fun data => RiskEngine.location data = Some Geo.getMockLocation)
         (emergencies final).
Proof.
  vm_compute. repeat split; repeat constructor.
Qed.

(** C2, on the code.  With the same two intervals running, the alert is
    cancelled while the card shows 3: the card goes away and the countdown
    is back at 5, but only the second interval was cleared.  The first one
    keeps ticking and, five ticks later, an emergency event goes out. *)
Theorem cancelled_alert_still_triggers :
  let before := run initial (firstn 4 cancelledAlertTrace) in
  let cancelled := run initial (firstn 5 cancelledAlertTrace) in
  let final := run initial cancelledAlertTrace in
  (showPreAlert before = true /\ countdown before = 3%Z /\
   triggerCount before = 0%nat) /\
  (showPreAlert cancelled = false /\ countdown cancelled = 5%Z /\
   highRiskTimerRef cancelled = None /\ triggerCount cancelled = 0%nat /\
   timers cancelled !! 2%nat = None /\
   timers cancelled !! 1%nat = Some CountdownStep) /\
  (showPreAlert final = false /\
   List.length (emergencies final) = 1%nat).
Proof.
  vm_compute. repeat split.
Qed.

(** The same happens without a second press of the button, when the
    sustain timeout fires while a manually raised countdown is running. *)
Example sustain_timeout_during_alert :
  let cancelled := run initial (firstn 9 sustainDuringAlertTrace) in
  let final := run initial sustainDuringAlertTrace in
  showPreAlert cancelled = false /\ countdown cancelled = 5%Z /\
  timers cancelled !! 3%nat = Some CountdownStep /\
  List.length (emergencies final) = 1%nat.
Proof. vm_compute. repeat split. Qed.

Example sustain_timeout_triggers_twice :
  let reached := run initial (firstn 11 sustainUncancelledTrace) in
  let final := run initial sustainUncancelledTrace in
  countdown reached = 0%Z /\ triggerCount reached = 1%nat /\
  List.length (emergencies final) = 2%nat.
Proof. vm_compute. repeat split. Qed.

End PreAlert.

(** The single countdown on a sample: one event, with the mock location
    when the lookup fails and the found one when it succeeds. *)
Example single_countdown_sample :
  Dashboard.emergencies
    (Dashboard.run Dashboard.initial
       (calmly
          [Dashboard.ClickManualAlert;
           Dashboard.TimerFires 1; Dashboard.TimerFires 1;
           Dashboard.TimerFires 1; Dashboard.TimerFires 1;
           Dashboard.TimerFires 1; Dashboard.TimerFires 1;
           Dashboard.GeolocationSettles None]))
  = [RiskEngine.triggerEmergency 0 [RiskEngine.mkContact "Asha" "5550100"]
       (Some Geo.getMockLocation)].
Proof. vm_compute. reflexivity. Qed.

(* ===================================================================== *)
(** * Part III: further properties of the code                            *)
(* ===================================================================== *)

(** ** Sums, minima and maxima of number lists *)

Lemma Qlen_cons {A : Type} (x : A) (l : list A) :
  Qlen (x :: l) == Qlen l + 1.
Proof.
  unfold Qlen. cbn [List.length]. rewrite Nat2Z.inj_succ.
  unfold Z.succ. rewrite inject_Z_plus. reflexivity.
Qed.

Lemma Qlen_nonneg {A : Type} (l : list A) : 0 <= Qlen l.
Proof.
  unfold Qlen. change 0 with (inject_Z 0). rewrite <- Zle_Qle. lia.
Qed.

Lemma Qlen_pos {A : Type} (x : A) (l : list A) : 0 < Qlen (x :: l).
Proof. rewrite Qlen_cons. pose proof (Qlen_nonneg l). lra. Qed.

(** A sum of terms that all lie between [lo] and [hi]. *)
Lemma fold_sum_bounds {A : Type} (f : A -> Q) (lo hi : Q) (l : list A) :
  Forall (fun x => lo <= f x <= hi) l ->
  forall acc,
    acc + lo * Qlen l <= fold_left (fun a b => a + f b) l acc
    <= acc + hi * Qlen l.
Proof.
  induction 1 as [| x l Hx _ IH]; intros acc.
  - cbn [fold_left]. change (Qlen (@nil A)) with 0. lra.
  - cbn [fold_left]. specialize (IH (acc + f x)).
    rewrite Qlen_cons. lra.
Qed.

Lemma fold_Qmin_le (l : list Q) :
  forall a, fold_left Qmin l a <= a /\
            Forall (fun x => fold_left Qmin l a <= x) l.
Proof.
  induction l as [| x l IH]; intros a; cbn [fold_left].
  - split; [lra | constructor].
  - destruct (IH (Qmin a x)) as [Hle Hall].
    pose proof (Q.le_min_l a x). pose proof (Q.le_min_r a x).
    split; [lra |]. constructor; [lra | exact Hall].
Qed.

Lemma fold_Qmax_ge (l : list Q) :
  forall a, a <= fold_left Qmax l a /\
            Forall (fun x => x <= fold_left Qmax l a) l.
Proof.
  induction l as [| x l IH]; intros a; cbn [fold_left].
  - split; [lra | constructor].
  - destruct (IH (Qmax a x)) as [Hle Hall].
    pose proof (Q.le_max_l a x). pose proof (Q.le_max_r a x).
    split; [lra |]. constructor; [lra | exact Hall].
Qed.

(* --------------------------------------------------------------------- *)
(** ** riskEngine.js: what can raise the risk above the threshold         *)
(* --------------------------------------------------------------------- *)

Section RiskThreshold.

Import RiskEngine.

Lemma getRiskLevel_danger (r : Q) : getRiskLevel r = danger <-> 0.75 <= r.
Proof.
  unfold getRiskLevel.
  case_cmp (Qltb r 0.3); [split; [discriminate | lra] |].
  case_cmp (Qltb r 0.75); [split; [discriminate | lra] |].
  split; [intros _; lra | reflexivity].
Qed.

(** X1.  The gesture is required for danger.  Without it, stress and
    motion in [0,1] fuse to at most 0.5: the risk is never above the 0.75 of
    the detection loop and never classified danger.  With it, the risk is at
    least 0.5, and with full stress as well it is at least 0.8, above the
    threshold and classified danger whatever the motion. *)
Theorem gesture_required_for_danger (s m : Q) :
  unitInterval s -> unitInterval m ->
  calculateRisk 0 s m <= 0.5 /\
  Qgtb (calculateRisk 0 s m) 0.75 = false /\
  getRiskLevel (calculateRisk 0 s m) <> danger /\
  0.5 <= calculateRisk 1 s m /\
  0.8 <= calculateRisk 1 1 m /\
  Qgtb (calculateRisk 1 1 m) 0.75 = true /\
  getRiskLevel (calculateRisk 1 1 m) = danger.
Proof.
  intros [Hs0 Hs1] [Hm0 Hm1].
  assert (Hle : calculateRisk 0 s m <= 0.5).
  { unfold calculateRisk. cbn. pose_minmax. lra. }
  assert (Hge : 0.5 <= calculateRisk 1 s m).
  { unfold calculateRisk. cbn. pose_minmax. lra. }
  assert (Hfull : 0.8 <= calculateRisk 1 1 m).
  { unfold calculateRisk. cbn. pose_minmax. lra. }
  split; [exact Hle |].
  split; [apply Qgtb_false; lra |].
  split; [rewrite getRiskLevel_danger; lra |].
  split; [exact Hge |].
  split; [exact Hfull |].
  split; [apply Qgtb_true; lra |].
  apply getRiskLevel_danger. lra.
Qed.

Lemma gesture_required_for_danger_witness :
  calculateRisk 0 1 1 <= 0.5 /\
  Qgtb (calculateRisk 0 1 1) 0.75 = false /\
  getRiskLevel (calculateRisk 0 1 1) <> danger /\
  0.5 <= calculateRisk 1 1 1 /\
  0.8 <= calculateRisk 1 1 1 /\
  Qgtb (calculateRisk 1 1 1) 0.75 = true /\
  getRiskLevel (calculateRisk 1 1 1) = danger.
Proof.
  apply (gesture_required_for_danger 1 1); split; vm_compute; discriminate.
Defined.

(** X2.  The mock detectors never reach the threshold: whatever
    [Math.random()] returns, the risk fused from [detectGesture],
    [detectStress] and [detectMotion] is at most 0.63, so it is never above
    0.75 and never classified danger. *)
Theorem mock_detectors_below_threshold (r1 r2 r3 : Q) :
  0 <= r1 < 1 -> 0 <= r2 < 1 -> 0 <= r3 < 1 ->
  calculateRisk (detectGesture r1) (detectStress r2) (detectMotion r3)
  <= 0.63 /\
  Qgtb (calculateRisk (detectGesture r1) (detectStress r2) (detectMotion r3))
       0.75 = false /\
  getRiskLevel
    (calculateRisk (detectGesture r1) (detectStress r2) (detectMotion r3))
  <> danger.
Proof.
  intros H1 H2 H3.
  assert (Hlt : calculateRisk (detectGesture r1) (detectStress r2)
                  (detectMotion r3) <= 0.63).
  { unfold calculateRisk, detectGesture, detectStress, detectMotion. cbn.
    destruct (Qgtb r1 0.95); pose_minmax; lra. }
  split; [exact Hlt |].
  split; [apply Qgtb_false; lra |].
  rewrite getRiskLevel_danger. lra.
Qed.

Lemma mock_detectors_below_threshold_witness :
  calculateRisk (detectGesture 0.99) (detectStress 0.99) (detectMotion 0.99)
  <= 0.63 /\
  Qgtb (calculateRisk (detectGesture 0.99) (detectStress 0.99)
          (detectMotion 0.99)) 0.75 = false /\
  getRiskLevel
    (calculateRisk (detectGesture 0.99) (detectStress 0.99) (detectMotion 0.99))
  <> danger.
Proof.
  apply (mock_detectors_below_threshold 0.99 0.99 0.99);
    split; vm_compute; first [discriminate | reflexivity].
Defined.

End RiskThreshold.

(* --------------------------------------------------------------------- *)
(** ** stressInference.js: range, ramp, baseline fallback, weights        *)
(* --------------------------------------------------------------------- *)

Section StressRange.

Import StressInference.

Variable sqrt : Q -> Q.

Lemma _applySpikeLimiter_range (c previous : Q) :
  0 <= c <= 1 -> 0 <= previous <= 1 ->
  0 <= fst (_applySpikeLimiter c previous) <= 1.
Proof.
  intros Hc Hp. unfold _applySpikeLimiter. cbn.
  case_cmp (Qgtb (c - previous) SPIKE_LIMIT); cbn;
    unfold SPIKE_LIMIT in *; lra.
Qed.

(** What [computeStressScore] hands to the limiter is in [0,1]. *)
Lemma computeStressScore_limited (fm : option FeatureMatrix)
    (baseline : option Baseline) (noiseFloor previous : Q) :
  exists c, 0 <= c <= 1 /\
    computeStressScore sqrt fm baseline noiseFloor previous
    = _applySpikeLimiter c previous.
Proof.
  unfold computeStressScore.
  destruct fm as [fm |]; [| exists 0; split; [lra | reflexivity]].
  destruct (List.length (pitch fm) =? 0)%nat;
    [exists 0; split; [lra | reflexivity] |].
  destruct (Qltb _ VAD_MIN_RMS); [exists 0; split; [lra | reflexivity] |].
  eexists. split; [| reflexivity]. pose_minmax. lra.
Qed.

(** X3.  Whatever the baseline and the noise floor, a call of
    [computeStressScore] on a window of numbers, with a stored score in
    [0,1], returns a score in [0,1] that exceeds the stored score by at
    most 0.15, and stores what it returns. *)
Theorem computeStressScore_range (fm : option FeatureMatrix)
    (baseline : option Baseline) (noiseFloor previous : Q) :
  numericWindow fm = true ->
  0 <= previous <= 1 ->
  0 <= fst (computeStressScore sqrt fm baseline noiseFloor previous) <= 1 /\
  fst (computeStressScore sqrt fm baseline noiseFloor previous)
  <= previous + 0.15 /\
  snd (computeStressScore sqrt fm baseline noiseFloor previous)
  = fst (computeStressScore sqrt fm baseline noiseFloor previous).
Proof.
  intros _ Hp.
  destruct (computeStressScore_limited fm baseline noiseFloor previous)
    as (c & Hc & ->).
  split; [apply _applySpikeLimiter_range; assumption |].
  split; [| reflexivity].
  pose proof (_applySpikeLimiter_bound c previous) as [H _].
  unfold SPIKE_LIMIT in H. exact H.
Qed.

(** Along successive calls every score is at most 0.15 per call above the
    score stored at the start. *)
Lemma computeAll_ramp (calls : list Call) :
  forall previous,
    snd (computeAll sqrt calls previous) <= previous + 0.15 * Qlen calls /\
    Forall (fun score => score <= previous + 0.15 * Qlen calls)
           (fst (computeAll sqrt calls previous)).
Proof.
  induction calls as [| c calls IH]; intros previous.
  - cbn. change (Qlen (@nil Call)) with 0. split; [lra | constructor].
  - cbn [computeAll].
    destruct (computeStressScore_limited (call_matrix c) (call_baseline c)
                (call_noiseFloor c) previous) as (v & _ & ->).
    pose proof (_applySpikeLimiter_bound v previous) as [Hb _].
    unfold SPIKE_LIMIT in Hb.
    destruct (_applySpikeLimiter v previous) as [score stored] eqn:E.
    assert (Hst : stored = score).
    { pose proof (_applySpikeLimiter_stored v previous) as H.
      rewrite E in H. exact H. }
    subst stored. cbn [fst] in Hb.
    destruct (IH score) as [Hfin Hall].
    destruct (computeAll sqrt calls score) as [scores final].
    cbn [fst snd] in *.
    pose proof (Qlen_cons c calls) as Hlen.
    pose proof (Qlen_nonneg calls) as Hn.
    split; [lra |].
    constructor; [lra |].
    eapply Forall_impl; [| exact Hall]. cbn. intros a Ha. lra.
Qed.

(** The scores of the first calls are the scores of those calls alone. *)
Lemma computeAll_firstn (n : nat) (calls : list Call) :
  forall previous,
    firstn n (fst (computeAll sqrt calls previous))
    = fst (computeAll sqrt (firstn n calls) previous).
Proof.
  revert calls. induction n as [| n IH]; intros calls previous.
  - reflexivity.
  - destruct calls as [| c calls]; [reflexivity |].
    cbn [computeAll firstn].
    destruct (computeStressScore sqrt (call_matrix c) (call_baseline c)
                (call_noiseFloor c) previous) as [score stored].
    specialize (IH calls stored).
    destruct (computeAll sqrt calls stored) as [scores final].
    destruct (computeAll sqrt (firstn n calls) stored) as [scores' final'].
    cbn [fst firstn] in *. rewrite IH. reflexivity.
Qed.

(** X4.  The ramp of the spike limiter: after a reset, none of the first
    six calls of [computeStressScore] on windows of numbers returns 1,
    however high their raw scores; the limiter lets the score rise by one
    step of 0.15 a call, so that a score of 1 takes seven calls. *)
Theorem spike_limiter_ramp (calls : list Call) :
  Forall (fun c => numericWindow (call_matrix c) = true) calls ->
  Forall (fun score => score < 1)
         (firstn 6 (fst (computeAll sqrt calls resetStressState))).
Proof.
  intros _. rewrite computeAll_firstn.
  destruct (computeAll_ramp (firstn 6 calls) resetStressState) as [_ Hall].
  unfold resetStressState in *.
  eapply Forall_impl; [| exact Hall]. cbn. intros a Ha.
  assert (Hq : Qlen (firstn 6 calls) <= 6).
  { unfold Qlen. change 6 with (inject_Z 6). rewrite <- Zle_Qle.
    pose proof (firstn_le_length 6 calls). lia. }
  lra.
Qed.

(** X5.  A baseline with a field that is not positive is not used: the
    window is scored with the absolute thresholds, exactly as when there is
    no baseline. *)
Theorem unusable_baseline_falls_back (fm : FeatureMatrix) (b : Baseline)
    (noiseFloor previous : Q) :
  base_pitch b <= 0 \/ base_rms b <= 0 \/ base_centroid b <= 0 ->
  featureScores sqrt fm (Some b) = featureScores sqrt fm None /\
  computeStressScore sqrt (Some fm) (Some b) noiseFloor previous
  = computeStressScore sqrt (Some fm) None noiseFloor previous.
Proof.
  intros H.
  assert (Hs : featureScores sqrt fm (Some b) = featureScores sqrt fm None).
  { unfold featureScores.
    assert (E : Qgtb (base_pitch b) 0 && Qgtb (base_rms b) 0
                && Qgtb (base_centroid b) 0 = false).
    { destruct H as [H | [H | H]]; apply Qgtb_false in H; rewrite H;
        rewrite ?andb_false_r; reflexivity. }
    rewrite E. reflexivity. }
  split; [exact Hs |].
  unfold computeStressScore. rewrite Hs. reflexivity.
Qed.

(** X6.  The five weights sum to 1 for every noise floor; hence per-feature
    scores that all lie in [0,1] combine to a raw score in [0,1], which the
    clamp leaves as it is. *)
Theorem weights_sum_to_one (noiseFloor : Q) (s : Scores) :
  unitInterval (pitchScore s) -> unitInterval (rmsScore s) ->
  unitInterval (mfccScore s) -> unitInterval (centroidScore s) ->
  unitInterval (zcrScore s) ->
  let w := noiseCompensation noiseFloor in
  wPitch w + wRMS w + wMFCC w + wCentroid w + wZCR w == 1 /\
  0 <= weightedCombination s w <= 1 /\
  Qmax 0 (Qmin 1 (weightedCombination s w)) == weightedCombination s w.
Proof.
  unfold unitInterval. intros Hp Hr Hm Hc Hz. cbn zeta.
  assert (Hw : 0 <= weightedCombination s (noiseCompensation noiseFloor) <= 1
               /\ wPitch (noiseCompensation noiseFloor)
                  + wRMS (noiseCompensation noiseFloor)
                  + wMFCC (noiseCompensation noiseFloor)
                  + wCentroid (noiseCompensation noiseFloor)
                  + wZCR (noiseCompensation noiseFloor) == 1).
  { unfold weightedCombination, noiseCompensation.
    destruct (Qgtb noiseFloor NOISE_HIGH_THRESHOLD); cbn; lra. }
  destruct Hw as [Hrange Hsum].
  split; [exact Hsum |]. split; [exact Hrange |].
  pose_minmax. lra.
Qed.

End StressRange.

Lemma computeStressScore_range_witness :
  0 <= fst (StressInference.computeStressScore sqrtApprox (Some loudWindow)
              None 0.1 0.5) <= 1 /\
  fst (StressInference.computeStressScore sqrtApprox (Some loudWindow)
         None 0.1 0.5) <= 0.5 + 0.15 /\
  snd (StressInference.computeStressScore sqrtApprox (Some loudWindow)
         None 0.1 0.5)
  = fst (StressInference.computeStressScore sqrtApprox (Some loudWindow)
           None 0.1 0.5).
Proof.
  apply (computeStressScore_range sqrtApprox (Some loudWindow) None 0.1 0.5).
  - reflexivity.
  - split; vm_compute; discriminate.
Defined.

Lemma spike_limiter_ramp_witness :
  Forall (fun score => score < 1)
    (firstn 6
       (fst (StressInference.computeAll sqrtApprox
               (repeat (StressInference.mkCall (Some loudWindow) None 0) 8)
               StressInference.resetStressState))).
Proof.
  apply (spike_limiter_ramp sqrtApprox
           (repeat (StressInference.mkCall (Some loudWindow) None 0) 8)).
  repeat constructor.
Defined.

Lemma unusable_baseline_falls_back_witness :
  StressInference.featureScores sqrtApprox loudWindow
    (Some (StressInference.mkBaseline 0 0.2 1500))
  = StressInference.featureScores sqrtApprox loudWindow None /\
  StressInference.computeStressScore sqrtApprox (Some loudWindow)
    (Some (StressInference.mkBaseline 0 0.2 1500)) 0 0
  = StressInference.computeStressScore sqrtApprox (Some loudWindow) None 0 0.
Proof.
  apply (unusable_baseline_falls_back sqrtApprox loudWindow
           (StressInference.mkBaseline 0 0.2 1500) 0 0).
  left. vm_compute. discriminate.
Defined.

Lemma weights_sum_to_one_witness :
  StressInference.wPitch (StressInference.noiseCompensation 0.1)
  + StressInference.wRMS (StressInference.noiseCompensation 0.1)
  + StressInference.wMFCC (StressInference.noiseCompensation 0.1)
  + StressInference.wCentroid (StressInference.noiseCompensation 0.1)
  + StressInference.wZCR (StressInference.noiseCompensation 0.1) == 1 /\
  0 <= StressInference.weightedCombination
         (StressInference.mkScores 1 0.5 0 1 0.25)
         (StressInference.noiseCompensation 0.1) <= 1 /\
  Qmax 0 (Qmin 1 (StressInference.weightedCombination
                    (StressInference.mkScores 1 0.5 0 1 0.25)
                    (StressInference.noiseCompensation 0.1)))
  == StressInference.weightedCombination
       (StressInference.mkScores 1 0.5 0 1 0.25)
       (StressInference.noiseCompensation 0.1).
Proof.
  apply (weights_sum_to_one 0.1 (StressInference.mkScores 1 0.5 0 1 0.25));
    split; vm_compute; discriminate.
Defined.

(* --------------------------------------------------------------------- *)
(** ** featureExtractor.js: [calculateStats]                              *)
(* --------------------------------------------------------------------- *)

Lemma fold_sum_lower {A : Type} (f : A -> Q) (lo : Q) (l : list A) :
  Forall (fun x => lo <= f x) l ->
  forall acc, acc + lo * Qlen l <= fold_left (fun a b => a + f b) l acc.
Proof.
  induction 1 as [| x l Hx _ IH]; intros acc.
  - cbn [fold_left]. change (Qlen (@nil A)) with 0. lra.
  - cbn [fold_left]. specialize (IH (acc + f x)).
    rewrite Qlen_cons. lra.
Qed.

Lemma square_nonneg (d : Q) : 0 <= d ^ 2.
Proof. change (d ^ 2) with (d * d). nra. Qed.

Section Statistics.

Import StressInference.

Variable sqrt : Q -> Q.

(** X7.  [calculateStats] of the empty list is all zeros.  For a list that
    is not empty, [min] is at most [max], every value lies between them,
    and the variance is not negative. *)
Theorem calculateStats_bounds :
  calculateStats sqrt [] = mkStats 0 0 0 0 0 /\
  forall (v : Q) (rest : list Q),
    min (calculateStats sqrt (v :: rest))
    <= max (calculateStats sqrt (v :: rest)) /\
    Forall (fun x => min (calculateStats sqrt (v :: rest)) <= x
                     <= max (calculateStats sqrt (v :: rest)))
           (v :: rest) /\
    0 <= variance (calculateStats sqrt (v :: rest)).
Proof.
  split; [reflexivity |]. intros v rest.
  cbn [calculateStats min max mean variance].
  destruct (fold_Qmin_le rest v) as [Hmin0 Hmin].
  destruct (fold_Qmax_ge rest v) as [Hmax0 Hmax].
  set (lo := fold_left Qmin rest v) in *.
  set (hi := fold_left Qmax rest v) in *.
  assert (Hall : Forall (fun x => lo <= x <= hi) (v :: rest)).
  { constructor; [lra |].
    rewrite Forall_forall in Hmin, Hmax. apply Forall_forall.
    intros x Hx. split; [apply Hmin | apply Hmax]; exact Hx. }
  split; [lra |].
  split; [exact Hall |].
  pose proof (Qlen_pos v rest) as Hn.
  set (m := fold_left (fun a b => a + b) (v :: rest) 0 / Qlen (v :: rest)).
  assert (Hsq : Forall (fun x => 0 <= (x - m) ^ 2) (v :: rest)).
  { apply Forall_forall. intros x _. apply square_nonneg. }
  pose proof (fold_sum_lower (fun x => (x - m) ^ 2) 0 (v :: rest) Hsq 0)
    as Hlo.
  cbn beta in Hlo.
  apply Qle_shift_div_l; [exact Hn | lra].
Qed.

End Statistics.

(* --------------------------------------------------------------------- *)
(** ** smoothing.js: [TemporalSmoother]                                   *)
(* --------------------------------------------------------------------- *)

Section Smoother.

Import Smoothing.

Lemma addSample_samples (this : TemporalSmoother) (v : Q) (t : Z) :
  samples (addSample this v t)
  = List.filter (fun s => (t - windowSeconds this * 1000 <? timestamp s)%Z)
      (samples this)
    ++ (if (t - windowSeconds this * 1000 <? t)%Z then [mkSample v t]
        else []).
Proof.
  unfold addSample. cbn [samples]. rewrite List.filter_app. reflexivity.
Qed.

Lemma addSample_fixed (this : TemporalSmoother) (v : Q) (t : Z) :
  windowSeconds (addSample this v t) = windowSeconds this /\
  alpha (addSample this v t) = alpha this.
Proof. split; reflexivity. Qed.

(** X9.  After [addSample(v, t)] every retained sample is younger than
    the window: its timestamp is above t - windowSeconds*1000.  The retained
    samples are the earlier ones that pass this test, in their order,
    followed by the new sample when the window is positive; with a window of
    zero or less the new sample itself is dropped. *)
Theorem addSample_window (this : TemporalSmoother) (v : Q) (t : Z) :
  Forall (fun s => (t - windowSeconds this * 1000 < timestamp s)%Z)
         (samples (addSample this v t)) /\
  ((0 < windowSeconds this)%Z ->
   samples (addSample this v t)
   = List.filter (fun s => (t - windowSeconds this * 1000 <? timestamp s)%Z)
       (samples this) ++ [mkSample v t]) /\
  ((windowSeconds this <= 0)%Z ->
   samples (addSample this v t)
   = List.filter (fun s => (t - windowSeconds this * 1000 <? timestamp s)%Z)
       (samples this)).
Proof.
  split; [| split].
  - unfold addSample. cbn [samples]. apply Forall_forall. intros s Hs.
    apply List.filter_In in Hs. destruct Hs as [_ Hs].
    apply Z.ltb_lt in Hs. exact Hs.
  - intros Hw. rewrite addSample_samples.
    replace (t - windowSeconds this * 1000 <? t)%Z with true
      by (symmetry; apply Z.ltb_lt; lia).
    reflexivity.
  - intros Hw. rewrite addSample_samples.
    replace (t - windowSeconds this * 1000 <? t)%Z with false
      by (symmetry; apply Z.ltb_ge; lia).
    apply app_nil_r.
Qed.

(** X11.  The average restarts after a gap: when every stored sample is
    older than the window (and the window is positive), the new sample is
    the only one kept and the smoothed value becomes its value, whatever the
    smoothed value was. *)
Theorem addSample_after_gap (this : TemporalSmoother) (v : Q) (t : Z) :
  (0 < windowSeconds this)%Z ->
  Forall (fun s => (timestamp s <= t - windowSeconds this * 1000)%Z)
         (samples this) ->
  samples (addSample this v t) = [mkSample v t] /\
  smoothedValue (addSample this v t) = v.
Proof.
  intros Hw Hold.
  assert (Hnone :
    List.filter (fun s => (t - windowSeconds this * 1000 <? timestamp s)%Z)
      (samples this) = []).
  { induction Hold as [| s l Hs _ IH]; [reflexivity |].
    cbn [List.filter].
    replace (t - windowSeconds this * 1000 <? timestamp s)%Z with false
      by (symmetry; apply Z.ltb_ge; exact Hs).
    exact IH. }
  destruct (addSample_window this v t) as (_ & Hkeep & _).
  specialize (Hkeep Hw). rewrite Hnone in Hkeep. cbn in Hkeep.
  split; [exact Hkeep |].
  unfold addSample in *. cbn [samples smoothedValue] in *.
  rewrite Hkeep. reflexivity.
Qed.

(** One step keeps a smoothed value in [0,1] there, for the smoothing
    factor 0.3 of the constructor. *)
Lemma addSample_unit (this : TemporalSmoother) (v : Q) (t : Z) :
  alpha this = 0.3 -> unitInterval (smoothedValue this) -> unitInterval v ->
  Forall (fun s => unitInterval (value s)) (samples this) ->
  unitInterval (smoothedValue (addSample this v t)) /\
  Forall (fun s => unitInterval (value s)) (samples (addSample this v t)).
Proof.
  unfold unitInterval. intros Ha He Hv Hall. split.
  - unfold addSample. cbn [smoothedValue]. rewrite Ha.
    destruct (List.length _ =? 1)%nat; lra.
  - rewrite addSample_samples. apply Forall_app. split.
    + apply Forall_forall. intros s Hs. apply List.filter_In in Hs.
      rewrite Forall_forall in Hall. apply Hall. apply Hs.
    + destruct (_ <? t)%Z; repeat constructor; cbn; lra.
Qed.

Lemma getWindowAverage_unit (this : TemporalSmoother) :
  Forall (fun s => unitInterval (value s)) (samples this) ->
  unitInterval (getWindowAverage this).
Proof.
  unfold unitInterval, getWindowAverage. intros Hall.
  destruct (samples this) as [| s rest] eqn:E; [lra |].
  pose proof (Qlen_pos s rest) as Hn.
  pose proof (fold_sum_bounds value 0 1 (s :: rest) Hall 0) as [Hlo Hhi].
  split.
  - apply Qle_shift_div_l; [exact Hn | lra].
  - apply Qle_shift_div_r; [exact Hn | lra].
Qed.

(** X10.  Fed with values in [0,1], a smoother from the constructor keeps
    both its smoothed value and its window average in [0,1], whatever the
    window and the timestamps. *)
Theorem smoother_stays_in_unit_interval (window : Z) (fed : list Sample) :
  Forall (fun s => unitInterval (value s)) fed ->
  unitInterval (getSmoothScore (addAll (createSmoother window) fed)) /\
  unitInterval (getWindowAverage (addAll (createSmoother window) fed)).
Proof.
  intros Hfed.
  assert (Hgen : forall this,
            alpha this = 0.3 -> unitInterval (smoothedValue this) ->
            Forall (fun s => unitInterval (value s)) (samples this) ->
            unitInterval (smoothedValue (addAll this fed)) /\
            Forall (fun s => unitInterval (value s))
                   (samples (addAll this fed))).
  { induction Hfed as [| s fed Hs _ IH]; intros this Ha He Hall.
    - split; assumption.
    - unfold addAll. cbn [fold_left].
      destruct (addSample_unit this (value s) (timestamp s) Ha He Hs Hall)
        as [He' Hall'].
      apply IH; [exact Ha | exact He' | exact Hall']. }
  destruct (Hgen (createSmoother window)) as [He Hall].
  - reflexivity.
  - unfold unitInterval. cbn. lra.
  - constructor.
  - split; [exact He | apply getWindowAverage_unit; exact Hall].
Qed.

End Smoother.

Lemma addSample_after_gap_witness :
  Smoothing.samples (Smoothing.addSample staleSmoother 0.2 7000)
  = [Smoothing.mkSample 0.2 7000] /\
  Smoothing.smoothedValue (Smoothing.addSample staleSmoother 0.2 7000) = 0.2.
Proof.
  apply (addSample_after_gap staleSmoother 0.2 7000).
  - reflexivity.
  - repeat constructor. vm_compute. discriminate.
Defined.

Lemma smoother_stays_in_unit_interval_witness :
  unitInterval
    (Smoothing.getSmoothScore
       (Smoothing.addAll (Smoothing.createSmoother 5) steadyFeed)) /\
  unitInterval
    (Smoothing.getWindowAverage
       (Smoothing.addAll (Smoothing.createSmoother 5) steadyFeed)).
Proof.
  apply (smoother_stays_in_unit_interval 5 steadyFeed).
  repeat constructor; vm_compute; discriminate.
Defined.

(* --------------------------------------------------------------------- *)
(** ** audioPipeline.js: sessions of the controller                       *)
(* --------------------------------------------------------------------- *)

Section AudioSessions.

Import AudioPipeline.

Variable sqrt : Q -> Q.

(** Reduces the projections of an explicit controller, leaving the
    arithmetic as it is written. *)
Ltac project_controller :=
  cbn [noiseSamples previousStressScore smoother currentStressScore
       isRunning hasAnalyser hasCallback mfccHistory isCalibrating
       calibrationStartTime calibrationSamples baseline noiseFloor
       Smoothing.createSmoother Smoothing.reset Smoothing.smoothedValue
       Smoothing.windowSeconds Smoothing.alpha Smoothing.samples
       List.length fst snd].

Lemma sound_initial : sound initial.
Proof.
  unfold sound, unitInterval, initial, MAX_NOISE_SAMPLES,
    StressInference.initialStressScore.
  project_controller.
  repeat split; try lia; try lra.
Qed.

Lemma sound_start (this : Controller) (now : Z) :
  sound this ->
  sound (fst (start this now)) /\
  forall u, snd (start this now) = Some u -> stressScore u = 0.
Proof.
  intros Hs. unfold start.
  destruct (isRunning this) eqn:Hrun.
  - split; [exact Hs | discriminate].
  - destruct Hs as (Hn & Hp & Hsm & Hc & Hw & Ha & Hidle).
    split.
    + unfold sound. project_controller.
      repeat split; try assumption; try apply Hc;
        try apply Hp; try apply Hsm; discriminate.
    + cbn. intros u H. injection H as <-. reflexivity.
Qed.

Lemma sound_stop (this : Controller) : sound this -> sound (stop this).
Proof.
  intros Hs. unfold stop.
  destruct (isRunning this) eqn:Hrun; cbn [negb]; [| exact Hs].
  destruct Hs as (Hn & Hp & Hsm & Hc & Hw & Ha & Hidle).
  unfold sound, unitInterval, MAX_NOISE_SAMPLES,
    StressInference.resetStressState.
  project_controller.
  repeat split; try assumption; try lia; try lra.
Qed.

Lemma sound_process (this : Controller) (obs : FrameObservation) :
  sound this ->
  sound (fst (processAudioFrame sqrt this obs)) /\
  forall u, snd (processAudioFrame sqrt this obs) = Some u ->
            unitInterval (stressScore u).
Proof.
  intros Hs. unfold processAudioFrame.
  destruct (isRunning this) eqn:Hrun; cbn [negb orb];
    [| split; [exact Hs | discriminate]].
  destruct (hasAnalyser this); cbn [negb];
    [| split; [exact Hs | discriminate]].
  destruct Hs as (Hn & Hp & Hsm & Hc & Hw & Ha & _).
  assert (Hzero : unitInterval 0) by (unfold unitInterval; lra).
  assert (Hemit : forall c score u,
            _emitUpdate c score = Some u -> stressScore u = score).
  { intros c score u. unfold _emitUpdate.
    destruct (hasCallback c); [| discriminate].
    intros H. injection H as <-. reflexivity. }
  destruct (hasVoice obs); cbn [negb].
  - destruct (windowLength obs <? 1000)%nat.
    { split; [| discriminate].
      unfold sound. project_controller. rewrite ?Hrun.
      repeat split; try assumption;
        try apply Hp; try apply Hsm; try apply Hc; discriminate. }
    destruct (isCalibrating this).
    + split.
      * unfold sound, updateStressScore. project_controller. rewrite ?Hrun.
        repeat split; try assumption; try apply Hp; try apply Hsm;
          try apply Hzero; discriminate.
      * unfold updateStressScore. cbn [snd]. intros u Hu.
        rewrite (Hemit _ _ _ Hu). exact Hzero.
    + destruct (computeStressScore_limited sqrt
                  (Some (featureMatrix obs)) (baseline this)
                  (noiseFloor this) (previousStressScore this))
        as (c & Hcr & Heq).
      rewrite Heq.
      pose proof (_applySpikeLimiter_range c (previousStressScore this)
                    Hcr Hp) as Hraw.
      destruct (StressInference._applySpikeLimiter c
                  (previousStressScore this)) as [raw stored] eqn:E.
      assert (Hst : stored = raw).
      { pose proof (_applySpikeLimiter_stored c (previousStressScore this))
          as H. rewrite E in H. exact H. }
      subst stored. cbn [fst] in Hraw.
      assert (Hsmooth : unitInterval
                (Smoothing.getSmoothScore
                   (Smoothing.addSample (smoother this) raw
                      (sampleTime obs)))).
      { unfold Smoothing.getSmoothScore, Smoothing.addSample, unitInterval
          in *.
        cbn [Smoothing.smoothedValue]. rewrite Ha.
        destruct (List.length _ =? 1)%nat; lra. }
      split.
      * unfold sound, updateStressScore. project_controller. rewrite ?Hrun.
        repeat split; try assumption; try apply Hraw; try apply Hsmooth;
          discriminate.
      * unfold updateStressScore. cbn [snd]. intros u Hu.
        rewrite (Hemit _ _ _ Hu). exact Hsmooth.
  - split.
    + unfold sound, updateStressScore. project_controller. rewrite ?Hrun.
      assert (Hlen : (List.length
                (if (MAX_NOISE_SAMPLES
                     <? List.length (noiseSamples this
                                     ++ [_computeRMS sqrt (cleanedBuffer obs)]))%nat
                 then List.tl (noiseSamples this
                               ++ [_computeRMS sqrt (cleanedBuffer obs)])
                 else noiseSamples this
                      ++ [_computeRMS sqrt (cleanedBuffer obs)])
              <= MAX_NOISE_SAMPLES)%nat).
      { destruct (MAX_NOISE_SAMPLES <? _)%nat eqn:E.
        - clear E. unfold MAX_NOISE_SAMPLES in *.
          destruct (noiseSamples this) as [| x l];
            cbn [app List.tl List.length] in *;
            rewrite ?List.length_app; cbn [List.length]; lia.
        - apply Nat.ltb_ge in E. exact E. }
      repeat split; try assumption; try apply Hp; try apply Hsm;
        try apply Hzero; discriminate.
    + unfold updateStressScore. cbn [snd]. intros u Hu.
      rewrite (Hemit _ _ _ Hu). exact Hzero.
Qed.

Lemma sound_act (this : Controller) (a : Action) :
  sound this ->
  sound (fst (act sqrt this a)) /\
  forall u, snd (act sqrt this a) = Some u -> unitInterval (stressScore u).
Proof.
  intros Hs. destruct a as [now | obs |]; cbn [act].
  - destruct (sound_start this now Hs) as [H1 H2].
    split; [exact H1 |]. intros u Hu. rewrite (H2 u Hu).
    unfold unitInterval. lra.
  - apply sound_process. exact Hs.
  - split; [apply sound_stop; exact Hs | discriminate].
Qed.

Lemma sound_session (actions : list Action) :
  forall this, sound this ->
    sound (fst (session sqrt this actions)) /\
    Forall (fun u => unitInterval (stressScore u))
           (snd (session sqrt this actions)).
Proof.
  induction actions as [| a actions IH]; intros this Hs.
  - split; [exact Hs | constructor].
  - cbn [session].
    destruct (sound_act this a Hs) as [Hs1 Hu].
    destruct (act sqrt this a) as [this1 emitted].
    destruct (IH this1 Hs1) as [Hs2 Hall].
    destruct (session sqrt this1 actions) as [this2 later].
    cbn [fst snd] in *. split; [exact Hs2 |].
    destruct emitted as [u |]; [constructor; [apply Hu; reflexivity |] |];
      exact Hall.
Qed.


(** X14.  The noise queue never holds more than 20 entries, whatever the
    sequence of actions on a new controller. *)
Theorem noise_queue_bounded (actions : list Action) :
  (List.length (noiseSamples (fst (session sqrt initial actions))) <= 20)%nat.
Proof.
  destruct (sound_session actions initial sound_initial) as [Hs _].
  apply Hs.
Qed.

(** X15.  No carry-over between sessions: after any sequence of actions
    on a new controller, stopping and starting again gives the very
    controller, and the very first update, that starting a new controller
    gives. *)
Theorem restart_is_fresh (actions : list Action) (now : Z) :
  start (stop (fst (session sqrt initial actions))) now = start initial now.
Proof.
  destruct (sound_session actions initial sound_initial) as [Hs _].
  pose proof (sound_stop _ Hs) as Hstop.
  assert (Hoff : isRunning (stop (fst (session sqrt initial actions))) = false).
  { unfold stop.
    destruct (isRunning (fst (session sqrt initial actions))) eqn:E;
      cbn [negb]; [reflexivity | exact E]. }
  destruct (stop (fst (session sqrt initial actions)))
    as [run ana cb cur hist cal t0 coll base noise floor sm prev].
  destruct Hstop as (_ & _ & _ & _ & Hw & Ha & Hidle).
  cbn in Hoff, Hw, Ha, Hidle. subst run.
  destruct (Hidle eq_refl)
    as (-> & -> & _ & _ & _ & _ & -> & -> & Hsam & Hval & ->).
  destruct sm as [w sams sv al]. cbn in *. subst.
  reflexivity.
Qed.

Lemma processAudioFrame_after_calibration (this : Controller)
    (obs : FrameObservation) :
  isCalibrating this = false ->
  baseline (fst (processAudioFrame sqrt this obs)) = baseline this /\
  isCalibrating (fst (processAudioFrame sqrt this obs)) = false /\
  calibrationSamples (fst (processAudioFrame sqrt this obs))
  = calibrationSamples this.
Proof.
  intros Hcal. unfold processAudioFrame.
  destruct (negb (isRunning this) || negb (hasAnalyser this));
    [project_controller; auto |].
  destruct (negb (hasVoice obs));
    [unfold updateStressScore; project_controller; auto |].
  destruct (windowLength obs <? 1000)%nat; [project_controller; auto |].
  rewrite Hcal.
  destruct (StressInference.computeStressScore _ _ _ _ _) as [raw stored].
  unfold updateStressScore. project_controller. auto.
Qed.

(** X16.  The baseline is frozen once calibration is over: however many
    frames are processed afterwards, the baseline and the collected
    calibration samples stay as they are and calibration does not start
    again. *)
Theorem baseline_frozen_after_calibration (frames : list FrameObservation) :
  forall this : Controller,
    isCalibrating this = false ->
    baseline (fst (processAll sqrt this frames)) = baseline this /\
    isCalibrating (fst (processAll sqrt this frames)) = false /\
    calibrationSamples (fst (processAll sqrt this frames))
    = calibrationSamples this.
Proof.
  induction frames as [| obs frames IH]; intros this Hcal.
  - cbn. auto.
  - cbn [processAll].
    destruct (processAudioFrame_after_calibration this obs Hcal)
      as (Hb & Hc & Hs).
    destruct (processAudioFrame sqrt this obs) as [this1 emitted].
    cbn [fst] in *.
    destruct (IH this1 Hc) as (Hb' & Hc' & Hs').
    destruct (processAll sqrt this1 frames) as [this2 later].
    cbn [fst] in *. rewrite Hb', Hs'. auto.
Qed.

(** X17.  Calibration ends only on a voiced window: a run of
    [processAudioFrame] on a running, calibrating controller ends the
    calibration exactly when voice was detected, the rolling window has at
    least 1000 samples and 5000 ms have passed since the start.  The
    baseline set then is computed from the collected samples, of which there
    is at least one; otherwise the baseline is left as it was. *)
Theorem calibration_ends_on_voiced_window (this : Controller)
    (obs : FrameObservation) :
  isRunning this = true -> hasAnalyser this = true ->
  isCalibrating this = true ->
  (isCalibrating (fst (processAudioFrame sqrt this obs)) = false <->
   hasVoice obs = true /\ (1000 <= windowLength obs)%nat /\
   (5000 <= now obs - match calibrationStartTime this with
                      | Some t => t | None => 0 end)%Z) /\
  (isCalibrating (fst (processAudioFrame sqrt this obs)) = false ->
   baseline (fst (processAudioFrame sqrt this obs))
   = Some (_computeBaseline
             (calibrationSamples (fst (processAudioFrame sqrt this obs)))) /\
   calibrationSamples (fst (processAudioFrame sqrt this obs)) <> []) /\
  (isCalibrating (fst (processAudioFrame sqrt this obs)) = true ->
   baseline (fst (processAudioFrame sqrt this obs)) = baseline this).
Proof.
  intros Hrun Hana Hcal. unfold processAudioFrame.
  rewrite Hrun, Hana. cbn [negb orb].
  destruct (hasVoice obs); cbn [negb].
  - destruct (windowLength obs <? 1000)%nat eqn:Hwin.
    + apply Nat.ltb_lt in Hwin. project_controller. rewrite Hcal.
      split; [split; [discriminate | lia] |].
      split; [discriminate | reflexivity].
    + apply Nat.ltb_ge in Hwin. rewrite Hcal.
      unfold updateStressScore, CALIBRATION_DURATION_MS. project_controller.
      destruct (5000 <=? _)%Z eqn:Hdone; cbn [negb].
      * apply Z.leb_le in Hdone.
        split; [split; auto |].
        split; [| discriminate].
        intros _. split; [reflexivity |].
        destruct (calibrationSamples this); discriminate.
      * apply Z.leb_gt in Hdone.
        split; [split; [discriminate | lia] |].
        split; [discriminate | reflexivity].
  - unfold updateStressScore. project_controller. rewrite Hcal.
    split; [split; [discriminate | intros [H _]; discriminate] |].
    split; [discriminate | reflexivity].
Qed.

(** X18.  A silent frame on a running controller publishes a score of 0
    at once, appends its RMS to the noise queue and evicts at most the
    oldest entry, sets the noise floor to the mean of the queue, and leaves
    the spike limiter, the smoother, the baseline and the calibration flag
    untouched. *)
Theorem silent_frame_tracks_noise (this : Controller)
    (obs : FrameObservation) :
  isRunning this = true -> hasAnalyser this = true ->
  hasVoice obs = false ->
  (List.length (noiseSamples this) <= 20)%nat ->
  let next := fst (processAudioFrame sqrt this obs) in
  currentStressScore next = 0 /\
  (forall u, snd (processAudioFrame sqrt this obs) = Some u ->
             stressScore u = 0) /\
  (exists evicted,
     noiseSamples this ++ [_computeRMS sqrt (cleanedBuffer obs)]
     = evicted ++ noiseSamples next /\
     (List.length evicted <= 1)%nat /\
     (List.length evicted = 1%nat <->
      List.length (noiseSamples this) = 20%nat)) /\
  noiseFloor next
  = fold_left (fun a b => a + b) (noiseSamples next) 0
    / Qlen (noiseSamples next) /\
  previousStressScore next = previousStressScore this /\
  smoother next = smoother this /\
  baseline next = baseline this /\
  isCalibrating next = isCalibrating this.
Proof.
  intros Hrun Hana Hvoice Hlen. cbn zeta. unfold processAudioFrame.
  rewrite Hrun, Hana, Hvoice. cbn [negb orb].
  unfold updateStressScore, _emitUpdate, MAX_NOISE_SAMPLES.
  project_controller.
  split; [reflexivity |].
  split.
  { intros u. destruct (hasCallback this); [| discriminate].
    intros H. injection H as <-. reflexivity. }
  split; [| repeat split].
  set (rms := _computeRMS sqrt (cleanedBuffer obs)).
  destruct (20 <? List.length (noiseSamples this ++ [rms]))%nat eqn:E.
  - apply Nat.ltb_lt in E. rewrite List.length_app in E. cbn in E.
    destruct (noiseSamples this) as [| x l] eqn:Hq; [cbn in E; lia |].
    exists [x]. cbn [app List.tl List.length] in *.
    split; [reflexivity |]. split; [lia |]. split; lia.
  - apply Nat.ltb_ge in E. rewrite List.length_app in E. cbn in E.
    exists []. cbn [app List.length].
    split; [reflexivity |]. split; [lia |]. split; lia.
Qed.

End AudioSessions.

Lemma baseline_frozen_after_calibration_witness :
  AudioPipeline.baseline
    (fst (AudioPipeline.processAll sqrtApprox calibratedPipeline
            [lateObservation; silentObservation; lateObservation]))
  = AudioPipeline.baseline calibratedPipeline.
Proof.
  apply (baseline_frozen_after_calibration sqrtApprox
           [lateObservation; silentObservation; lateObservation]
           calibratedPipeline).
  vm_compute. reflexivity.
Defined.

Lemma calibration_ends_on_voiced_window_witness :
  AudioPipeline.isCalibrating calibratedPipeline = false /\
  AudioPipeline.isCalibrating
    (fst (AudioPipeline.processAudioFrame sqrtApprox startedPipeline
            silentObservation)) = true.
Proof.
  split.
  - apply (proj1 (calibration_ends_on_voiced_window sqrtApprox
                    startedPipeline lateObservation
                    eq_refl eq_refl eq_refl)).
    split; [reflexivity | split; [cbn; lia | cbn; lia]].
  - destruct (calibration_ends_on_voiced_window sqrtApprox
                startedPipeline silentObservation eq_refl eq_refl eq_refl)
      as [Hiff _].
    destruct (AudioPipeline.isCalibrating
                (fst (AudioPipeline.processAudioFrame sqrtApprox
                        startedPipeline silentObservation)));
      [reflexivity |].
    destruct (proj1 Hiff eq_refl) as [Hvoice _]. discriminate.
Defined.

Lemma silent_frame_tracks_noise_witness :
  AudioPipeline.currentStressScore
    (fst (AudioPipeline.processAudioFrame sqrtApprox calibratedPipeline
            silentObservation)) = 0 /\
  AudioPipeline.previousStressScore
    (fst (AudioPipeline.processAudioFrame sqrtApprox calibratedPipeline
            silentObservation))
  = AudioPipeline.previousStressScore calibratedPipeline.
Proof.
  assert (Hlen : (List.length (AudioPipeline.noiseSamples calibratedPipeline)
                  <= 20)%nat) by (vm_compute; lia).
  pose proof (silent_frame_tracks_noise sqrtApprox calibratedPipeline
                silentObservation eq_refl eq_refl eq_refl Hlen) as H.
  cbn zeta in H.
  destruct H as (Hzero & _ & _ & _ & Hprev & _).
  split; [exact Hzero | exact Hprev].
Defined.

(* --------------------------------------------------------------------- *)
(** ** audioProcessor.js: gate, voice detection, buffers, frames          *)
(* --------------------------------------------------------------------- *)

Section Processor.

Import AudioProcessor.

(** X19.  The noise gate keeps the length of the buffer; every sample
    under the threshold in absolute value becomes 0 and every other sample
    is kept as it is; gating a gated buffer changes nothing. *)
Theorem noise_gate (this : Processor) (audioBuffer : list Q) :
  List.length (applyNoiseReduction this audioBuffer)
  = List.length audioBuffer /\
  Forall2
    (fun sample cleaned =>
       (Qabs sample < noiseThreshold this /\ cleaned = 0) \/
       (noiseThreshold this <= Qabs sample /\ cleaned = sample))
    audioBuffer (applyNoiseReduction this audioBuffer) /\
  applyNoiseReduction this (applyNoiseReduction this audioBuffer)
  = applyNoiseReduction this audioBuffer.
Proof.
  unfold applyNoiseReduction.
  split; [apply List.length_map |].
  split.
  - induction audioBuffer as [| s l IH]; cbn [List.map]; constructor;
      [| exact IH].
    case_cmp (Qltb (Qabs s) (noiseThreshold this)); [left | right]; auto.
  - induction audioBuffer as [| s l IH]; [reflexivity |].
    cbn [List.map]. rewrite IH. f_equal.
    destruct (Qltb (Qabs s) (noiseThreshold this)) eqn:E.
    + destruct (Qltb (Qabs 0) (noiseThreshold this)); reflexivity.
    + rewrite E. reflexivity.
Qed.

Lemma countCrossings_steady_nonneg (rest : list Q) :
  forall previous count,
    0 <= previous -> Forall (fun s => 0 <= s) rest ->
    countCrossings previous rest count = count.
Proof.
  induction rest as [| s rest IH]; intros previous count Hp Hall;
    [reflexivity |].
  inversion Hall as [| ? ? Hs Hrest]; subst. cbn [countCrossings].
  replace (Qltb previous 0) with false
    by (symmetry; apply Qltb_false; exact Hp).
  replace (Qltb s 0) with false by (symmetry; apply Qltb_false; exact Hs).
  rewrite andb_false_r. cbn [orb andb]. apply IH; assumption.
Qed.

Lemma countCrossings_steady_neg (rest : list Q) :
  forall previous count,
    previous < 0 -> Forall (fun s => s < 0) rest ->
    countCrossings previous rest count = count.
Proof.
  induction rest as [| s rest IH]; intros previous count Hp Hall;
    [reflexivity |].
  inversion Hall as [| ? ? Hs Hrest]; subst. cbn [countCrossings].
  replace (Qgeb previous 0) with false
    by (symmetry; apply Qgeb_false; exact Hp).
  replace (Qgeb s 0) with false by (symmetry; apply Qgeb_false; exact Hs).
  rewrite andb_false_r. cbn [orb andb]. apply IH; assumption.
Qed.

(** X23.  A buffer whose samples never change sign (all of them 0 or
    more, as after the gate has silenced everything, or all of them
    negative) is never voice, however much energy it has and whatever
    [Math.sqrt] returns. *)
Theorem steady_sign_is_not_voice (sqrt : Q -> Q) (this : Processor)
    (audioBuffer : list Q) :
  Forall (fun s => 0 <= s) audioBuffer \/
  Forall (fun s => s < 0) audioBuffer ->
  zeroCrossings audioBuffer = 0%nat /\
  detectVoiceActivity sqrt this audioBuffer = false.
Proof.
  intros H.
  assert (Hz : zeroCrossings audioBuffer = 0%nat).
  { unfold zeroCrossings. destruct audioBuffer as [| s rest]; [reflexivity |].
    destruct H as [H | H]; inversion H; subst;
      [apply countCrossings_steady_nonneg
      | apply countCrossings_steady_neg]; assumption. }
  split; [exact Hz |].
  unfold detectVoiceActivity. rewrite Hz.
  replace (Qgtb (inject_Z (Z.of_nat 0) / Qlen audioBuffer) 0.05) with false.
  - cbn [andb]. apply andb_false_r.
  - symmetry. apply Qgtb_false.
    change (inject_Z (Z.of_nat 0)) with 0. unfold Qdiv.
    rewrite Qmult_0_l. lra.
Qed.

(** X20.  [addToRollingBuffer] keeps the most recent samples: the new
    buffer is what remains of the old buffer followed by the new samples
    after dropping from the front; with a positive capacity it never holds
    more than the capacity, and nothing is dropped while the capacity is not
    exceeded.  With a capacity of 0 nothing is ever dropped. *)
Theorem rolling_buffer_keeps_latest (this : Processor) (samples : list Q) :
  let next := addToRollingBuffer this samples in
  (exists dropped,
     rollingBuffer this ++ samples = dropped ++ rollingBuffer next) /\
  ((0 < maxBufferSize this)%nat ->
   (List.length (rollingBuffer next)
    = Nat.min (List.length (rollingBuffer this ++ samples))
              (maxBufferSize this))%nat) /\
  (maxBufferSize this = 0%nat ->
   rollingBuffer next = rollingBuffer this ++ samples) /\
  maxBufferSize next = maxBufferSize this.
Proof.
  cbn zeta. unfold addToRollingBuffer. cbn [rollingBuffer maxBufferSize].
  set (pushed := rollingBuffer this ++ samples).
  unfold sliceFromEnd.
  destruct (maxBufferSize this <? List.length pushed)%nat eqn:E.
  - apply Nat.ltb_lt in E.
    destruct (maxBufferSize this =? 0)%nat eqn:Z0.
    + apply Nat.eqb_eq in Z0.
      split; [exists []; reflexivity |].
      split; [lia |]. split; reflexivity.
    + apply Nat.eqb_neq in Z0.
      split.
      * exists (firstn (List.length pushed - maxBufferSize this) pushed).
        symmetry. apply List.firstn_skipn.
      * split; [intros _; rewrite List.length_skipn; lia |].
        split; [lia | reflexivity].
  - apply Nat.ltb_ge in E.
    split; [exists []; reflexivity |].
    split; [lia |]. split; reflexivity.
Qed.


(** Below 40 samples per second the frame size is 0. *)
Lemma frameSizeSamples_low (this : Processor) :
  (sampleRate this < 40)%nat -> frameSizeSamples this = 0%nat.
Proof.
  intros Hrate.
  assert (Hall : forallb (fun rate => frameSizeSamples (create rate) =? 0)%nat
                   (seq 0 40) = true) by (vm_compute; reflexivity).
  rewrite forallb_forall in Hall.
  specialize (Hall (sampleRate this)).
  apply Nat.eqb_eq. apply Hall. apply in_seq. lia.
Qed.

Lemma firstn_add_skipn {A : Type} (a b : nat) (l : list A) :
  firstn (a + b) l = firstn a l ++ firstn b (skipn a l).
Proof.
  revert l. induction a as [| a IH]; intros l; [reflexivity |].
  destruct l as [| x l]; cbn.
  - rewrite List.firstn_nil. reflexivity.
  - rewrite IH. reflexivity.
Qed.

Lemma splitLoop_frames (size : nat) (audioBuffer : list Q) :
  (0 < size)%nat ->
  forall fuel i,
    (i <= List.length audioBuffer)%nat ->
    (List.length audioBuffer - i < fuel)%nat ->
    exists frames,
      splitLoop fuel size i audioBuffer = Some frames /\
      Forall (fun f => List.length f = size) frames /\
      List.length frames = ((List.length audioBuffer - i) / size)%nat /\
      List.concat frames
      = firstn (size * ((List.length audioBuffer - i) / size))
          (skipn i audioBuffer).
Proof.
  intros Hsize. induction fuel as [| fuel IH]; intros i Hi Hfuel; [lia |].
  cbn [splitLoop].
  destruct (i + size <=? List.length audioBuffer)%nat eqn:E.
  - apply Nat.leb_le in E.
    destruct (IH (i + size)%nat) as (frames & Heq & Hall & Hlen & Hcat);
      [lia | lia |].
    rewrite Heq. eexists. split; [reflexivity |].
    assert (Hdiv : ((List.length audioBuffer - i) / size
                    = S ((List.length audioBuffer - (i + size)) / size))%nat).
    { replace (List.length audioBuffer - i)%nat
        with ((List.length audioBuffer - (i + size)) + 1 * size)%nat by lia.
      rewrite Nat.div_add by lia. lia. }
    split.
    + constructor; [| exact Hall].
      unfold slice. rewrite List.length_firstn, List.length_skipn. lia.
    + split; [cbn [List.length]; lia |].
      cbn [List.concat]. rewrite Hcat, Hdiv. unfold slice.
      replace (i + size - i)%nat with size by lia.
      replace (size * S ((List.length audioBuffer - (i + size)) / size))%nat
        with (size + size * ((List.length audioBuffer - (i + size)) / size))%nat
        by lia.
      rewrite firstn_add_skipn. f_equal. f_equal.
      rewrite List.skipn_skipn. f_equal. lia.
  - apply Nat.leb_gt in E.
    exists []. split; [reflexivity |]. split; [constructor |].
    rewrite Nat.div_small by lia. rewrite Nat.mul_0_r.
    split; reflexivity.
Qed.

Lemma splitLoop_zero_size (audioBuffer : list Q) :
  forall fuel i,
    (i <= List.length audioBuffer)%nat ->
    splitLoop fuel 0 i audioBuffer = None.
Proof.
  induction fuel as [| fuel IH]; intros i Hi; [reflexivity |].
  cbn [splitLoop]. rewrite Nat.add_0_r.
  replace (i <=? List.length audioBuffer)%nat with true
    by (symmetry; apply Nat.leb_le; exact Hi).
  rewrite (IH i Hi). reflexivity.
Qed.

(** X22.  With a positive frame size, [splitIntoFrames] returns
    floor(length / frameSize) frames of exactly frameSize samples each,
    which laid end to end are the beginning of the buffer: the incomplete
    frame at the end is dropped.  With a frame size of 0 the loop does not
    end, whatever the fuel, and the frame size is 0 at every rate below 40
    samples per second. *)
Theorem splitIntoFrames_frames (this : Processor) (audioBuffer : list Q) :
  ((0 < frameSizeSamples this)%nat ->
   exists frames,
     splitIntoFrames this audioBuffer = Some frames /\
     Forall (fun f => List.length f = frameSizeSamples this) frames /\
     List.length frames
     = (List.length audioBuffer / frameSizeSamples this)%nat /\
     List.concat frames
     = firstn (frameSizeSamples this
               * (List.length audioBuffer / frameSizeSamples this))
         audioBuffer) /\
  (frameSizeSamples this = 0%nat ->
   forall fuel,
     splitLoop fuel (frameSizeSamples this) 0 audioBuffer = None) /\
  ((sampleRate this < 40)%nat -> frameSizeSamples this = 0%nat).
Proof.
  split; [| split].
  - intros Hsize. unfold splitIntoFrames.
    destruct (splitLoop_frames (frameSizeSamples this) audioBuffer Hsize
                (S (List.length audioBuffer)) 0%nat)
      as (frames & Heq & Hall & Hlen & Hcat); [lia | lia |].
    rewrite Nat.sub_0_r in Hlen, Hcat. cbn [skipn] in Hcat.
    exists frames. auto.
  - intros Hzero fuel. rewrite Hzero. apply splitLoop_zero_size. lia.
  - apply frameSizeSamples_low.
Qed.

End Processor.


Lemma steady_sign_is_not_voice_witness :
  AudioProcessor.zeroCrossings gatedBuffer = 0%nat /\
  AudioProcessor.detectVoiceActivity sqrtApprox (AudioProcessor.create 400)
    gatedBuffer = false.
Proof.
  apply (steady_sign_is_not_voice sqrtApprox (AudioProcessor.create 400)
           gatedBuffer).
  left. repeat constructor; vm_compute; discriminate.
Defined.

Example splitIntoFrames_sample :
  AudioProcessor.splitIntoFrames (AudioProcessor.create 80)
    [1; 2; 3; 4; 5]
  = Some [[1; 2]; [3; 4]] /\
  AudioProcessor.rollingBuffer
    (AudioProcessor.addToRollingBuffer (AudioProcessor.create 1)
       [1; 2; 3; 4; 5]) = [4; 5].
Proof. split; vm_compute; reflexivity. Qed.

(** The frame size is the floor of a rounded product: 400 samples at
    16000 per second, but 28 at 1160 per second, where 1160 / 1000 * 25 is
    28.999999999999996 in binary64, and 944 at 37800 per second. *)
Example frameSizeSamples_rounded :
  AudioProcessor.frameSizeSamples (AudioProcessor.create (16 * 1000)) = 400%nat /\
  AudioProcessor.frameSizeSamples (AudioProcessor.create 1160) = 28%nat /\
  (1160 / 40 = 29)%nat /\
  AudioProcessor.frameSizeSamples (AudioProcessor.create (378 * 100)) = 944%nat.
Proof. repeat split; vm_compute; reflexivity. Qed.

(* --------------------------------------------------------------------- *)
(** ** gesturePipeline.js: consistency of the hold state, hold progress   *)
(* --------------------------------------------------------------------- *)

Section GestureState.

Import GesturePipeline.

Variable sqrt : Q -> Q.

Lemma consistent_initial : consistent initial.
Proof.
  unfold consistent, initial, ready. cbn.
  repeat split; try discriminate; auto.
Qed.

Lemma consistent_act (this : Controller) (a : Action) :
  consistent this -> consistent (act sqrt this a).
Proof.
  intros Hc. pose proof Hc as (Hfist & Hbin & Hstart & Hidle).
  destruct a as [| d |]; cbn [act].
  - unfold consistent, initialized, ready. cbn.
    repeat split; try apply Hfist; auto; discriminate.
  - assert (Hcases : ready this = true \/ ready this = false)
      by (destruct (ready this); auto).
    destruct Hcases as [Hready | Hready].
    + destruct (videoReady d) eqn:Hvideo.
      * destruct (fisted sqrt d) eqn:Hf.
        -- destruct (detectFrame_fisted sqrt this d Hready Hvideo Hf)
             as [Hs Hg].
           pose proof (detectFrame_ready sqrt this d) as Hr.
           rewrite Hready in Hr.
           assert (Hfi : isFist (fst (detectFrame sqrt this d))
                         = if Qgeb (now d - match fistStartTime this with
                                            | Some t => t | None => now d end)
                                   FIST_HOLD_DURATION_MS
                           then true else isFist this).
           { revert Hready Hf. unfold ready, fisted, detectFrame.
             intros Hready Hf. apply andb_true_iff in Hready.
             destruct Hready as [-> ->]. rewrite Hvideo. cbn [negb orb].
             destruct (hand d) as [lm |]; [| discriminate].
             rewrite Hf. cbn. destruct (fistStartTime this); reflexivity. }
           unfold consistent. rewrite Hs, Hg, Hfi, Hr.
           destruct (Qgeb _ FIST_HOLD_DURATION_MS).
           ++ repeat split; auto; try discriminate.
           ++ repeat split; try apply Hfist; auto; discriminate.
        -- destruct (detectFrame_resets sqrt this d Hready Hvideo Hf)
             as (Hs & Hg & _).
           pose proof (detectFrame_ready sqrt this d) as Hr.
           rewrite Hready in Hr.
           assert (Hfi : isFist (fst (detectFrame sqrt this d)) = false).
           { revert Hready Hf. unfold ready, fisted, detectFrame.
             intros Hready Hf. apply andb_true_iff in Hready.
             destruct Hready as [-> ->]. rewrite Hvideo. cbn [negb orb].
             destruct (hand d) as [lm |]; [| reflexivity].
             rewrite Hf. reflexivity. }
           unfold consistent. rewrite Hs, Hg, Hfi, Hr.
           repeat split; auto; discriminate.
      * rewrite detectFrame_skipped by (right; exact Hvideo). exact Hc.
    + rewrite detectFrame_skipped by (left; exact Hready). exact Hc.
  - unfold consistent, stop, ready. cbn.
    repeat split; auto; discriminate.
Qed.

(** X24.  Whatever sequence of [init], [detectFrame] and [stop] the
    pipeline goes through from its construction, [getGestureScore()] is 0 or
    1, [isFist] is set exactly when it is 1, a score of 1 has a hold start
    time, and a pipeline that is not initialised has score 0. *)
Theorem gesture_state_consistent (actions : list Action) :
  let final := actAll sqrt initial actions in
  (getGestureScore final = 0 \/ getGestureScore final = 1) /\
  (isFist final = true <-> getGestureScore final = 1) /\
  (getGestureScore final = 1 -> fistStartTime final <> None) /\
  (ready final = false -> getGestureScore final = 0).
Proof.
  cbn zeta.
  assert (H : consistent (actAll sqrt initial actions)).
  { unfold actAll.
    induction actions as [| a actions IH] using rev_ind;
      [exact consistent_initial |].
    rewrite fold_left_app. cbn [fold_left]. apply consistent_act. exact IH. }
  destruct H as (Hfist & Hbin & Hstart & Hidle).
  unfold getGestureScore.
  split; [exact Hbin |]. split; [exact Hfist |]. split; [exact Hstart |].
  intros Hr. apply Hidle. exact Hr.
Qed.

(** X25.  On a frame that shows a hand, [detectFrame] reports a hold
    progress of at most 1; it is 0 when the hand is not a fist; and for a
    fist whose hold started at a time other than 0, it is 1 exactly when the
    hold has lasted 2000 ms, which is when the gesture score is set to 1.
    A hold that started at time 0 is reported with progress 0. *)
Theorem hold_progress (this : Controller) (d : Detection)
    (landmarks : list Landmark) :
  ready this = true -> videoReady d = true -> hand d = Some landmarks ->
  exists progress,
    res_holdProgress (snd (detectFrame sqrt this d)) = Some progress /\
    progress <= 1 /\
    (fisted sqrt d = false -> progress = 0) /\
    (fisted sqrt d = true ->
     forall start,
       fistStartTime (fst (detectFrame sqrt this d)) = Some start ->
       (start == 0 -> progress = 0) /\
       (~ start == 0 ->
        (progress == 1 <-> 2000 <= now d - start) /\
        (2000 <= now d - start ->
         gestureScore (fst (detectFrame sqrt this d)) = 1))).
Proof.
  intros Hready Hvideo Hhand.
  pose proof Hready as Hr. unfold ready in Hr. apply andb_true_iff in Hr.
  destruct Hr as [Hi Hl].
  unfold fisted, detectFrame. rewrite Hi, Hl, Hvideo, Hhand.
  cbn [negb orb].
  destruct (Qgtb (_computeFistConfidence sqrt landmarks) 0.6) eqn:Hf.
  - cbn [fistStartTime gestureScore snd fst res_holdProgress].
    set (start := match fistStartTime this with
                  | Some t => t | None => now d end).
    eexists. split; [reflexivity |].
    split; [destruct (Qeq_bool start 0); [lra | apply Q.le_min_r] |].
    split; [discriminate |].
    intros _ start' Hs. injection Hs as <-.
    split.
    + intros Hz. apply Qeq_bool_iff in Hz. rewrite Hz. reflexivity.
    + intros Hnz.
      assert (Hb : Qeq_bool start 0 = false).
      { destruct (Qeq_bool start 0) eqn:E; [| reflexivity].
        apply Qeq_bool_iff in E. contradiction. }
      rewrite Hb. unfold FIST_HOLD_DURATION_MS. split.
      * pose proof (Q.min_spec ((now d - start) / 2000) 1) as Hm.
        assert (Hdiv : (now d - start) / 2000 == (now d - start) * (1 # 2000))
          by reflexivity.
        split; intros H; lra.
      * intros Hheld. apply Qgeb_true in Hheld.
        unfold FIST_HOLD_DURATION_MS in Hheld. rewrite Hheld. reflexivity.
  - cbn. eexists. split; [reflexivity |].
    split; [lra |]. split; [reflexivity | discriminate].
Qed.

End GestureState.

Lemma hold_progress_witness :
  exists progress,
    GesturePipeline.res_holdProgress
      (snd (GesturePipeline.detectFrame sqrtApprox
              (GesturePipeline.detectAll sqrtApprox gestureReady
                 [frameAt 100 (Some fistHand)])
              (frameAt 2100 (Some fistHand)))) = Some progress /\
    progress == 1.
Proof.
  destruct (hold_progress sqrtApprox
              (GesturePipeline.detectAll sqrtApprox gestureReady
                 [frameAt 100 (Some fistHand)])
              (frameAt 2100 (Some fistHand)) fistHand
              eq_refl eq_refl eq_refl)
    as (progress & Hres & _ & _ & Hfist).
  exists progress. split; [exact Hres |].
  destruct (Hfist eq_refl 100 eq_refl) as [_ Hnz].
  assert (Hne : ~ 100 == 0) by (vm_compute; discriminate).
  apply (proj2 (proj1 (Hnz Hne))). vm_compute. discriminate.
Defined.

(* --------------------------------------------------------------------- *)
(** ** featureExtractor.js: pitch range, feature matrix                   *)
(* --------------------------------------------------------------------- *)

Section PitchAndMatrix.

Import FeatureExtractor.

(** X26.  [extractPitch] returns 0 (unvoiced) or a pitch between 80 and
    400 Hz, whatever the frame and the sample rate. *)
Theorem extractPitch_range (frame : Frame) (sampleRate : nat) :
  extractPitch frame sampleRate = 0%float \/
  ((80 <=? extractPitch frame sampleRate)%float = true /\
   (extractPitch frame sampleRate <=? 400)%float = true).
Proof.
  unfold extractPitch.
  destruct (fold_left _ _ _) as [maxCorrelation bestLag].
  destruct (bestLag =? 0)%nat; [left; reflexivity |].
  change (float_of_nat 80) with 80%float.
  change (float_of_nat 400) with 400%float.
  destruct ((80 <=? float_of_nat sampleRate / float_of_nat bestLag)%float
            && (float_of_nat sampleRate / float_of_nat bestLag <=? 400)%float)
    eqn:E; [| left; reflexivity].
  right. apply andb_true_iff in E. exact E.
Qed.

Variable Meyda_mfcc : Frame -> nat -> nat -> MeydaOutcome (list float).
Variable Meyda_spectralCentroid : Frame -> nat -> MeydaOutcome float.

Lemma pushFeatures_fold (sampleRate numMFCC : nat) (frames : list Frame) :
  forall matrix index,
    let result :=
      fst (fold_left
             (pushFeatures Meyda_mfcc Meyda_spectralCentroid sampleRate
                numMFCC) frames (matrix, index)) in
    let extracted :=
      List.map
        (fun frame =>
           extractAllFeatures Meyda_mfcc Meyda_spectralCentroid frame
             sampleRate numMFCC) frames in
    fm_mfcc result = fm_mfcc matrix ++ List.map mfcc extracted /\
    fm_pitch result = fm_pitch matrix ++ List.map pitch extracted /\
    fm_rms result = fm_rms matrix ++ List.map rms extracted /\
    fm_zcr result = fm_zcr matrix ++ List.map zcr extracted /\
    fm_spectralCentroid result
    = fm_spectralCentroid matrix ++ List.map spectralCentroid extracted /\
    fm_timestamps result
    = fm_timestamps matrix
      ++ List.map (fun i => (float_of_nat i * frameSeconds)%float)
           (seq index (List.length frames)).
Proof.
  induction frames as [| frame frames IH]; intros matrix index; cbn zeta.
  - cbn. rewrite !app_nil_r. repeat split.
  - cbn [fold_left pushFeatures List.map List.length seq].
    specialize (IH
      {| fm_mfcc := fm_mfcc matrix ++
           [mfcc (extractAllFeatures Meyda_mfcc Meyda_spectralCentroid frame
                    sampleRate numMFCC)];
         fm_pitch := fm_pitch matrix ++
           [pitch (extractAllFeatures Meyda_mfcc Meyda_spectralCentroid frame
                     sampleRate numMFCC)];
         fm_rms := fm_rms matrix ++
           [rms (extractAllFeatures Meyda_mfcc Meyda_spectralCentroid frame
                   sampleRate numMFCC)];
         fm_zcr := fm_zcr matrix ++
           [zcr (extractAllFeatures Meyda_mfcc Meyda_spectralCentroid frame
                   sampleRate numMFCC)];
         fm_spectralCentroid := fm_spectralCentroid matrix ++
           [spectralCentroid
              (extractAllFeatures Meyda_mfcc Meyda_spectralCentroid frame
                 sampleRate numMFCC)];
         fm_timestamps := fm_timestamps matrix ++
           [(float_of_nat index * frameSeconds)%float] |} (S index)).
    cbn zeta in IH.
    cbn [fm_mfcc fm_pitch fm_rms fm_zcr fm_spectralCentroid fm_timestamps]
      in IH.
    rewrite <- !app_assoc in IH. exact IH.
Qed.

(** X27.  [buildFeatureMatrix] has one entry per frame in each of its six
    series, in the order of the frames: entry i of a series is that feature
    of frame i, and timestamp i is i * 0.025; no frames give an empty
    matrix. *)
Theorem buildFeatureMatrix_series (frames : list Frame)
    (sampleRate numMFCC : nat) :
  let matrix :=
    buildFeatureMatrix Meyda_mfcc Meyda_spectralCentroid frames sampleRate
      numMFCC in
  let extracted :=
    List.map
      (fun frame =>
         extractAllFeatures Meyda_mfcc Meyda_spectralCentroid frame
           sampleRate numMFCC) frames in
  fm_mfcc matrix = List.map mfcc extracted /\
  fm_pitch matrix = List.map pitch extracted /\
  fm_rms matrix = List.map rms extracted /\
  fm_zcr matrix = List.map zcr extracted /\
  fm_spectralCentroid matrix = List.map spectralCentroid extracted /\
  fm_timestamps matrix
  = List.map (fun i => (float_of_nat i * frameSeconds)%float)
      (seq 0 (List.length frames)) /\
  List.length (fm_pitch matrix) = List.length frames /\
  List.length (fm_timestamps matrix) = List.length frames.
Proof.
  cbn zeta. unfold buildFeatureMatrix.
  pose proof (pushFeatures_fold sampleRate numMFCC frames
                (mkFeatureMatrix [] [] [] [] [] []) 0%nat) as H.
  cbn zeta in H. cbn [fm_mfcc fm_pitch fm_rms fm_zcr fm_spectralCentroid
                      fm_timestamps app] in H.
  destruct H as (H1 & H2 & H3 & H4 & H5 & H6).
  repeat split; try assumption.
  - rewrite H2, !List.length_map. reflexivity.
  - rewrite H6, List.length_map, List.length_seq. reflexivity.
Qed.

End PitchAndMatrix.

(* --------------------------------------------------------------------- *)
(** ** Dashboard: the detection loop and the timer table                  *)
(* --------------------------------------------------------------------- *)

Section DetectionLoop.

Import Dashboard.

(** Looks a timer up after insertions and deletions, with the cases of
    equal ids. *)
Ltac lookup_timers :=
  repeat first
    [ rewrite lookup_insert in *
    | rewrite lookup_delete in *
    | case_decide; subst ];
  try discriminate; try congruence.

Lemma quiet_step (s : State) (ev : Event * Env) :
  fst ev <> ClickManualAlert -> riskOf (snd ev) <= 0.75 ->
  quiet s -> quiet (step s ev).
Proof.
  destruct ev as [e env]. cbn [fst snd]. intros Hnot Hrisk.
  destruct s as [on score level shown count detRef hrRef cdRef table next
                 pending sent navigated].
  unfold quiet. cbn.
  intros (-> & -> & -> & -> & Hsus & Hcd).
  destruct e as [id | outcome | | |]; cbn;
    [| repeat split; assumption | | congruence | repeat split; assumption].
  - destruct (table !! id) as [[| |] |] eqn:Hid; cbn.
    + unfold detectionTick. cbn.
      replace (Qgtb (RiskEngine.calculateRisk (sensedGesture env)
                       (sensedStress env) (sensedMotion env)) 0.75)
        with false by (symmetry; apply Qgtb_false; exact Hrisk).
      cbn. repeat split; assumption.
    + exfalso. exact (Hsus id Hid).
    + exfalso. exact (Hcd id Hid).
    + repeat split; assumption.
  - unfold toggleProtection, effectCleanup. cbn.
    destruct on; cbn; destruct detRef as [d |]; cbn;
      repeat split; try reflexivity; intros id; lookup_timers;
      try apply Hsus; try apply Hcd.
Qed.

(** X28.  No emergency without a cause: as long as the manual alert is
    not raised and no detection tick fuses a risk above 0.75, whatever else
    happens (ticks, toggling protection, pressing cancel, lookups settling),
    the pre-alert card is never shown, no countdown or sustain timeout is
    registered, and no emergency event is sent or waiting. *)
Theorem no_alert_without_cause (trace : list (Event * Env)) :
  Forall (fun ev => fst ev <> ClickManualAlert /\ riskOf (snd ev) <= 0.75)
         trace ->
  showPreAlert (run initial trace) = false /\
  triggerCount (run initial trace) = 0%nat /\
  (forall id, timers (run initial trace) !! id <> Some CountdownStep) /\
  (forall id, timers (run initial trace) !! id <> Some SustainTimeout).
Proof.
  intros Hall.
  assert (Hgen : forall s, quiet s -> quiet (run s trace)).
  { unfold run. induction Hall as [| ev trace [Hnot Hrisk] _ IH]; intros s Hs.
    - exact Hs.
    - cbn [fold_left]. apply IH. apply quiet_step; assumption. }
  assert (Hq : quiet (run initial trace)).
  { apply Hgen. unfold quiet. cbn.
    repeat split; intros id; rewrite lookup_empty; discriminate. }
  destruct Hq as (Hshown & _ & Hpend & Hsent & Hsus & Hcd).
  unfold triggerCount. rewrite Hpend, Hsent.
  repeat split; auto.
Qed.

(** Closes a goal about the timer table from the three clauses of
    [wellTimed] for the state before. *)
Ltac close_timers Hfresh Hdet Hsus :=
  intros; lookup_timers;
  repeat match goal with
  | H : _ !! _ = Some DetectionLoop |- _ =>
      let H1 := fresh in let H2 := fresh in
      destruct (Hdet _ H) as [H1 H2]; clear H
  | H : _ !! _ = Some SustainTimeout |- _ =>
      let H1 := fresh in let H2 := fresh in
      destruct (Hsus _ H) as [H1 H2]; clear H
  | H : _ !! _ = Some _ |- (_ < _)%nat =>
      apply Hfresh in H; lia
  end;
  try discriminate; try congruence; try lia; auto.

Lemma wellTimed_step (s : State) (ev : Event * Env) :
  wellTimed s -> wellTimed (step s ev).
Proof.
  destruct ev as [e env].
  destruct s as [on score level shown count detRef hrRef cdRef table next
                 pending sent navigated].
  unfold wellTimed. cbn. intros (Hfresh & Hdet & Hsus).
  destruct e as [id | outcome | | |]; cbn.
  - destruct (table !! id) as [[| |] |] eqn:Hid; cbn.
    + destruct (Hdet id Hid) as [-> ->].
      unfold detectionTick. cbn.
      destruct (Qgtb _ 0.75); destruct hrRef as [t |]; cbn;
        repeat split; close_timers Hfresh Hdet Hsus.
    + destruct (Hsus id Hid) as [-> ->].
      repeat split; close_timers Hfresh Hdet Hsus.
    + unfold countdownStep. cbn.
      destruct (count <=? 1)%Z; cbn; [destruct cdRef as [c |]; cbn |];
        repeat split; close_timers Hfresh Hdet Hsus.
    + repeat split; close_timers Hfresh Hdet Hsus.
  - unfold settleLookup. cbn. destruct pending; cbn;
      repeat split; close_timers Hfresh Hdet Hsus.
  - unfold toggleProtection, effectCleanup. cbn.
    destruct on; cbn; destruct detRef as [d |], hrRef as [t |]; cbn;
      repeat split; close_timers Hfresh Hdet Hsus.
  - repeat split; close_timers Hfresh Hdet Hsus.
  - destruct shown; [| cbn; repeat split; close_timers Hfresh Hdet Hsus].
    unfold cancelAlert. cbn.
    destruct cdRef as [c |], hrRef as [t |]; cbn;
      repeat split; close_timers Hfresh Hdet Hsus.
Qed.

(** X29.  The timer table stays in order through any sequence of events
    on a mounted dashboard: every registered id is below the next id to be
    handed out, so no id is used twice; a registered detection interval or
    sustain timeout is the one its ref names, so there is at most one of
    each; and while protection is off neither is registered. *)
Theorem timers_in_order (trace : list (Event * Env)) :
  (forall id cb,
     timers (run initial trace) !! id = Some cb ->
     (id < nextTimerId (run initial trace))%nat) /\
  (forall id,
     timers (run initial trace) !! id = Some DetectionLoop ->
     detectionIntervalRef (run initial trace) = Some id) /\
  (forall id,
     timers (run initial trace) !! id = Some SustainTimeout ->
     highRiskTimerRef (run initial trace) = Some id) /\
  (isProtectionOn (run initial trace) = false ->
   forall id,
     timers (run initial trace) !! id <> Some DetectionLoop /\
     timers (run initial trace) !! id <> Some SustainTimeout).
Proof.
  assert (H : wellTimed (run initial trace)).
  { unfold run.
    induction trace as [| ev trace IH] using rev_ind.
    - unfold wellTimed. cbn.
      repeat split; intros; rewrite lookup_empty in *; discriminate.
    - rewrite fold_left_app. cbn [fold_left]. apply wellTimed_step.
      exact IH. }
  destruct H as (Hfresh & Hdet & Hsus).
  split; [exact Hfresh |].
  split; [intros id Hid; apply (Hdet id Hid) |].
  split; [intros id Hid; apply (Hsus id Hid) |].
  intros Hoff id. split; intros Hid.
  - destruct (Hdet id Hid) as [_ Hon]. congruence.
  - destruct (Hsus id Hid) as [_ Hon]. congruence.
Qed.

(** X30.  What a tick of the detection loop does with the threshold: it
    publishes the fused risk and its level; a risk above 0.75 with no sustain
    timeout on record registers one (and the level is danger); a risk above
    0.75 with a timeout on record changes neither the ref nor the timers, so
    a running timeout is not restarted; and a risk of 0.75 or less clears the
    ref and the timeout it names. *)
Theorem detection_tick_threshold (s : State) (id : nat) (env : Env) :
  timers s !! id = Some DetectionLoop ->
  let s' := step s (TimerFires id, env) in
  riskScore s' = riskOf env /\
  riskLevel s' = RiskEngine.getRiskLevel (riskOf env) /\
  (0.75 < riskOf env -> highRiskTimerRef s = None ->
   highRiskTimerRef s' = Some (nextTimerId s) /\
   timers s' !! nextTimerId s = Some SustainTimeout /\
   riskLevel s' = RiskEngine.danger) /\
  (0.75 < riskOf env ->
   forall t, highRiskTimerRef s = Some t ->
             highRiskTimerRef s' = Some t /\ timers s' = timers s) /\
  (riskOf env <= 0.75 ->
   highRiskTimerRef s' = None /\
   forall t, highRiskTimerRef s = Some t -> timers s' !! t = None).
Proof.
  intros Hid. cbn zeta. cbn [step]. rewrite Hid.
  unfold detectionTick, riskOf.
  set (risk := RiskEngine.calculateRisk (sensedGesture env)
                 (sensedStress env) (sensedMotion env)).
  destruct s as [on score level shown count detRef hrRef cdRef table next
                 pending sent navigated].
  cbn. case_cmp (Qgtb risk 0.75).
  - split; [destruct hrRef; reflexivity |].
    split; [destruct hrRef; reflexivity |].
    split.
    { intros _ ->. cbn. split; [reflexivity |].
      split; [apply lookup_insert_eq |].
      apply getRiskLevel_danger. lra. }
    split; [| intros Hle; exfalso; lra].
    intros _ t ->. cbn. split; reflexivity.
  - split; [destruct hrRef; reflexivity |].
    split; [destruct hrRef; reflexivity |].
    split; [intros Hgt; exfalso; lra |].
    split; [intros Hgt; exfalso; lra |].
    intros _. destruct hrRef as [t |]; cbn.
    + split; [reflexivity |]. intros t' Ht. injection Ht as <-.
      apply lookup_delete_eq.
    + split; [reflexivity | discriminate].
Qed.

End DetectionLoop.

Lemma no_alert_without_cause_witness :
  Dashboard.showPreAlert (Dashboard.run Dashboard.initial calmWatchTrace)
    = false /\
  Dashboard.triggerCount (Dashboard.run Dashboard.initial calmWatchTrace)
    = 0%nat /\
  (forall id,
     Dashboard.timers (Dashboard.run Dashboard.initial calmWatchTrace) !! id
       <> Some Dashboard.CountdownStep) /\
  (forall id,
     Dashboard.timers (Dashboard.run Dashboard.initial calmWatchTrace) !! id
       <> Some Dashboard.SustainTimeout).
Proof.
  apply (no_alert_without_cause calmWatchTrace).
  unfold calmWatchTrace, calmly. cbn [List.map].
  repeat constructor; cbn [fst snd]; try discriminate;
    vm_compute; discriminate.
Defined.

Lemma detection_tick_threshold_witness :
  Dashboard.timers armedDashboard !! 1%nat = Some Dashboard.DetectionLoop /\
  Dashboard.highRiskTimerRef
    (Dashboard.step armedDashboard (Dashboard.TimerFires 1, dangerEnv))
    = Some 2%nat.
Proof.
  split; [vm_compute; reflexivity |].
  destruct (detection_tick_threshold armedDashboard 1 dangerEnv)
    as (_ & _ & Harm & _); [vm_compute; reflexivity |].
  destruct Harm as [Href _]; [vm_compute; reflexivity .. | exact Href].
Defined.
